(** * Time correlation and GPU frequency calibration (rgxtimecorr.c)

    A shallow embedding of
    [services/server/devices/rgx/rgxtimecorr.c]: the clock-source AppHint
    interface, the host clock accessors, the calibration period
    start / stop / calculate routines, the timer-correlation record writer and
    the power / DVFS / periodic hooks.

    The C functions mutate a device node; here they are computations in a
    state-and-fault monad over a [Machine] record.  Every read of the hardware
    timer or of a host clock consumes one instant of an environment [World],
    and every externally visible effect is appended to a chronological
    [trace].  The three places where the C code has no defined behaviour
    (an array index out of range, a division by zero, a failed assertion in a
    build where assertions halt) are faults.

    [RGXGPUFreqCalibrationInitAppHintCallbacks] only registers [_GetClock]
    and [_SetClock] with the AppHint mechanism and has no counterpart here. *)

From Stdlib Require Import ZArith List Bool Lia String.
From stdpp Require Import base list.

Open Scope Z_scope.

(** ** Machine integers *)

(** [IMG_UINT32] and [IMG_UINT64] values are integers reduced modulo the
    word size; every arithmetic result that the C code stores in such a
    variable is wrapped explicitly. *)
Definition u32 (z : Z) : Z := z mod 2 ^ 32.
Definition u64 (z : Z) : Z := z mod 2 ^ 64.

(** ** Enumerations *)

Inductive PVRSRV_ERROR :=
| PVRSRV_OK
| PVRSRV_ERROR_INVALID_PARAMS
| PVRSRV_ERROR_OTHER (code : Z).

Definition PVRSRV_ERROR_eqb (a b : PVRSRV_ERROR) : bool :=
  match a, b with
  | PVRSRV_OK, PVRSRV_OK => true
  | PVRSRV_ERROR_INVALID_PARAMS, PVRSRV_ERROR_INVALID_PARAMS => true
  | PVRSRV_ERROR_OTHER x, PVRSRV_ERROR_OTHER y => x =? y
  | _, _ => false
  end.

(** [RGXTIMECORR_CLOCK_TYPE]: the order is the one of the name table
    [apszClocks] that [_SetClock] indexes with the enumeration value. *)
Definition RGXTIMECORR_CLOCK_MONO : Z := 0.
Definition RGXTIMECORR_CLOCK_MONO_RAW : Z := 1.
Definition RGXTIMECORR_CLOCK_SCHED : Z := 2.
Definition RGXTIMECORR_CLOCK_LAST : Z := 3.

Definition apszClocks : list string :=
  ["mono"; "mono_raw"; "sched"]%string.

Inductive PVRSRV_DEV_POWER_STATE :=
| PVRSRV_DEV_POWER_STATE_DEFAULT
| PVRSRV_DEV_POWER_STATE_OFF
| PVRSRV_DEV_POWER_STATE_ON.

Definition is_power_on (p : PVRSRV_DEV_POWER_STATE) : bool :=
  match p with PVRSRV_DEV_POWER_STATE_ON => true | _ => false end.

Inductive DRIVER_MODE :=
| DRIVER_MODE_NATIVE
| DRIVER_MODE_HOST
| DRIVER_MODE_GUEST.

Definition is_guest (d : DRIVER_MODE) : bool :=
  match d with DRIVER_MODE_GUEST => true | _ => false end.

(** ** Build configuration and constants from headers

    The preprocessor switches the file tests, and the constants and macros it
    takes from headers, are the fields of one class: the code is verified for
    every platform. *)
Class Platform := {
  NO_HARDWARE : bool;
  SUPPORT_WORKLOAD_ESTIMATION : bool;
  CONFIG_MACH_MT6799 : bool;
  (** whether a failed [PVR_ASSERT] stops execution (debug builds) *)
  PVR_ASSERT_halts : bool;
  RGX_GPU_DVFS_GET_INDEX : Z -> Z;
  RGX_GPU_DVFS_FIRST_CALIBRATION_TIME_US : Z;
  RGX_GPU_DVFS_TRANSITION_CALIBRATION_TIME_US : Z;
  RGX_GPU_DVFS_PERIODIC_CALIBRATION_TIME_US : Z;
  RGXFWIF_TIME_CORR_ARRAY_SIZE : Z;
  RGXFWIF_GET_CRDELTA_TO_OSDELTA_K_NS : Z -> Z
}.

(** ** Device data *)

Record RGX_GPU_DVFS_TABLE := {
  ui64CalibrationCRTimestamp : Z;
  ui64CalibrationOSTimestamp : Z;
  ui64CalibrationCRTimediff : Z;
  ui64CalibrationOSTimediff : Z;
  ui32CalibrationPeriod : Z;
  ui32CurrentDVFSId : Z;
  bAccumulatePeriod : bool;
  aui32DVFSClock : list Z
}.

Record RGXFWIF_TIME_CORR := {
  ui64OSTimeStamp : Z;
  ui64OSMonoTimeStamp : Z;
  ui64CRTimeStamp : Z;
  ui32CoreClockSpeed : Z;
  ui64CRDeltaToOSDeltaKNs : Z
}.

Record RGXFWIF_GPU_UTIL_FWCB := {
  ui32TimeCorrSeqCount : Z;
  sTimeCorr : list RGXFWIF_TIME_CORR
}.

(** ** The environment *)

(** What the hardware timer and the three host clocks answer at each
    instant.  [OSClockMonotonicns64] reports a status and fills an output
    variable: the second component is what that variable holds after the
    call (the time on success, whatever it held otherwise). *)
Record World := {
  hw_timer : nat -> Z;
  clock_monotonic : nat -> PVRSRV_ERROR * Z;
  clock_monotonic_raw : nat -> Z;
  clock_sched : nat -> Z
}.

Inductive dpf_level := PVR_DBG_ERROR | PVR_DBG_WARNING | PVR_DBG_MESSAGE.

Inductive dpf_msg :=
| MsgInvalidClockSource (v : Z)
| MsgSettingClock (from to : option string)
| MsgMonotonicClockNotAvailable
| MsgCorrelated (os cr clk : Z)
| MsgUncalibratedFrequency (clk : Z)
| MsgCalibrationDone (old new over : Z).

Inductive event :=
| EvReadHWTimerReg (v : Z)
| EvOSClockMonotonicns64 (e : PVRSRV_ERROR) (v : Z)
| EvOSClockMonotonicRawns64 (v : Z)
| EvOSClockns64 (v : Z)
| EvDPF (l : dpf_level) (m : dpf_msg)
| EvAssertFailed
| EvWriteMemoryBarrier
| EvHTBSyncScale (bLogToHTB : bool) (os cr clk : Z)
| EvTryLockAcquire (ok : bool)
| EvPowerUnlock
| EvMTKQueryPowerState (v : Z).

(** The device node with everything the file reaches through it, the file's
    one global, and the environment. *)
Record Machine := {
  g_ui32ClockSource : Z;
  psGpuDVFSTable : RGX_GPU_DVFS_TABLE;
  psRGXFWIfGpuUtilFWCb : RGXFWIF_GPU_UTIL_FWCB;
  (** [psRGXData->psRGXTimingInfo->ui32CoreClockSpeed] *)
  timing_ui32CoreClockSpeed : Z;
  eDriverMode : DRIVER_MODE;
  ePowerState : PVRSRV_DEV_POWER_STATE;
  (** [hPowerLock]: [true] while some thread holds it *)
  hPowerLock : bool;
  env : World;
  now : nat;
  trace : list event
}.

(** *** Field updates *)

Definition set_CRTimestamp (v : Z) (t : RGX_GPU_DVFS_TABLE) :=
  {| ui64CalibrationCRTimestamp := v;
     ui64CalibrationOSTimestamp := ui64CalibrationOSTimestamp t;
     ui64CalibrationCRTimediff := ui64CalibrationCRTimediff t;
     ui64CalibrationOSTimediff := ui64CalibrationOSTimediff t;
     ui32CalibrationPeriod := ui32CalibrationPeriod t;
     ui32CurrentDVFSId := ui32CurrentDVFSId t;
     bAccumulatePeriod := bAccumulatePeriod t;
     aui32DVFSClock := aui32DVFSClock t |}.

Definition set_OSTimestamp (v : Z) (t : RGX_GPU_DVFS_TABLE) :=
  {| ui64CalibrationCRTimestamp := ui64CalibrationCRTimestamp t;
     ui64CalibrationOSTimestamp := v;
     ui64CalibrationCRTimediff := ui64CalibrationCRTimediff t;
     ui64CalibrationOSTimediff := ui64CalibrationOSTimediff t;
     ui32CalibrationPeriod := ui32CalibrationPeriod t;
     ui32CurrentDVFSId := ui32CurrentDVFSId t;
     bAccumulatePeriod := bAccumulatePeriod t;
     aui32DVFSClock := aui32DVFSClock t |}.

Definition set_CRTimediff (v : Z) (t : RGX_GPU_DVFS_TABLE) :=
  {| ui64CalibrationCRTimestamp := ui64CalibrationCRTimestamp t;
     ui64CalibrationOSTimestamp := ui64CalibrationOSTimestamp t;
     ui64CalibrationCRTimediff := v;
     ui64CalibrationOSTimediff := ui64CalibrationOSTimediff t;
     ui32CalibrationPeriod := ui32CalibrationPeriod t;
     ui32CurrentDVFSId := ui32CurrentDVFSId t;
     bAccumulatePeriod := bAccumulatePeriod t;
     aui32DVFSClock := aui32DVFSClock t |}.

Definition set_OSTimediff (v : Z) (t : RGX_GPU_DVFS_TABLE) :=
  {| ui64CalibrationCRTimestamp := ui64CalibrationCRTimestamp t;
     ui64CalibrationOSTimestamp := ui64CalibrationOSTimestamp t;
     ui64CalibrationCRTimediff := ui64CalibrationCRTimediff t;
     ui64CalibrationOSTimediff := v;
     ui32CalibrationPeriod := ui32CalibrationPeriod t;
     ui32CurrentDVFSId := ui32CurrentDVFSId t;
     bAccumulatePeriod := bAccumulatePeriod t;
     aui32DVFSClock := aui32DVFSClock t |}.

Definition set_CalibrationPeriod (v : Z) (t : RGX_GPU_DVFS_TABLE) :=
  {| ui64CalibrationCRTimestamp := ui64CalibrationCRTimestamp t;
     ui64CalibrationOSTimestamp := ui64CalibrationOSTimestamp t;
     ui64CalibrationCRTimediff := ui64CalibrationCRTimediff t;
     ui64CalibrationOSTimediff := ui64CalibrationOSTimediff t;
     ui32CalibrationPeriod := v;
     ui32CurrentDVFSId := ui32CurrentDVFSId t;
     bAccumulatePeriod := bAccumulatePeriod t;
     aui32DVFSClock := aui32DVFSClock t |}.

Definition set_CurrentDVFSId (v : Z) (t : RGX_GPU_DVFS_TABLE) :=
  {| ui64CalibrationCRTimestamp := ui64CalibrationCRTimestamp t;
     ui64CalibrationOSTimestamp := ui64CalibrationOSTimestamp t;
     ui64CalibrationCRTimediff := ui64CalibrationCRTimediff t;
     ui64CalibrationOSTimediff := ui64CalibrationOSTimediff t;
     ui32CalibrationPeriod := ui32CalibrationPeriod t;
     ui32CurrentDVFSId := v;
     bAccumulatePeriod := bAccumulatePeriod t;
     aui32DVFSClock := aui32DVFSClock t |}.

Definition set_AccumulatePeriod (v : bool) (t : RGX_GPU_DVFS_TABLE) :=
  {| ui64CalibrationCRTimestamp := ui64CalibrationCRTimestamp t;
     ui64CalibrationOSTimestamp := ui64CalibrationOSTimestamp t;
     ui64CalibrationCRTimediff := ui64CalibrationCRTimediff t;
     ui64CalibrationOSTimediff := ui64CalibrationOSTimediff t;
     ui32CalibrationPeriod := ui32CalibrationPeriod t;
     ui32CurrentDVFSId := ui32CurrentDVFSId t;
     bAccumulatePeriod := v;
     aui32DVFSClock := aui32DVFSClock t |}.

Definition set_DVFSClock (v : list Z) (t : RGX_GPU_DVFS_TABLE) :=
  {| ui64CalibrationCRTimestamp := ui64CalibrationCRTimestamp t;
     ui64CalibrationOSTimestamp := ui64CalibrationOSTimestamp t;
     ui64CalibrationCRTimediff := ui64CalibrationCRTimediff t;
     ui64CalibrationOSTimediff := ui64CalibrationOSTimediff t;
     ui32CalibrationPeriod := ui32CalibrationPeriod t;
     ui32CurrentDVFSId := ui32CurrentDVFSId t;
     bAccumulatePeriod := bAccumulatePeriod t;
     aui32DVFSClock := v |}.

Definition set_OSTimeStamp (v : Z) (r : RGXFWIF_TIME_CORR) :=
  {| ui64OSTimeStamp := v;
     ui64OSMonoTimeStamp := ui64OSMonoTimeStamp r;
     ui64CRTimeStamp := ui64CRTimeStamp r;
     ui32CoreClockSpeed := ui32CoreClockSpeed r;
     ui64CRDeltaToOSDeltaKNs := ui64CRDeltaToOSDeltaKNs r |}.

Definition set_OSMonoTimeStamp (v : Z) (r : RGXFWIF_TIME_CORR) :=
  {| ui64OSTimeStamp := ui64OSTimeStamp r;
     ui64OSMonoTimeStamp := v;
     ui64CRTimeStamp := ui64CRTimeStamp r;
     ui32CoreClockSpeed := ui32CoreClockSpeed r;
     ui64CRDeltaToOSDeltaKNs := ui64CRDeltaToOSDeltaKNs r |}.

Definition set_CRTimeStamp (v : Z) (r : RGXFWIF_TIME_CORR) :=
  {| ui64OSTimeStamp := ui64OSTimeStamp r;
     ui64OSMonoTimeStamp := ui64OSMonoTimeStamp r;
     ui64CRTimeStamp := v;
     ui32CoreClockSpeed := ui32CoreClockSpeed r;
     ui64CRDeltaToOSDeltaKNs := ui64CRDeltaToOSDeltaKNs r |}.

Definition set_CoreClockSpeed (v : Z) (r : RGXFWIF_TIME_CORR) :=
  {| ui64OSTimeStamp := ui64OSTimeStamp r;
     ui64OSMonoTimeStamp := ui64OSMonoTimeStamp r;
     ui64CRTimeStamp := ui64CRTimeStamp r;
     ui32CoreClockSpeed := v;
     ui64CRDeltaToOSDeltaKNs := ui64CRDeltaToOSDeltaKNs r |}.

Definition set_CRDeltaToOSDeltaKNs (v : Z) (r : RGXFWIF_TIME_CORR) :=
  {| ui64OSTimeStamp := ui64OSTimeStamp r;
     ui64OSMonoTimeStamp := ui64OSMonoTimeStamp r;
     ui64CRTimeStamp := ui64CRTimeStamp r;
     ui32CoreClockSpeed := ui32CoreClockSpeed r;
     ui64CRDeltaToOSDeltaKNs := v |}.

Definition set_ClockSource (v : Z) (m : Machine) :=
  {| g_ui32ClockSource := v;
     psGpuDVFSTable := psGpuDVFSTable m;
     psRGXFWIfGpuUtilFWCb := psRGXFWIfGpuUtilFWCb m;
     timing_ui32CoreClockSpeed := timing_ui32CoreClockSpeed m;
     eDriverMode := eDriverMode m;
     ePowerState := ePowerState m;
     hPowerLock := hPowerLock m;
     env := env m;
     now := now m;
     trace := trace m |}.

Definition set_table (t : RGX_GPU_DVFS_TABLE) (m : Machine) :=
  {| g_ui32ClockSource := g_ui32ClockSource m;
     psGpuDVFSTable := t;
     psRGXFWIfGpuUtilFWCb := psRGXFWIfGpuUtilFWCb m;
     timing_ui32CoreClockSpeed := timing_ui32CoreClockSpeed m;
     eDriverMode := eDriverMode m;
     ePowerState := ePowerState m;
     hPowerLock := hPowerLock m;
     env := env m;
     now := now m;
     trace := trace m |}.

Definition set_fwcb (c : RGXFWIF_GPU_UTIL_FWCB) (m : Machine) :=
  {| g_ui32ClockSource := g_ui32ClockSource m;
     psGpuDVFSTable := psGpuDVFSTable m;
     psRGXFWIfGpuUtilFWCb := c;
     timing_ui32CoreClockSpeed := timing_ui32CoreClockSpeed m;
     eDriverMode := eDriverMode m;
     ePowerState := ePowerState m;
     hPowerLock := hPowerLock m;
     env := env m;
     now := now m;
     trace := trace m |}.

Definition set_lock (b : bool) (m : Machine) :=
  {| g_ui32ClockSource := g_ui32ClockSource m;
     psGpuDVFSTable := psGpuDVFSTable m;
     psRGXFWIfGpuUtilFWCb := psRGXFWIfGpuUtilFWCb m;
     timing_ui32CoreClockSpeed := timing_ui32CoreClockSpeed m;
     eDriverMode := eDriverMode m;
     ePowerState := ePowerState m;
     hPowerLock := b;
     env := env m;
     now := now m;
     trace := trace m |}.

Definition set_now (n : nat) (m : Machine) :=
  {| g_ui32ClockSource := g_ui32ClockSource m;
     psGpuDVFSTable := psGpuDVFSTable m;
     psRGXFWIfGpuUtilFWCb := psRGXFWIfGpuUtilFWCb m;
     timing_ui32CoreClockSpeed := timing_ui32CoreClockSpeed m;
     eDriverMode := eDriverMode m;
     ePowerState := ePowerState m;
     hPowerLock := hPowerLock m;
     env := env m;
     now := n;
     trace := trace m |}.

Definition set_trace (l : list event) (m : Machine) :=
  {| g_ui32ClockSource := g_ui32ClockSource m;
     psGpuDVFSTable := psGpuDVFSTable m;
     psRGXFWIfGpuUtilFWCb := psRGXFWIfGpuUtilFWCb m;
     timing_ui32CoreClockSpeed := timing_ui32CoreClockSpeed m;
     eDriverMode := eDriverMode m;
     ePowerState := ePowerState m;
     hPowerLock := hPowerLock m;
     env := env m;
     now := now m;
     trace := l |}.

(** ** The monad: state with faults *)

Inductive fault := DivideByZero | OutOfBounds | AssertionFailed.

Inductive outcome (A : Type) :=
| Ok (a : A) (m : Machine)
| Crash (f : fault).
Arguments Ok {A} a m.
Arguments Crash {A} f.

Definition M (A : Type) : Type := Machine -> outcome A.

Definition ret {A} (a : A) : M A := fun m => Ok a m.

Definition bind {A B} (c : M A) (k : A -> M B) : M B :=
  fun m => match c m with
           | Ok a m' => k a m'
           | Crash f => Crash f
           end.

Definition crash {A} (f : fault) : M A := fun _ => Crash f.
Definition gets {A} (f : Machine -> A) : M A := fun m => Ok (f m) m.
Definition modify (f : Machine -> Machine) : M unit := fun m => Ok tt (f m).

Declare Scope rgx_scope.
Delimit Scope rgx_scope with rgx.
Notation "'do' x <- c ; k" := (bind c (fun x => k))
  (at level 10, x name, c at level 100, k at level 200) : rgx_scope.
Notation "'run' c ; k" := (bind c (fun _ => k))
  (at level 10, c at level 100, k at level 200) : rgx_scope.
Open Scope rgx_scope.

Definition emit (e : event) : M unit :=
  modify (fun m => set_trace (trace m ++ [e]) m).

Definition gets_table {A} (f : RGX_GPU_DVFS_TABLE -> A) : M A :=
  gets (fun m => f (psGpuDVFSTable m)).

Definition modify_table (f : RGX_GPU_DVFS_TABLE -> RGX_GPU_DVFS_TABLE) : M unit :=
  modify (fun m => set_table (f (psGpuDVFSTable m)) m).

(** Take the next instant of the environment. *)
Definition tick : M nat :=
  fun m => Ok (now m) (set_now (S (now m)) m).

(** Array accesses: a load or store outside the array has no defined
    behaviour in C and is a fault here. *)
Definition in_range {A} (i : Z) (l : list A) : bool :=
  (0 <=? i) && (i <? Z.of_nat (length l)).

Definition load {A} (l : list A) (i : Z) : M A :=
  if 0 <=? i then
    match l !! Z.to_nat i with
    | Some v => ret v
    | None => crash OutOfBounds
    end
  else crash OutOfBounds.

Definition update {A} (f : A -> A) (l : list A) (i : Z) : M (list A) :=
  do v <- load l i; ret (<[Z.to_nat i := f v]> l).

Definition store {A} (l : list A) (i : Z) (v : A) : M (list A) :=
  update (fun _ => v) l i.

(** ** External collaborators

    None of the functions and macros of this part is in the file; each is
    modelled by what the specification says of it. *)

(** Modelled from the spec: [PVR_DPF] writes a line to the log, "a
    write-only event consumer". *)
Definition PVR_DPF (l : dpf_level) (msg : dpf_msg) : M unit := emit (EvDPF l msg).

(** Modelled from the spec: [RGXReadHWTimerReg] is the "opaque external
    function returning a 64-bit tick count". *)
Definition RGXReadHWTimerReg : M Z :=
  do n <- tick;
  do w <- gets env;
  let v := u64 (hw_timer w n) in
  run emit (EvReadHWTimerReg v);
  ret v.

(** Modelled from the spec: the host clock variants, [ReadHostClock(selector)
    -> u64 nanoseconds]; a read can fail ([ClockUnavailable]), which only
    [OSClockMonotonicns64] can report, through its status. *)
Definition OSClockMonotonicns64 : M (PVRSRV_ERROR * Z) :=
  do n <- tick;
  do w <- gets env;
  let r := clock_monotonic w n in
  let v := u64 (snd r) in
  run emit (EvOSClockMonotonicns64 (fst r) v);
  ret (fst r, v).

Definition OSClockMonotonicRawns64 : M Z :=
  do n <- tick;
  do w <- gets env;
  let v := u64 (clock_monotonic_raw w n) in
  run emit (EvOSClockMonotonicRawns64 v);
  ret v.

Definition OSClockns64 : M Z :=
  do n <- tick;
  do w <- gets env;
  let v := u64 (clock_sched w n) in
  run emit (EvOSClockns64 v);
  ret v.

(** Modelled from the spec: [OSDivide64r64] and [OSDivide64] are not in this
    file; the spec describes them as integer division, rounding down, "with
    an explicit remainder".  The result is the pair (quotient, remainder). *)
Definition OSDivide64r64 (n d : Z) : M (Z * Z) :=
  if d =? 0 then crash DivideByZero else ret (n / d, n mod d).

(** Modelled from the spec: the macro [RGXFWIF_GET_GPU_CLOCK_FREQUENCY_HZ] is
    not in this file; the spec gives it as
    [calibratedHz = accumulatedTicks * 1_000_000 / accumulatedHostTimeUs],
    "with integer division and an explicit remainder".  Its operands are
    64-bit unsigned, so the product is taken modulo [2 ^ 64]. *)
Definition RGXFWIF_GET_GPU_CLOCK_FREQUENCY_HZ (deltacr deltaos : Z) : M (Z * Z) :=
  OSDivide64r64 (u64 (deltacr * 1000000)) deltaos.

(** Modelled from the spec: the power lock, with
    [AcquirePowerLockNonBlocking() -> bool], which never waits,
    [ReleasePowerLock()] and [QueryPowerState()]. *)
Definition OSTryLockAcquire : M bool :=
  do held <- gets hPowerLock;
  if held then
    run emit (EvTryLockAcquire false);
    ret false
  else
    run modify (set_lock true);
    run emit (EvTryLockAcquire true);
    ret true.

Definition PVRSRVPowerUnlock : M unit :=
  run modify (set_lock false);
  emit EvPowerUnlock.

Definition PVRSRVGetDevicePowerState : M PVRSRV_DEV_POWER_STATE :=
  gets ePowerState.

(** Modelled from the spec: [HTBSyncScale] is the "fire-and-forget sink"
    [ForwardCorrelationToTrace], told whether to log; [OSWriteMemoryBarrier]
    orders the writes before it against those after it and has no effect on
    a single thread. *)
Definition HTBSyncScale (bLogToHTB : bool) (os cr clk : Z) : M unit :=
  emit (EvHTBSyncScale bLogToHTB os cr clk).

Definition OSWriteMemoryBarrier : M unit := emit EvWriteMemoryBarrier.

Section Code.
Context `{P : Platform}.

(** Modelled from the spec: a violated invariant "should abort/assert in
    debug builds"; elsewhere [PVR_ASSERT] lets execution go on. *)
Definition PVR_ASSERT (b : bool) : M unit :=
  if b then ret tt
  else if PVR_ASSERT_halts then crash AssertionFailed
  else emit EvAssertFailed.

(** Modelled from the spec: the macro [RGXFWIF_TIME_CORR_CURR_INDEX] is not
    in this file; the spec gives [slot = sequence mod ring size]. *)
Definition RGXFWIF_TIME_CORR_CURR_INDEX (seq : Z) : Z :=
  seq mod RGXFWIF_TIME_CORR_ARRAY_SIZE.

(** ** AppHint interface: the guarded setter comes after the hooks below *)


(** ** Host clock accessors *)

Definition RGXGPUFreqCalibrateClockns64 : M Z :=
  do src <- gets g_ui32ClockSource;
  if src =? RGXTIMECORR_CLOCK_MONO then
    do r <- OSClockMonotonicns64;
    ret (snd r)
  else if src =? RGXTIMECORR_CLOCK_MONO_RAW then OSClockMonotonicRawns64
  else if src =? RGXTIMECORR_CLOCK_SCHED then OSClockns64
  else
    run PVR_ASSERT false;
    ret 0.

Definition RGXGPUFreqCalibrateClockus64 : M Z :=
  do ns <- RGXGPUFreqCalibrateClockns64;
  do qr <- OSDivide64r64 ns 1000;
  ret (fst qr).

(** ** The correlation record writer *)

Definition modify_fwcb (f : RGXFWIF_GPU_UTIL_FWCB -> RGXFWIF_GPU_UTIL_FWCB) : M unit :=
  modify (fun m => set_fwcb (f (psRGXFWIfGpuUtilFWCb m)) m).

(** [psTimeCorr->field = v] for the slot [slot] of [sTimeCorr]. *)
Definition write_TimeCorr (slot : Z) (f : RGXFWIF_TIME_CORR -> RGXFWIF_TIME_CORR) : M unit :=
  do ring <- gets (fun m => sTimeCorr (psRGXFWIfGpuUtilFWCb m));
  do ring' <- update f ring slot;
  modify_fwcb (fun c => {| ui32TimeCorrSeqCount := ui32TimeCorrSeqCount c;
                           sTimeCorr := ring' |}).

Definition read_TimeCorr (slot : Z) : M RGXFWIF_TIME_CORR :=
  do ring <- gets (fun m => sTimeCorr (psRGXFWIfGpuUtilFWCb m));
  load ring slot.

(** The block under [#if defined(SUPPORT_WORKLOAD_ESTIMATION)] that fills
    [ui64OSMonoTime], initialised to zero. *)
Definition read_OSMonoTime : M Z :=
  if SUPPORT_WORKLOAD_ESTIMATION then
    do r <- OSClockMonotonicns64;
    run (if PVRSRV_ERROR_eqb (fst r) PVRSRV_OK then ret tt
         else
           run PVR_DPF PVR_DBG_ERROR MsgMonotonicClockNotAvailable;
           PVR_ASSERT false);
    ret (snd r)
  else ret 0.

Definition _RGXMakeTimeCorrData (bLogToHTB : bool) : M unit :=
  do cur <- gets_table ui32CurrentDVFSId;
  do clocks <- gets_table aui32DVFSClock;
  do coreClockSpeed <- load clocks cur;
  do ui64OSMonoTime <- read_OSMonoTime;
  do seq <- gets (fun m => ui32TimeCorrSeqCount (psRGXFWIfGpuUtilFWCb m));
  let ui32NewSeqCount := u32 (seq + 1) in
  let slot := RGXFWIF_TIME_CORR_CURR_INDEX ui32NewSeqCount in
  do cr <- RGXReadHWTimerReg;
  run write_TimeCorr slot (set_CRTimeStamp cr);
  do os <- RGXGPUFreqCalibrateClockns64;
  run write_TimeCorr slot (set_OSTimeStamp os);
  run (if SUPPORT_WORKLOAD_ESTIMATION
       then write_TimeCorr slot (set_OSMonoTimeStamp ui64OSMonoTime)
       else ret tt);
  run write_TimeCorr slot (set_CoreClockSpeed coreClockSpeed);
  run write_TimeCorr slot
        (set_CRDeltaToOSDeltaKNs (RGXFWIF_GET_CRDELTA_TO_OSDELTA_K_NS coreClockSpeed));
  run OSWriteMemoryBarrier;
  run modify_fwcb (fun c => {| ui32TimeCorrSeqCount := ui32NewSeqCount;
                               sTimeCorr := sTimeCorr c |});
  do rec <- read_TimeCorr slot;
  run PVR_DPF PVR_DBG_MESSAGE
        (MsgCorrelated (ui64OSTimeStamp rec) (ui64CRTimeStamp rec) (ui32CoreClockSpeed rec));
  HTBSyncScale bLogToHTB (ui64OSTimeStamp rec) (ui64CRTimeStamp rec) (ui32CoreClockSpeed rec).

(** ** Calibration periods *)

Definition _RGXGPUFreqCalibrationPeriodStart : M unit :=
  do coreClockSpeed <- gets timing_ui32CoreClockSpeed;
  let ui32Index := RGX_GPU_DVFS_GET_INDEX coreClockSpeed in
  do ui64CRTimestamp <- RGXReadHWTimerReg;
  do ui64OSTimestamp <- RGXGPUFreqCalibrateClockus64;
  run modify_table (set_CRTimestamp ui64CRTimestamp);
  run modify_table (set_OSTimestamp ui64OSTimestamp);
  do clocks <- gets_table aui32DVFSClock;
  do known <- load clocks ui32Index;
  do period <- gets_table ui32CalibrationPeriod;
  run (if (known =? 0) || (known =? coreClockSpeed) then
         do clocks' <- store clocks ui32Index coreClockSpeed;
         run modify_table (set_DVFSClock clocks');
         run modify_table (set_CalibrationPeriod RGX_GPU_DVFS_FIRST_CALIBRATION_TIME_US);
         PVR_DPF PVR_DBG_MESSAGE (MsgUncalibratedFrequency coreClockSpeed)
       else if period =? RGX_GPU_DVFS_FIRST_CALIBRATION_TIME_US then
         modify_table (set_CalibrationPeriod RGX_GPU_DVFS_TRANSITION_CALIBRATION_TIME_US)
       else
         modify_table (set_CalibrationPeriod RGX_GPU_DVFS_PERIODIC_CALIBRATION_TIME_US));
  modify_table (set_CurrentDVFSId ui32Index).

Definition _RGXGPUFreqCalibrationPeriodStop : M unit :=
  do ui64CRTimestamp <- RGXReadHWTimerReg;
  do ui64OSTimestamp <- RGXGPUFreqCalibrateClockus64;
  do acc <- gets_table bAccumulatePeriod;
  run (if negb acc then
         run modify_table (set_CRTimediff 0);
         modify_table (set_OSTimediff 0)
       else ret tt);
  run modify_table (fun t =>
        set_CRTimediff
          (u64 (ui64CalibrationCRTimediff t
                + u64 (ui64CRTimestamp - ui64CalibrationCRTimestamp t))) t);
  modify_table (fun t =>
        set_OSTimediff
          (u64 (ui64CalibrationOSTimediff t
                + u64 (ui64OSTimestamp - ui64CalibrationOSTimestamp t))) t).

Definition _RGXGPUFreqCalibrationCalculate : M Z :=
  if NO_HARDWARE then
    do cur <- gets_table ui32CurrentDVFSId;
    do clocks <- gets_table aui32DVFSClock;
    load clocks cur
  else
    do crdiff <- gets_table ui64CalibrationCRTimediff;
    do osdiff <- gets_table ui64CalibrationOSTimediff;
    do qr <- RGXFWIF_GET_GPU_CLOCK_FREQUENCY_HZ crdiff osdiff;
    let ui32CalibratedClockSpeed := u32 (fst qr) in
    do cur <- gets_table ui32CurrentDVFSId;
    do clocks <- gets_table aui32DVFSClock;
    do old <- load clocks cur;
    run PVR_DPF PVR_DBG_MESSAGE (MsgCalibrationDone old ui32CalibratedClockSpeed osdiff);
    do clocks' <- store clocks cur ui32CalibratedClockSpeed;
    run modify_table (set_DVFSClock clocks');
    run modify_table (set_CRTimediff 0);
    run modify_table (set_OSTimediff 0);
    ret ui32CalibratedClockSpeed.

(** ** Hooks *)

(** Modelled from the spec: [PVRSRV_VZ_RETN_IF_MODE(DRIVER_MODE_GUEST)] and
    [PVRSRV_VZ_RET_IF_MODE(DRIVER_MODE_GUEST, v)] leave the function at once,
    returning [v], when the driver runs in the guest role: "all lifecycle
    hooks become no-ops for non-owning roles". *)
Definition unless_guest {A} (dflt : A) (body : M A) : M A :=
  do mode <- gets eDriverMode;
  if is_guest mode then ret dflt else body.

Definition _RGXGPUFreqCalibratePreClockSourceChange : M unit :=
  unless_guest tt (
    run _RGXGPUFreqCalibrationPeriodStop;
    do osdiff <- gets_table ui64CalibrationOSTimediff;
    do period <- gets_table ui32CalibrationPeriod;
    if period <=? osdiff then
      do _v <- _RGXGPUFreqCalibrationCalculate; ret tt
    else ret tt).

Definition _RGXGPUFreqCalibratePostClockSourceChange : M unit :=
  unless_guest tt (
    run modify_table (set_AccumulatePeriod true);
    run _RGXGPUFreqCalibrationPeriodStart;
    _RGXMakeTimeCorrData true).

Definition RGXGPUFreqCalibratePrePowerOff : M unit :=
  unless_guest tt (
    run _RGXGPUFreqCalibrationPeriodStop;
    do osdiff <- gets_table ui64CalibrationOSTimediff;
    do period <- gets_table ui32CalibrationPeriod;
    if period <=? osdiff then
      do _v <- _RGXGPUFreqCalibrationCalculate; ret tt
    else ret tt).

Definition RGXGPUFreqCalibratePostPowerOn : M unit :=
  do coreClockSpeed <- gets timing_ui32CoreClockSpeed;
  unless_guest tt (
    do cur <- gets_table ui32CurrentDVFSId;
    run modify_table
          (set_AccumulatePeriod (RGX_GPU_DVFS_GET_INDEX coreClockSpeed =? cur));
    run (if CONFIG_MACH_MT6799 then emit (EvMTKQueryPowerState 1) else ret tt);
    run _RGXGPUFreqCalibrationPeriodStart;
    _RGXMakeTimeCorrData false).

Definition RGXGPUFreqCalibratePreClockSpeedChange : M unit :=
  unless_guest tt _RGXGPUFreqCalibrationPeriodStop.

Definition RGXGPUFreqCalibratePostClockSpeedChange (ui32NewClockSpeed : Z) : M Z :=
  unless_guest ui32NewClockSpeed (
    do cur <- gets_table ui32CurrentDVFSId;
    if negb (RGX_GPU_DVFS_GET_INDEX ui32NewClockSpeed =? cur) then
      do osdiff <- gets_table ui64CalibrationOSTimediff;
      do ui32ReturnedClockSpeed <-
        (if RGX_GPU_DVFS_TRANSITION_CALIBRATION_TIME_US <=? osdiff
         then _RGXGPUFreqCalibrationCalculate
         else ret ui32NewClockSpeed);
      run _RGXGPUFreqCalibrationPeriodStart;
      run _RGXMakeTimeCorrData true;
      run modify_table (set_AccumulatePeriod false);
      ret ui32ReturnedClockSpeed
    else
      run modify_table (set_AccumulatePeriod true);
      ret ui32NewClockSpeed).

Definition RGXGPUFreqCalibrateCorrelatePeriodic : M unit :=
  do ui64TimeNow <- RGXGPUFreqCalibrateClockus64;
  unless_guest tt (
    do started <- gets_table ui64CalibrationOSTimestamp;
    do period <- gets_table ui32CalibrationPeriod;
    if u64 (ui64TimeNow - started) <? period then ret tt
    else
      do locked <- OSTryLockAcquire;
      if negb locked then ret tt
      else
        do ePowerState <- PVRSRVGetDevicePowerState;
        if negb (is_power_on ePowerState) then PVRSRVPowerUnlock
        else
          run _RGXGPUFreqCalibrationPeriodStop;
          do _v <- _RGXGPUFreqCalibrationCalculate;
          run _RGXGPUFreqCalibrationPeriodStart;
          run _RGXMakeTimeCorrData true;
          PVRSRVPowerUnlock).

(** ** AppHint interface: the setter *)

Definition _SetClock (ui32Value : Z) : M PVRSRV_ERROR :=
  if RGXTIMECORR_CLOCK_LAST <=? ui32Value then
    run PVR_DPF PVR_DBG_ERROR (MsgInvalidClockSource ui32Value);
    ret PVRSRV_ERROR_INVALID_PARAMS
  else
    run _RGXGPUFreqCalibratePreClockSourceChange;
    do old <- gets g_ui32ClockSource;
    run PVR_DPF PVR_DBG_WARNING
          (MsgSettingClock (apszClocks !! Z.to_nat old) (apszClocks !! Z.to_nat ui32Value));
    run modify (set_ClockSource ui32Value);
    run _RGXGPUFreqCalibratePostClockSourceChange;
    ret PVRSRV_OK.


Definition RGXGPUFreqCalibrateSetClockSource (eClockType : Z) : M PVRSRV_ERROR :=
  _SetClock eClockType.

End Code.

Arguments RGXFWIF_TIME_CORR_CURR_INDEX {P} seq : simpl never.

(** ** Observations and well-formedness *)

(** The hardware timer [k] instants from now, as [RGXReadHWTimerReg] returns
    it. *)
Definition hw_at (m : Machine) (k : nat) : Z :=
  u64 (hw_timer (env m) (k + now m)).

(** The host clock selected by [g_ui32ClockSource], [k] instants from now:
    the nanoseconds [RGXGPUFreqCalibrateClockns64] returns and the call it
    makes. *)
Definition host_ns_at (m : Machine) (k : nat) : Z :=
  let src := g_ui32ClockSource m in
  if src =? RGXTIMECORR_CLOCK_MONO then u64 (snd (clock_monotonic (env m) (k + now m)))
  else if src =? RGXTIMECORR_CLOCK_MONO_RAW then u64 (clock_monotonic_raw (env m) (k + now m))
  else if src =? RGXTIMECORR_CLOCK_SCHED then u64 (clock_sched (env m) (k + now m))
  else 0.

Definition host_event_at (m : Machine) (k : nat) : event :=
  let src := g_ui32ClockSource m in
  if src =? RGXTIMECORR_CLOCK_MONO then
    EvOSClockMonotonicns64 (fst (clock_monotonic (env m) (k + now m)))
                           (u64 (snd (clock_monotonic (env m) (k + now m))))
  else if src =? RGXTIMECORR_CLOCK_MONO_RAW then
    EvOSClockMonotonicRawns64 (u64 (clock_monotonic_raw (env m) (k + now m)))
  else if src =? RGXTIMECORR_CLOCK_SCHED then
    EvOSClockns64 (u64 (clock_sched (env m) (k + now m)))
  else EvAssertFailed.

Definition host_us_at (m : Machine) (k : nat) : Z := host_ns_at m k / 1000.

(** [k] instants consumed and the events [evs] emitted. *)
Definition advance (k : nat) (evs : list event) (m : Machine) : Machine :=
  set_trace (trace m ++ evs) (set_now (k + now m) m).

Definition clock_source_valid (m : Machine) : bool :=
  (0 <=? g_ui32ClockSource m) && (g_ui32ClockSource m <? RGXTIMECORR_CLOCK_LAST).

Definition current_in_range (m : Machine) : bool :=
  in_range (ui32CurrentDVFSId (psGpuDVFSTable m)) (aui32DVFSClock (psGpuDVFSTable m)).

(** Shorthands for the table of a machine. *)
Definition known_clock (m : Machine) (i : Z) : option Z :=
  aui32DVFSClock (psGpuDVFSTable m) !! Z.to_nat i.
Definition acc_ticks (m : Machine) : Z := ui64CalibrationCRTimediff (psGpuDVFSTable m).
Definition acc_host_us (m : Machine) : Z := ui64CalibrationOSTimediff (psGpuDVFSTable m).
Definition accumulate (m : Machine) : bool := bAccumulatePeriod (psGpuDVFSTable m).
Definition current_id (m : Machine) : Z := ui32CurrentDVFSId (psGpuDVFSTable m).
Definition target_us (m : Machine) : Z := ui32CalibrationPeriod (psGpuDVFSTable m).
Definition seq_count (m : Machine) : Z := ui32TimeCorrSeqCount (psRGXFWIfGpuUtilFWCb m).
Definition ring (m : Machine) : list RGXFWIF_TIME_CORR := sTimeCorr (psRGXFWIfGpuUtilFWCb m).

Definition set_accumulate (b : bool) (m : Machine) : Machine :=
  set_table (set_AccumulatePeriod b (psGpuDVFSTable m)) m.

Section Wf.
Context `{P : Platform}.

Definition nominal_index (m : Machine) : Z :=
  RGX_GPU_DVFS_GET_INDEX (timing_ui32CoreClockSpeed m).

Definition nominal_in_range (m : Machine) : bool :=
  in_range (nominal_index m) (aui32DVFSClock (psGpuDVFSTable m)).

(** The correlation ring has the size its index macro assumes. *)
Definition ring_wf (m : Machine) : bool :=
  (0 <? RGXFWIF_TIME_CORR_ARRAY_SIZE)
  && (Z.of_nat (length (ring m)) =? RGXFWIF_TIME_CORR_ARRAY_SIZE).

(** In a build that both reads the monotonic clock for workload estimation
    and halts on a failed assertion, that clock must not fail. *)
Definition workload_clock_ok (m : Machine) : Prop :=
  SUPPORT_WORKLOAD_ESTIMATION = true -> PVR_ASSERT_halts = true ->
  forall n, fst (clock_monotonic (env m) n) = PVRSRV_OK.

(** The slot [_RGXMakeTimeCorrData] writes next. *)
Definition next_seq (m : Machine) : Z := u32 (seq_count m + 1).
Definition next_slot (m : Machine) : Z := RGXFWIF_TIME_CORR_CURR_INDEX (next_seq m).

End Wf.

(** ** A sample platform and device *)

Definition sample_platform : Platform := {|
  NO_HARDWARE := false;
  SUPPORT_WORKLOAD_ESTIMATION := false;
  CONFIG_MACH_MT6799 := true;
  PVR_ASSERT_halts := false;
  RGX_GPU_DVFS_GET_INDEX := fun clk => clk / 100000000;
  RGX_GPU_DVFS_FIRST_CALIBRATION_TIME_US := 4000000;
  RGX_GPU_DVFS_TRANSITION_CALIBRATION_TIME_US := 150000;
  RGX_GPU_DVFS_PERIODIC_CALIBRATION_TIME_US := 25000;
  RGXFWIF_TIME_CORR_ARRAY_SIZE := 4;
  RGXFWIF_GET_CRDELTA_TO_OSDELTA_K_NS := fun clk => 2 ^ 20 * 1000000000 / (clk + 1)
|}.

(** A one-gigahertz timer, and host clocks that advance by a tenth of a
    second per instant. *)
Definition sample_world : World := {|
  hw_timer := fun n => Z.of_nat n * 100000000;
  clock_monotonic := fun n => (PVRSRV_OK, Z.of_nat n * 100000000);
  clock_monotonic_raw := fun n => Z.of_nat n * 100000000;
  clock_sched := fun n => Z.of_nat n * 100000000
|}.

Definition empty_corr : RGXFWIF_TIME_CORR := {|
  ui64OSTimeStamp := 0;
  ui64OSMonoTimeStamp := 0;
  ui64CRTimeStamp := 0;
  ui32CoreClockSpeed := 0;
  ui64CRDeltaToOSDeltaKNs := 0
|}.

Definition sample_table : RGX_GPU_DVFS_TABLE := {|
  ui64CalibrationCRTimestamp := 0;
  ui64CalibrationOSTimestamp := 0;
  ui64CalibrationCRTimediff := 0;
  ui64CalibrationOSTimediff := 0;
  ui32CalibrationPeriod := 4000000;
  ui32CurrentDVFSId := 5;
  bAccumulatePeriod := false;
  aui32DVFSClock := [0; 0; 0; 0; 0; 500000000; 0; 0]
|}.

Definition sample_machine : Machine := {|
  g_ui32ClockSource := RGXTIMECORR_CLOCK_MONO;
  psGpuDVFSTable := sample_table;
  psRGXFWIfGpuUtilFWCb :=
    {| ui32TimeCorrSeqCount := 0;
       sTimeCorr := [empty_corr; empty_corr; empty_corr; empty_corr] |};
  timing_ui32CoreClockSpeed := 500000000;
  eDriverMode := DRIVER_MODE_NATIVE;
  ePowerState := PVRSRV_DEV_POWER_STATE_ON;
  hPowerLock := false;
  env := sample_world;
  now := 1;
  trace := []
|}.

(** The deltas a [_RGXGPUFreqCalibrationPeriodStop] measures when its two
    reads happen [k] and [k + 1] instants from now: what the timer and the
    host clock have advanced since the window opened, in 64-bit unsigned
    arithmetic. *)
Definition window_ticks (m : Machine) (k : nat) : Z :=
  u64 (hw_at m k - ui64CalibrationCRTimestamp (psGpuDVFSTable m)).
Definition window_host_us (m : Machine) (k : nat) : Z :=
  u64 (host_us_at m (S k) - ui64CalibrationOSTimestamp (psGpuDVFSTable m)).

(** What [_RGXGPUFreqCalibrationPeriodStop] leaves in the table. *)
Definition stopped_table (m : Machine) : RGX_GPU_DVFS_TABLE :=
  let t := psGpuDVFSTable m in
  let ticks0 := if bAccumulatePeriod t then ui64CalibrationCRTimediff t else 0 in
  let us0 := if bAccumulatePeriod t then ui64CalibrationOSTimediff t else 0 in
  set_OSTimediff (u64 (us0 + window_host_us m 0))
    (set_CRTimediff (u64 (ticks0 + window_ticks m 0)) t).

Section Record_written.
Context `{P : Platform}.

(** With workload estimation, [_RGXMakeTimeCorrData] first reads the
    monotonic clock once more. *)
Definition workload_reads : nat := if SUPPORT_WORKLOAD_ESTIMATION then 1%nat else 0%nat.

Definition workload_events (m : Machine) : list event :=
  if SUPPORT_WORKLOAD_ESTIMATION then
    let r := clock_monotonic (env m) (now m) in
    EvOSClockMonotonicns64 (fst r) (u64 (snd r))
    :: (if PVRSRV_ERROR_eqb (fst r) PVRSRV_OK then []
        else [EvDPF PVR_DBG_ERROR MsgMonotonicClockNotAvailable; EvAssertFailed])
  else [].

(** That read must succeed where a failed assertion halts. *)
Definition workload_read_ok (m : Machine) : Prop :=
  SUPPORT_WORKLOAD_ESTIMATION = true -> PVR_ASSERT_halts = true ->
  fst (clock_monotonic (env m) (now m)) = PVRSRV_OK.

(** The record [_RGXMakeTimeCorrData] writes over the slot content [old]
    when the current row holds [clk]. *)
Definition made_record (m : Machine) (old : RGXFWIF_TIME_CORR) (clk : Z) : RGXFWIF_TIME_CORR :=
  {| ui64OSTimeStamp := host_ns_at m (S workload_reads);
     ui64OSMonoTimeStamp :=
       if SUPPORT_WORKLOAD_ESTIMATION
       then u64 (snd (clock_monotonic (env m) (now m)))
       else ui64OSMonoTimeStamp old;
     ui64CRTimeStamp := hw_at m workload_reads;
     ui32CoreClockSpeed := clk;
     ui64CRDeltaToOSDeltaKNs := RGXFWIF_GET_CRDELTA_TO_OSDELTA_K_NS clk |}.

Definition made_events (m : Machine) (bLogToHTB : bool) (clk : Z) : list event :=
  workload_events m
  ++ [EvReadHWTimerReg (hw_at m workload_reads);
      host_event_at m (S workload_reads);
      EvWriteMemoryBarrier;
      EvDPF PVR_DBG_MESSAGE
        (MsgCorrelated (host_ns_at m (S workload_reads)) (hw_at m workload_reads) clk);
      EvHTBSyncScale bLogToHTB (host_ns_at m (S workload_reads))
        (hw_at m workload_reads) clk].

(** The machine after [_RGXMakeTimeCorrData]. *)
Definition made (m : Machine) (bLogToHTB : bool) (old : RGXFWIF_TIME_CORR) (clk : Z) : Machine :=
  set_fwcb {| ui32TimeCorrSeqCount := next_seq m;
              sTimeCorr := <[Z.to_nat (next_slot m) := made_record m old clk]> (ring m) |}
    (advance (2 + workload_reads) (made_events m bLogToHTB clk) m).

End Record_written.

Section Window_opened.
Context `{P : Platform}.

(** Whether [_RGXGPUFreqCalibrationPeriodStart] treats the row content
    [known] as not calibrated yet. *)
Definition uncalibrated (m : Machine) (known : Z) : bool :=
  (known =? 0) || (known =? timing_ui32CoreClockSpeed m).

(** The table [_RGXGPUFreqCalibrationPeriodStart] leaves when the nominal
    row holds [known]. *)
Definition started_table (m : Machine) (known : Z) : RGX_GPU_DVFS_TABLE :=
  let t := set_OSTimestamp (host_us_at m 1)
             (set_CRTimestamp (hw_at m 0) (psGpuDVFSTable m)) in
  set_CurrentDVFSId (nominal_index m)
    (if uncalibrated m known then
       set_CalibrationPeriod RGX_GPU_DVFS_FIRST_CALIBRATION_TIME_US
         (set_DVFSClock
            (<[Z.to_nat (nominal_index m) := timing_ui32CoreClockSpeed m]>
               (aui32DVFSClock t)) t)
     else if target_us m =? RGX_GPU_DVFS_FIRST_CALIBRATION_TIME_US then
       set_CalibrationPeriod RGX_GPU_DVFS_TRANSITION_CALIBRATION_TIME_US t
     else
       set_CalibrationPeriod RGX_GPU_DVFS_PERIODIC_CALIBRATION_TIME_US t).

Definition started_events (m : Machine) (known : Z) : list event :=
  [EvReadHWTimerReg (hw_at m 0); host_event_at m 1]
  ++ (if uncalibrated m known
      then [EvDPF PVR_DBG_MESSAGE (MsgUncalibratedFrequency (timing_ui32CoreClockSpeed m))]
      else []).

Definition started (m : Machine) (known : Z) : Machine :=
  set_table (started_table m known) (advance 2 (started_events m known) m).

(** The value and the machine [_RGXGPUFreqCalibrationCalculate] yields when
    the current row holds [old]. *)
Definition calibrated_hz (m : Machine) (old : Z) : Z :=
  if NO_HARDWARE then old
  else u32 (u64 (acc_ticks m * 1000000) / acc_host_us m).

Definition calculated (m : Machine) (old : Z) : Machine :=
  if NO_HARDWARE then m
  else
    set_table
      (set_OSTimediff 0
         (set_CRTimediff 0
            (set_DVFSClock
               (<[Z.to_nat (current_id m) := calibrated_hz m old]>
                  (aui32DVFSClock (psGpuDVFSTable m)))
               (psGpuDVFSTable m))))
      (advance 0 [EvDPF PVR_DBG_MESSAGE
                    (MsgCalibrationDone old (calibrated_hz m old) (acc_host_us m))] m).

End Window_opened.

(** [m'] differs from [m] at most in the calibration table, whose clock
    array keeps its length, in the instants consumed and in the trace. *)
Record table_step (m m' : Machine) : Prop := {
  step_clock_source : g_ui32ClockSource m' = g_ui32ClockSource m;
  step_fwcb : psRGXFWIfGpuUtilFWCb m' = psRGXFWIfGpuUtilFWCb m;
  step_timing : timing_ui32CoreClockSpeed m' = timing_ui32CoreClockSpeed m;
  step_mode : eDriverMode m' = eDriverMode m;
  step_power : ePowerState m' = ePowerState m;
  step_lock : hPowerLock m' = hPowerLock m;
  step_env : env m' = env m;
  step_length : length (aui32DVFSClock (psGpuDVFSTable m'))
                = length (aui32DVFSClock (psGpuDVFSTable m))
}.

(** A computation leaves the observation [proj] of the machine as it found
    it, whenever it returns. *)
Definition preserves {X A} (proj : Machine -> X) (c : M A) : Prop :=
  forall m a m', c m = Ok a m' -> proj m' = proj m.

(** Sample devices for the examples below. *)

(** 100_000_000 ticks accumulated over 100_000 microseconds. *)
Definition calibrating_machine : Machine :=
  set_table
    (set_OSTimediff 100000 (set_CRTimediff 100000000 sample_table))
    sample_machine.

(** Ten thousand million ticks accumulated over one second. *)
Definition fast_machine : Machine :=
  set_table
    (set_OSTimediff 1000000 (set_CRTimediff 10000000000 sample_table))
    sample_machine.

(** A window being merged: the accumulate flag is set and the accumulators
    already hold 7 ticks over 3 microseconds. *)
Definition merged_machine : Machine :=
  set_table
    (set_AccumulatePeriod true
       (set_OSTimediff 3 (set_CRTimediff 7 sample_table)))
    sample_machine.

(** The monotonic clock fails at every read and leaves 42 in its output
    variable. *)
Definition failing_world : World := {|
  hw_timer := hw_timer sample_world;
  clock_monotonic := fun _ => (PVRSRV_ERROR_OTHER 1, 42);
  clock_monotonic_raw := clock_monotonic_raw sample_world;
  clock_sched := clock_sched sample_world
|}.

Definition failing_machine : Machine := {|
  g_ui32ClockSource := RGXTIMECORR_CLOCK_MONO;
  psGpuDVFSTable := sample_table;
  psRGXFWIfGpuUtilFWCb := psRGXFWIfGpuUtilFWCb sample_machine;
  timing_ui32CoreClockSpeed := 500000000;
  eDriverMode := DRIVER_MODE_NATIVE;
  ePowerState := PVRSRV_DEV_POWER_STATE_ON;
  hPowerLock := false;
  env := failing_world;
  now := 1;
  trace := []
|}.

(** The device has run at 500 MHz (row 5, calibrated to 498 MHz) for 200
    milliseconds and its timing information now says 300 MHz (row 3). *)
Definition retimed_machine : Machine := {|
  g_ui32ClockSource := RGXTIMECORR_CLOCK_MONO;
  psGpuDVFSTable :=
    {| ui64CalibrationCRTimestamp := 0;
       ui64CalibrationOSTimestamp := 0;
       ui64CalibrationCRTimediff := 99600000;
       ui64CalibrationOSTimediff := 200000;
       ui32CalibrationPeriod := 25000;
       ui32CurrentDVFSId := 5;
       bAccumulatePeriod := true;
       aui32DVFSClock := [0; 0; 0; 0; 0; 498000000; 0; 0] |};
  psRGXFWIfGpuUtilFWCb := psRGXFWIfGpuUtilFWCb sample_machine;
  timing_ui32CoreClockSpeed := 300000000;
  eDriverMode := DRIVER_MODE_NATIVE;
  ePowerState := PVRSRV_DEV_POWER_STATE_ON;
  hPowerLock := false;
  env := sample_world;
  now := 3;
  trace := []
|}.

(** The same device after only 100 milliseconds. *)
Definition retimed_early_machine : Machine :=
  set_table
    (set_OSTimediff 100000 (set_CRTimediff 49800000 (psGpuDVFSTable retimed_machine)))
    retimed_machine.


(** The sample device in the guest role, and one minute into its window. *)
Definition guest_machine : Machine := {|
  g_ui32ClockSource := RGXTIMECORR_CLOCK_MONO;
  psGpuDVFSTable := sample_table;
  psRGXFWIfGpuUtilFWCb := psRGXFWIfGpuUtilFWCb sample_machine;
  timing_ui32CoreClockSpeed := 500000000;
  eDriverMode := DRIVER_MODE_GUEST;
  ePowerState := PVRSRV_DEV_POWER_STATE_ON;
  hPowerLock := false;
  env := sample_world;
  now := 1;
  trace := []
|}.

Definition due_machine : Machine := set_now 600 sample_machine.


(** What the calibration only ever reads of the device: who holds the power
    lock, the power state, the driver mode and the nominal clock speed. *)
Definition device_inputs (m : Machine)
  : bool * PVRSRV_DEV_POWER_STATE * DRIVER_MODE * Z :=
  (hPowerLock m, ePowerState m, eDriverMode m, timing_ui32CoreClockSpeed m).

(** The two accumulators of the current window. *)
Definition accumulators (m : Machine) : Z * Z := (acc_ticks m, acc_host_us m).


(** The snapshots taken when the current window opened. *)
Definition window_start_ticks (m : Machine) : Z :=
  ui64CalibrationCRTimestamp (psGpuDVFSTable m).
Definition window_start_us (m : Machine) : Z :=
  ui64CalibrationOSTimestamp (psGpuDVFSTable m).

(** What the next [_RGXGPUFreqCalibrationPeriodStop] adds its deltas to: the
    accumulators when the window is merged, zero otherwise. *)
Definition base_ticks (m : Machine) : Z := if accumulate m then acc_ticks m else 0.
Definition base_host_us (m : Machine) : Z := if accumulate m then acc_host_us m else 0.


(** A computation relates the machine it returns with to the machine it
    started from by [R], whenever it returns. *)
Definition keeps {A} (R : Machine -> Machine -> Prop) (c : M A) : Prop :=
  forall m a m', c m = Ok a m' -> R m m'.

Section Rows.
Context `{P : Platform}.

(** What a step of the calibration may do to the clock table and the ring:
    the nominal speed, the environment and the sizes of the two arrays stay,
    the current row stays or becomes the row of the nominal speed, the
    target stays or becomes one of the three calibration times, and a row
    that is neither the current nor the nominal one keeps its content. *)
Definition rows_step (m m' : Machine) : Prop :=
  timing_ui32CoreClockSpeed m' = timing_ui32CoreClockSpeed m
  /\ env m' = env m
  /\ length (aui32DVFSClock (psGpuDVFSTable m'))
     = length (aui32DVFSClock (psGpuDVFSTable m))
  /\ length (ring m') = length (ring m)
  /\ (current_id m' = current_id m \/ current_id m' = nominal_index m)
  /\ (target_us m' = target_us m
      \/ target_us m' = RGX_GPU_DVFS_FIRST_CALIBRATION_TIME_US
      \/ target_us m' = RGX_GPU_DVFS_TRANSITION_CALIBRATION_TIME_US
      \/ target_us m' = RGX_GPU_DVFS_PERIODIC_CALIBRATION_TIME_US)
  /\ forall i : nat,
       i <> Z.to_nat (current_id m) -> i <> Z.to_nat (nominal_index m) ->
       aui32DVFSClock (psGpuDVFSTable m') !! i
       = aui32DVFSClock (psGpuDVFSTable m) !! i.

(** The part of the machine [rows_step] looks at. *)
Definition rows_view (m : Machine)
  : list Z * Z * Z * Z * World * list RGXFWIF_TIME_CORR :=
  (aui32DVFSClock (psGpuDVFSTable m), current_id m, target_us m,
   timing_ui32CoreClockSpeed m, env m, ring m).

(** The device is in a state every routine of the file can run on: a valid
    clock source, the current row and the row of the nominal speed inside
    the clock table, and a ring of the size its index macro assumes. *)
Definition well_formed (m : Machine) : bool :=
  clock_source_valid m && current_in_range m && nominal_in_range m && ring_wf m.

(** Well-formed, with a positive target. *)
Definition ready (m : Machine) : bool := well_formed m && (0 <? target_us m).

End Rows.


(** The sample device with a window snapshot of 900 milliseconds, later than
    its host clock reads. *)
Definition late_start_machine : Machine :=
  set_table (set_OSTimestamp 900000 sample_table) sample_machine.

(** * Verification *)

(** Field updates and observations compute away under [cbn]. *)
Arguments set_CRTimestamp v t /.
Arguments set_OSTimestamp v t /.
Arguments set_CRTimediff v t /.
Arguments set_OSTimediff v t /.
Arguments set_CalibrationPeriod v t /.
Arguments set_CurrentDVFSId v t /.
Arguments set_AccumulatePeriod v t /.
Arguments set_DVFSClock v t /.
Arguments set_OSTimeStamp v r /.
Arguments set_OSMonoTimeStamp v r /.
Arguments set_CRTimeStamp v r /.
Arguments set_CoreClockSpeed v r /.
Arguments set_CRDeltaToOSDeltaKNs v r /.
Arguments set_ClockSource v m /.
Arguments set_table t m /.
Arguments set_fwcb c m /.
Arguments set_lock b m /.
Arguments set_now n m /.
Arguments set_trace l m /.
Arguments set_accumulate b m /.
Arguments advance k evs m /.
Arguments hw_at m k /.
Arguments host_ns_at m k /.
Arguments host_us_at m k /.
Arguments host_event_at m k /.
Arguments window_ticks m k /.
Arguments window_host_us m k /.
Arguments stopped_table m /.
Arguments known_clock m i /.
Arguments acc_ticks m /.
Arguments acc_host_us m /.
Arguments accumulate m /.
Arguments current_id m /.
Arguments target_us m /.
Arguments seq_count m /.
Arguments ring m /.

Arguments u32 : simpl never.
Arguments u64 : simpl never.

Ltac monad_unfold :=
  cbv [bind ret gets modify crash emit tick gets_table modify_table modify_fwcb
       PVR_DPF HTBSyncScale OSWriteMemoryBarrier].

Ltac state_unfold := cbn.

Ltac state_unfold_in H := cbn in H.

Lemma u64_u64 z : u64 (u64 z) = u64 z.
Proof. unfold u64. apply Z.mod_mod. lia. Qed.

Lemma u64_small z : 0 <= z < 2 ^ 64 -> u64 z = z.
Proof. intros H. unfold u64. apply Z.mod_small. exact H. Qed.

Lemma u32_small z : 0 <= z < 2 ^ 32 -> u32 z = z.
Proof. intros H. unfold u32. apply Z.mod_small. exact H. Qed.

Lemma u64_add_l a b : u64 (u64 a + b) = u64 (a + b).
Proof. unfold u64. apply Zplus_mod_idemp_l. Qed.

Lemma in_range_lookup {A} (i : Z) (l : list A) :
  in_range i l = true -> 0 <= i /\ exists v, l !! Z.to_nat i = Some v.
Proof.
  unfold in_range. intros H.
  apply andb_true_iff in H as [H0 H1].
  apply Z.leb_le in H0. apply Z.ltb_lt in H1.
  split; [exact H0|].
  apply lookup_lt_is_Some. lia.
Qed.

Lemma load_run {A} (l : list A) (i : Z) (v : A) (m : Machine) :
  0 <= i -> l !! Z.to_nat i = Some v -> load l i m = Ok v m.
Proof.
  intros Hi Hv. unfold load.
  destruct (0 <=? i) eqn:E; [|apply Z.leb_gt in E; lia].
  rewrite Hv. reflexivity.
Qed.

Lemma update_run {A} (f : A -> A) (l : list A) (i : Z) (v : A) (m : Machine) :
  0 <= i -> l !! Z.to_nat i = Some v ->
  update f l i m = Ok (<[Z.to_nat i := f v]> l) m.
Proof.
  intros Hi Hv. unfold update, bind. rewrite (load_run l i v m Hi Hv). reflexivity.
Qed.

Lemma clock_source_cases (m : Machine) :
  clock_source_valid m = true ->
  g_ui32ClockSource m = RGXTIMECORR_CLOCK_MONO
  \/ g_ui32ClockSource m = RGXTIMECORR_CLOCK_MONO_RAW
  \/ g_ui32ClockSource m = RGXTIMECORR_CLOCK_SCHED.
Proof.
  unfold clock_source_valid, RGXTIMECORR_CLOCK_LAST, RGXTIMECORR_CLOCK_MONO,
    RGXTIMECORR_CLOCK_MONO_RAW, RGXTIMECORR_CLOCK_SCHED.
  intros H. apply andb_true_iff in H as [H0 H1].
  apply Z.leb_le in H0. apply Z.ltb_lt in H1. lia.
Qed.

Lemma RGXReadHWTimerReg_run (m : Machine) :
  RGXReadHWTimerReg m = Ok (hw_at m 0) (advance 1 [EvReadHWTimerReg (hw_at m 0)] m).
Proof. destruct m; reflexivity. Qed.

(** ** Stepping through a computation *)

Lemma bind_Ok {A B} (c : M A) (k : A -> M B) (m m1 : Machine) (a : A) :
  c m = Ok a m1 -> bind c k m = k a m1.
Proof. intros H. unfold bind. rewrite H. reflexivity. Qed.

Lemma bind_inv {A B} (c : M A) (k : A -> M B) (m m' : Machine) (b : B) :
  bind c k m = Ok b m' -> exists a m1, c m = Ok a m1 /\ k a m1 = Ok b m'.
Proof.
  unfold bind. destruct (c m) as [a m1|f]; [|discriminate].
  intros H. exists a, m1. split; [reflexivity | exact H].
Qed.

Lemma bind_gets {A B} (f : Machine -> A) (k : A -> M B) (m : Machine) :
  bind (gets f) k m = k (f m) m.
Proof. reflexivity. Qed.

Lemma bind_gets_table {A B} (f : RGX_GPU_DVFS_TABLE -> A) (k : A -> M B) (m : Machine) :
  bind (gets_table f) k m = k (f (psGpuDVFSTable m)) m.
Proof. reflexivity. Qed.

Lemma bind_modify {B} (f : Machine -> Machine) (k : unit -> M B) (m : Machine) :
  bind (modify f) k m = k tt (f m).
Proof. reflexivity. Qed.

Lemma bind_modify_table {B} (f : RGX_GPU_DVFS_TABLE -> RGX_GPU_DVFS_TABLE)
      (k : unit -> M B) (m : Machine) :
  bind (modify_table f) k m = k tt (set_table (f (psGpuDVFSTable m)) m).
Proof. reflexivity. Qed.

Lemma bind_ret {A B} (a : A) (k : A -> M B) (m : Machine) :
  bind (ret a) k m = k a m.
Proof. reflexivity. Qed.

Lemma emit_run (e : event) (m : Machine) : emit e m = Ok tt (advance 0 [e] m).
Proof. destruct m; reflexivity. Qed.

Lemma bind_emit {B} (e : event) (k : unit -> M B) (m : Machine) :
  bind (emit e) k m = k tt (advance 0 [e] m).
Proof. destruct m; reflexivity. Qed.

Lemma unless_guest_host {A} (dflt : A) (body : M A) (m : Machine) :
  is_guest (eDriverMode m) = false -> unless_guest dflt body m = body m.
Proof. intros H. unfold unless_guest. rewrite bind_gets, H. reflexivity. Qed.

Lemma unless_guest_guest {A} (dflt : A) (body : M A) (m : Machine) :
  is_guest (eDriverMode m) = true -> unless_guest dflt body m = Ok dflt m.
Proof. intros H. unfold unless_guest. rewrite bind_gets, H. reflexivity. Qed.

Section Proofs.
Context `{P : Platform}.

Lemma RGXGPUFreqCalibrateClockns64_run (m : Machine) :
  clock_source_valid m = true ->
  RGXGPUFreqCalibrateClockns64 m
  = Ok (host_ns_at m 0) (advance 1 [host_event_at m 0] m).
Proof.
  intros H. destruct (clock_source_cases m H) as [E | [E | E]];
    destruct m; cbn in E; subst; reflexivity.
Qed.

Lemma RGXGPUFreqCalibrateClockus64_run (m : Machine) :
  clock_source_valid m = true ->
  RGXGPUFreqCalibrateClockus64 m
  = Ok (host_us_at m 0) (advance 1 [host_event_at m 0] m).
Proof.
  intros H. unfold RGXGPUFreqCalibrateClockus64, bind.
  rewrite (RGXGPUFreqCalibrateClockns64_run m H). reflexivity.
Qed.

Lemma _RGXGPUFreqCalibrationPeriodStop_run (m : Machine) :
  clock_source_valid m = true ->
  _RGXGPUFreqCalibrationPeriodStop m
  = Ok tt (set_table (stopped_table m)
             (advance 2 [EvReadHWTimerReg (hw_at m 0); host_event_at m 1] m)).
Proof.
  intros H. unfold _RGXGPUFreqCalibrationPeriodStop.
  unfold bind at 1. rewrite RGXReadHWTimerReg_run.
  unfold bind at 1. rewrite RGXGPUFreqCalibrateClockus64_run
    by (destruct m; exact H).
  destruct m as [src [crts osts crd osd per cur acc clk] fw nom mode pw lk w n tr].
  destruct acc; monad_unfold; state_unfold; rewrite <- app_assoc; reflexivity.
Qed.

End Proofs.

Section Windows.
Context `{P : Platform}.

(** C3 (as amended).  Two consecutive stops with no start in between.  The
    second stop runs on the state the first one left, where only the
    accumulate flag may have been changed to [b] (as the post clock speed
    change hook does).  With the flag set at the second stop the accumulators
    grow by the second window's deltas; they then hold the sum of the two
    deltas on top of what they held before the first stop when the flag was
    set there too, and on top of zero otherwise.  With the flag clear at the
    second stop they hold the second deltas alone.  All sums are 64-bit
    unsigned. *)
Theorem consecutive_stops (m : Machine) (b : bool) :
  clock_source_valid m = true ->
  exists m1 m2,
    _RGXGPUFreqCalibrationPeriodStop m = Ok tt m1
    /\ _RGXGPUFreqCalibrationPeriodStop (set_accumulate b m1) = Ok tt m2
    /\ (b = true ->
        let base_ticks := if accumulate m then acc_ticks m else 0 in
        let base_us := if accumulate m then acc_host_us m else 0 in
        acc_ticks m2
        = u64 (base_ticks + window_ticks m 0
               + window_ticks (set_accumulate b m1) 0)
        /\ acc_host_us m2
           = u64 (base_us + window_host_us m 0
                  + window_host_us (set_accumulate b m1) 0))
    /\ (b = false ->
        acc_ticks m2 = window_ticks (set_accumulate b m1) 0
        /\ acc_host_us m2 = window_host_us (set_accumulate b m1) 0).
Proof.
  intros H.
  eexists. eexists.
  split; [apply _RGXGPUFreqCalibrationPeriodStop_run; exact H|].
  split.
  { apply _RGXGPUFreqCalibrationPeriodStop_run.
    unfold set_accumulate. destruct m; exact H. }
  destruct m as [src [crts osts crd osd per cur acc clk] fw nom mode pw lk w n tr].
  split; intros ->; state_unfold.
  - rewrite !u64_add_l. split; reflexivity.
  - rewrite !Z.add_0_l, !u64_u64. split; reflexivity.
Qed.

End Windows.

Section Calculate.
Context `{P : Platform}.

(** [_RGXGPUFreqCalibrationCalculate] as one equation.  With hardware
    access the quotient, truncated to the 32 bits of its variable, is
    returned and stored in the current row, the accumulators are cleared and
    one debug message is printed; without, the current row is returned.
    Nothing else changes. *)
Lemma _RGXGPUFreqCalibrationCalculate_run (m : Machine) (old : Z) :
  0 <= current_id m ->
  known_clock m (current_id m) = Some old ->
  (NO_HARDWARE = false -> acc_host_us m <> 0) ->
  _RGXGPUFreqCalibrationCalculate m = Ok (calibrated_hz m old) (calculated m old).
Proof.
  intros Hcur Hold Hus.
  unfold _RGXGPUFreqCalibrationCalculate, calibrated_hz, calculated, calibrated_hz.
  destruct m as [src [crts osts crd osd per cur acc clk] fw nom mode pw lk w n tr].
  state_unfold_in Hcur. state_unfold_in Hold. state_unfold_in Hus.
  destruct NO_HARDWARE.
  - monad_unfold. cbn. erewrite load_run by eassumption. reflexivity.
  - specialize (Hus eq_refl).
    monad_unfold. state_unfold.
    unfold RGXFWIF_GET_GPU_CLOCK_FREQUENCY_HZ, OSDivide64r64.
    destruct (osd =? 0) eqn:E; [apply Z.eqb_eq in E; contradiction|].
    cbv [ret]. cbn.
    erewrite load_run by eassumption.
    unfold store. erewrite update_run by eassumption.
    reflexivity.
Qed.

(** C1 (as amended).  In a build with hardware access, with the current index
    a row of the table and accumulated ticks [T] over accumulated host
    microseconds [U], [U] not zero: the call returns the quotient of
    [T * 1_000_000] (as a 64-bit product) by [U], truncated to 32 bits;
    that value is stored at the current index, no other row changes, and
    both accumulators are zero afterwards.  Whenever the product fits in 64
    bits and the quotient in 32, the value is [round_down (T * 1_000_000 / U)]. *)
Theorem calculate_calibrates (m : Machine) :
  NO_HARDWARE = false ->
  current_in_range m = true ->
  acc_host_us m <> 0 ->
  let T := acc_ticks m in
  let U := acc_host_us m in
  let hz := u32 (u64 (T * 1000000) / U) in
  exists m',
    _RGXGPUFreqCalibrationCalculate m = Ok hz m'
    /\ known_clock m' (current_id m) = Some hz
    /\ aui32DVFSClock (psGpuDVFSTable m')
       = <[Z.to_nat (current_id m) := hz]> (aui32DVFSClock (psGpuDVFSTable m))
    /\ current_id m' = current_id m
    /\ acc_ticks m' = 0
    /\ acc_host_us m' = 0
    /\ (0 <= T -> 0 < U -> T * 1000000 < 2 ^ 64 -> T * 1000000 / U < 2 ^ 32 ->
        hz = T * 1000000 / U).
Proof.
  intros Hhw Hcur Hus T U hz.
  destruct (in_range_lookup _ _ Hcur) as [H0 [old Hold]].
  exists (calculated m old). split.
  { rewrite (_RGXGPUFreqCalibrationCalculate_run m old H0 Hold (fun _ => Hus)).
    unfold calibrated_hz. rewrite Hhw. reflexivity. }
  assert (Hlen : (Z.to_nat (current_id m) < length (aui32DVFSClock (psGpuDVFSTable m)))%nat)
    by (apply lookup_lt_is_Some; eauto).
  unfold calculated, calibrated_hz. rewrite Hhw.
  destruct m as [src [crts osts crd osd per cur acc clk] fw nom mode pw lk w n tr].
  state_unfold_in Hlen. subst T U hz. state_unfold.
  split; [apply list_lookup_insert_eq; exact Hlen|].
  repeat (split; [reflexivity|]).
  intros HT HU Hprod Hquot.
  rewrite (u64_small (crd * 1000000)) by lia.
  apply u32_small. split; [|exact Hquot].
  apply Z.div_pos; lia.
Qed.

End Calculate.

Section Start.
Context `{P : Platform}.

(** [_RGXGPUFreqCalibrationPeriodStart] as one equation. *)
Lemma _RGXGPUFreqCalibrationPeriodStart_run (m : Machine) (known : Z) :
  clock_source_valid m = true ->
  0 <= nominal_index m ->
  known_clock m (nominal_index m) = Some known ->
  _RGXGPUFreqCalibrationPeriodStart m = Ok tt (started m known).
Proof.
  intros Hsrc Hpoint Hknown.
  unfold _RGXGPUFreqCalibrationPeriodStart.
  unfold bind at 1. unfold gets at 1.
  unfold bind at 1. rewrite RGXReadHWTimerReg_run.
  unfold bind at 1. rewrite RGXGPUFreqCalibrateClockus64_run
    by (destruct m; exact Hsrc).
  unfold started, started_table, started_events, uncalibrated.
  destruct m as [src [crts osts crd osd per cur acc clk] fw nom mode pw lk w n tr].
  unfold nominal_index in *.
  state_unfold_in Hknown. cbn in Hpoint.
  monad_unfold. state_unfold.
  erewrite load_run by eassumption. cbn.
  destruct ((known =? 0) || (known =? nom)) eqn:Efirst.
  - unfold store. monad_unfold. erewrite update_run by eassumption. cbn.
    rewrite <- !app_assoc. reflexivity.
  - destruct (per =? RGX_GPU_DVFS_FIRST_CALIBRATION_TIME_US); cbn;
      rewrite <- ?app_assoc; reflexivity.
Qed.

(** C4.  [_RGXGPUFreqCalibrationPeriodStart] with nominal clock speed [s]
    mapping to the row [point]: the timer and host-time snapshots are taken
    and the current index becomes [point]; if the row held zero or [s] it is
    set to [s] and the target is the first-calibration threshold; otherwise
    the row is kept and the target becomes the transition threshold when it
    was the first-calibration one, the periodic threshold when it was not. *)
Theorem start_opens_window (m : Machine) (known : Z) :
  let s := timing_ui32CoreClockSpeed m in
  let point := nominal_index m in
  clock_source_valid m = true ->
  0 <= point ->
  known_clock m point = Some known ->
  exists m',
    _RGXGPUFreqCalibrationPeriodStart m = Ok tt m'
    /\ ui64CalibrationCRTimestamp (psGpuDVFSTable m') = hw_at m 0
    /\ ui64CalibrationOSTimestamp (psGpuDVFSTable m') = host_us_at m 1
    /\ current_id m' = point
    /\ (known = 0 \/ known = s ->
        known_clock m' point = Some s
        /\ target_us m' = RGX_GPU_DVFS_FIRST_CALIBRATION_TIME_US)
    /\ (known <> 0 -> known <> s ->
        known_clock m' point = Some known
        /\ (target_us m = RGX_GPU_DVFS_FIRST_CALIBRATION_TIME_US ->
            target_us m' = RGX_GPU_DVFS_TRANSITION_CALIBRATION_TIME_US)
        /\ (target_us m <> RGX_GPU_DVFS_FIRST_CALIBRATION_TIME_US ->
            target_us m' = RGX_GPU_DVFS_PERIODIC_CALIBRATION_TIME_US)).
Proof.
  intros s point Hsrc Hpoint Hknown.
  assert (Hlen : (Z.to_nat point < length (aui32DVFSClock (psGpuDVFSTable m)))%nat)
    by (apply lookup_lt_is_Some; eauto).
  exists (started m known).
  split; [apply _RGXGPUFreqCalibrationPeriodStart_run; assumption|].
  subst s point.
  unfold started, started_table, started_events, uncalibrated, nominal_index in *.
  destruct m as [src [crts osts crd osd per cur acc clk] fw nom mode pw lk w n tr].
  state_unfold_in Hknown. state_unfold_in Hlen. state_unfold.
  destruct ((known =? 0) || (known =? nom)) eqn:Efirst.
  - cbn. repeat (split; [reflexivity|]).
    split.
    + intros _. split; [apply list_lookup_insert_eq; exact Hlen | reflexivity].
    + intros Hz Hs. apply orb_true_iff in Efirst as [E | E];
        apply Z.eqb_eq in E; contradiction.
  - apply orb_false_iff in Efirst as [Ez Es].
    apply Z.eqb_neq in Ez. apply Z.eqb_neq in Es.
    destruct (per =? RGX_GPU_DVFS_FIRST_CALIBRATION_TIME_US) eqn:Eper; cbn;
      repeat (split; [reflexivity|]);
      (split; [intros [?|?]; contradiction|]);
      intros _ _; (split; [exact Hknown|]).
    + apply Z.eqb_eq in Eper. split; [reflexivity | intros; contradiction].
    + apply Z.eqb_neq in Eper. split; [intros; contradiction | reflexivity].
Qed.

End Start.

Section Record.
Context `{P : Platform}.

Lemma next_slot_in_range (m : Machine) :
  ring_wf m = true ->
  0 <= next_slot m /\ exists old, ring m !! Z.to_nat (next_slot m) = Some old.
Proof.
  unfold ring_wf. intros H. apply andb_true_iff in H as [Hpos Hlen].
  apply Z.ltb_lt in Hpos. apply Z.eqb_eq in Hlen.
  assert (Hb : 0 <= next_slot m < RGXFWIF_TIME_CORR_ARRAY_SIZE)
    by (apply Z.mod_pos_bound; exact Hpos).
  split; [lia|]. apply lookup_lt_is_Some. lia.
Qed.

Lemma write_TimeCorr_run (slot : Z) (f : RGXFWIF_TIME_CORR -> RGXFWIF_TIME_CORR)
      (m : Machine) (old : RGXFWIF_TIME_CORR) :
  0 <= slot ->
  ring m !! Z.to_nat slot = Some old ->
  write_TimeCorr slot f m
  = Ok tt (set_fwcb {| ui32TimeCorrSeqCount := seq_count m;
                       sTimeCorr := <[Z.to_nat slot := f old]> (ring m) |} m).
Proof.
  intros Hslot Hold. unfold write_TimeCorr.
  unfold bind at 1. unfold gets at 1.
  unfold bind at 1. fold (ring m). rewrite (update_run f _ slot old m Hslot Hold).
  reflexivity.
Qed.

Lemma workload_clock_ok_now (m : Machine) : workload_clock_ok m -> workload_read_ok m.
Proof. intros H Hw Hh. apply H; assumption. Qed.

Lemma read_OSMonoTime_run (m : Machine) :
  workload_read_ok m ->
  read_OSMonoTime m
  = Ok (if SUPPORT_WORKLOAD_ESTIMATION
        then u64 (snd (clock_monotonic (env m) (now m))) else 0)
       (advance workload_reads (workload_events m) m).
Proof.
  unfold workload_read_ok, read_OSMonoTime, workload_reads, workload_events.
  intros Hwl. destruct m as [src t fw nom mode pw lk w n tr]. cbn in *.
  destruct SUPPORT_WORKLOAD_ESTIMATION.
  - unfold OSClockMonotonicns64, PVR_ASSERT, PVR_DPF. monad_unfold. cbn.
    destruct (PVRSRV_ERROR_eqb (clock_monotonic w n).1 PVRSRV_OK) eqn:Eok.
    + reflexivity.
    + destruct PVR_ASSERT_halts.
      * rewrite Hwl in Eok by reflexivity. discriminate Eok.
      * cbn. rewrite <- !app_assoc. reflexivity.
  - cbn. rewrite app_nil_r. reflexivity.
Qed.

Lemma bind_write_TimeCorr {B} (slot : Z) (f : RGXFWIF_TIME_CORR -> RGXFWIF_TIME_CORR)
      (k : unit -> M B) (m : Machine) (old : RGXFWIF_TIME_CORR) :
  0 <= slot ->
  ring m !! Z.to_nat slot = Some old ->
  bind (write_TimeCorr slot f) k m
  = k tt (set_fwcb {| ui32TimeCorrSeqCount := seq_count m;
                      sTimeCorr := <[Z.to_nat slot := f old]> (ring m) |} m).
Proof.
  intros Hslot Hold. apply bind_Ok. apply write_TimeCorr_run; assumption.
Qed.

Lemma bind_read_TimeCorr {B} (slot : Z) (k : RGXFWIF_TIME_CORR -> M B)
      (m : Machine) (r : RGXFWIF_TIME_CORR) :
  0 <= slot ->
  ring m !! Z.to_nat slot = Some r ->
  bind (read_TimeCorr slot) k m = k r m.
Proof.
  intros Hslot Hr. apply bind_Ok. unfold read_TimeCorr.
  rewrite bind_gets. apply load_run; assumption.
Qed.

Ltac write_step Hslot Hold Hlen :=
  erewrite bind_write_TimeCorr;
  [ | exact Hslot
    | cbn; first [exact Hold
                 | apply list_lookup_insert_eq; rewrite ?length_insert; exact Hlen] ];
  cbn [set_fwcb ring seq_count psRGXFWIfGpuUtilFWCb ui32TimeCorrSeqCount sTimeCorr
       g_ui32ClockSource psGpuDVFSTable timing_ui32CoreClockSpeed eDriverMode
       ePowerState hPowerLock env now trace];
  rewrite ?list_insert_insert_eq.

Lemma _RGXMakeTimeCorrData_run (m : Machine) (bLogToHTB : bool)
      (old : RGXFWIF_TIME_CORR) (clk : Z) :
  clock_source_valid m = true ->
  0 <= current_id m ->
  known_clock m (current_id m) = Some clk ->
  0 <= next_slot m ->
  ring m !! Z.to_nat (next_slot m) = Some old ->
  workload_read_ok m ->
  _RGXMakeTimeCorrData bLogToHTB m = Ok tt (made m bLogToHTB old clk).
Proof.
  intros Hsrc Hcur Hclk Hslot Hold Hwl.
  assert (Hlen : (Z.to_nat (next_slot m) < length (ring m))%nat)
    by (apply lookup_lt_is_Some; eauto).
  unfold _RGXMakeTimeCorrData.
  rewrite !bind_gets_table.
  rewrite (bind_Ok _ _ _ _ _ (load_run _ _ _ m Hcur Hclk)).
  rewrite (bind_Ok _ _ _ _ _ (read_OSMonoTime_run m Hwl)).
  rewrite bind_gets.
  rewrite (bind_Ok _ _ _ _ _ (RGXReadHWTimerReg_run _)).
  unfold made, made_record, made_events, next_seq in *.
  unfold next_slot, next_seq in *.
  unfold workload_events, workload_reads.
  destruct m as [src [crts osts crd osd per cur acc clocks] [seq rg] nom mode pw lk w n tr].
  cbn in Hsrc, Hcur, Hclk, Hold, Hlen, Hslot.
  cbn [advance set_trace set_now psRGXFWIfGpuUtilFWCb ui32TimeCorrSeqCount
       g_ui32ClockSource psGpuDVFSTable timing_ui32CoreClockSpeed eDriverMode
       ePowerState hPowerLock env now trace hw_at Nat.add seq_count].
  set (slot := RGXFWIF_TIME_CORR_CURR_INDEX _) in *.
  write_step Hslot Hold Hlen.
  erewrite (bind_Ok _ _ _ _ _ (RGXGPUFreqCalibrateClockns64_run _ _)).
  Unshelve. 2: exact Hsrc.
  cbn [advance set_trace set_now psRGXFWIfGpuUtilFWCb ui32TimeCorrSeqCount
       g_ui32ClockSource psGpuDVFSTable timing_ui32CoreClockSpeed eDriverMode
       ePowerState hPowerLock env now trace sTimeCorr].
  write_step Hslot Hold Hlen.
  destruct SUPPORT_WORKLOAD_ESTIMATION.
  - write_step Hslot Hold Hlen.
    write_step Hslot Hold Hlen.
    write_step Hslot Hold Hlen.
    unfold OSWriteMemoryBarrier, PVR_DPF, HTBSyncScale.
    rewrite bind_emit. unfold modify_fwcb. rewrite bind_modify.
    erewrite bind_read_TimeCorr;
      [ | exact Hslot | cbn; apply list_lookup_insert_eq; exact Hlen ].
    rewrite bind_emit, emit_run.
    cbn. rewrite <- !app_assoc. cbn.
    destruct (PVRSRV_ERROR_eqb _ _); destruct old; reflexivity.
  - rewrite bind_ret.
    write_step Hslot Hold Hlen.
    write_step Hslot Hold Hlen.
    unfold OSWriteMemoryBarrier, PVR_DPF, HTBSyncScale.
    rewrite bind_emit. unfold modify_fwcb. rewrite bind_modify.
    erewrite bind_read_TimeCorr;
      [ | exact Hslot | cbn; apply list_lookup_insert_eq; exact Hlen ].
    rewrite bind_emit, emit_run.
    cbn. rewrite <- !app_assoc. cbn.
    destruct old; reflexivity.
Qed.

End Record.

(** ** Frames *)

Lemma table_step_refl (m : Machine) : table_step m m.
Proof. constructor; reflexivity. Qed.

Lemma table_step_trans (m1 m2 m3 : Machine) :
  table_step m1 m2 -> table_step m2 m3 -> table_step m1 m3.
Proof. intros [] []. constructor; congruence. Qed.

Section Frames.
Context `{P : Platform}.

Lemma stopped_step (m : Machine) (k : nat) (evs : list event) :
  table_step m (set_table (stopped_table m) (advance k evs m)).
Proof. destruct m as [? [] ? ? ? ? ? ? ? ?]. constructor; reflexivity. Qed.

Lemma calculated_step (m : Machine) (old : Z) : table_step m (calculated m old).
Proof.
  unfold calculated. destruct NO_HARDWARE; [apply table_step_refl|].
  destruct m as [? [] ? ? ? ? ? ? ? ?]. constructor; try reflexivity.
  state_unfold. apply length_insert.
Qed.

Lemma started_step (m : Machine) (known : Z) : table_step m (started m known).
Proof.
  unfold started, started_table.
  destruct (uncalibrated m known); [|destruct (target_us m =? _)];
    destruct m as [? [] ? ? ? ? ? ? ? ?]; constructor; try reflexivity.
  cbn. apply length_insert.
Qed.

Lemma step_clock_source_valid (m m' : Machine) :
  table_step m m' -> clock_source_valid m' = clock_source_valid m.
Proof. intros []. unfold clock_source_valid. congruence. Qed.

Lemma step_nominal_index (m m' : Machine) :
  table_step m m' -> nominal_index m' = nominal_index m.
Proof. intros []. unfold nominal_index. congruence. Qed.

Lemma step_nominal_in_range (m m' : Machine) :
  table_step m m' -> nominal_in_range m' = nominal_in_range m.
Proof.
  intros H. unfold nominal_in_range, in_range.
  rewrite (step_nominal_index m m' H). destruct H. congruence.
Qed.

Lemma step_ring_wf (m m' : Machine) :
  table_step m m' -> ring_wf m' = ring_wf m.
Proof. intros []. unfold ring_wf, ring. congruence. Qed.

Lemma step_next_seq (m m' : Machine) :
  table_step m m' -> next_seq m' = next_seq m.
Proof. intros []. unfold next_seq, seq_count. congruence. Qed.

Lemma step_next_slot (m m' : Machine) :
  table_step m m' -> next_slot m' = next_slot m.
Proof. intros H. unfold next_slot. rewrite (step_next_seq m m' H). reflexivity. Qed.

Lemma step_ring (m m' : Machine) : table_step m m' -> ring m' = ring m.
Proof. intros []. unfold ring. congruence. Qed.

Lemma step_workload_clock_ok (m m' : Machine) :
  table_step m m' -> workload_clock_ok m -> workload_clock_ok m'.
Proof.
  intros [_ _ _ _ _ _ Henv _] H Hw Hh n. rewrite Henv. apply H; assumption.
Qed.

Lemma started_current (m : Machine) (known : Z) :
  current_id (started m known) = nominal_index m.
Proof.
  unfold started, started_table.
  destruct (uncalibrated m known); [|destruct (target_us m =? _)];
    destruct m as [? [] ? ? ? ? ? ? ? ?]; reflexivity.
Qed.

Lemma started_accumulate (m : Machine) (known : Z) :
  accumulate (started m known) = accumulate m.
Proof.
  unfold started, started_table.
  destruct (uncalibrated m known); [|destruct (target_us m =? _)];
    destruct m as [? [] ? ? ? ? ? ? ? ?]; reflexivity.
Qed.

Lemma started_current_in_range (m : Machine) (known : Z) :
  nominal_in_range m = true -> current_in_range (started m known) = true.
Proof.
  intros H. unfold current_in_range.
  fold (current_id (started m known)). rewrite started_current.
  unfold in_range. rewrite (step_length _ _ (started_step m known)). exact H.
Qed.

(** What [_RGXMakeTimeCorrData] leaves behind. *)
Lemma made_table (m : Machine) (b : bool) (old : RGXFWIF_TIME_CORR) (clk : Z) :
  psGpuDVFSTable (made m b old clk) = psGpuDVFSTable m.
Proof. destruct m. reflexivity. Qed.

Lemma made_seq_count (m : Machine) (b : bool) (old : RGXFWIF_TIME_CORR) (clk : Z) :
  seq_count (made m b old clk) = next_seq m.
Proof. destruct m. reflexivity. Qed.

Lemma made_slot (m : Machine) (b : bool) (old : RGXFWIF_TIME_CORR) (clk : Z) :
  ring m !! Z.to_nat (next_slot m) = Some old ->
  ring (made m b old clk) !! Z.to_nat (next_slot m) = Some (made_record m old clk).
Proof.
  intros H.
  assert (Hlen : (Z.to_nat (next_slot m) < length (ring m))%nat)
    by (apply lookup_lt_is_Some; eauto).
  destruct m as [? ? [] ? ? ? ? ? ? ?]. unfold made. state_unfold.
  apply list_lookup_insert_eq. exact Hlen.
Qed.

Lemma made_trace (m : Machine) (b : bool) (old : RGXFWIF_TIME_CORR) (clk : Z) :
  trace (made m b old clk) = trace m ++ made_events m b clk.
Proof. destruct m. reflexivity. Qed.

(** The last thing [_RGXMakeTimeCorrData] does is to hand the record to
    [HTBSyncScale]. *)
Lemma made_events_last (m : Machine) (b : bool) (clk : Z) :
  exists evs os cr, made_events m b clk = evs ++ [EvHTBSyncScale b os cr clk].
Proof.
  unfold made_events.
  eexists (workload_events m ++ [_; _; _; _]), _, _.
  rewrite <- app_assoc. reflexivity.
Qed.

End Frames.

Section Speed_change.
Context `{P : Platform}.

(** A window start followed by a record write, on a well-formed device. *)
Lemma start_then_record (m : Machine) (bLogToHTB : bool) :
  clock_source_valid m = true ->
  nominal_in_range m = true ->
  ring_wf m = true ->
  workload_clock_ok m ->
  exists known old clk,
    known_clock m (nominal_index m) = Some known
    /\ ring m !! Z.to_nat (next_slot m) = Some old
    /\ known_clock (started m known) (nominal_index m) = Some clk
    /\ _RGXGPUFreqCalibrationPeriodStart m = Ok tt (started m known)
    /\ _RGXMakeTimeCorrData bLogToHTB (started m known)
       = Ok tt (made (started m known) bLogToHTB old clk).
Proof.
  intros Hsrc Hnom Hring Hwl.
  destruct (in_range_lookup _ _ Hnom) as [Hidx [known Hknown]].
  destruct (next_slot_in_range m Hring) as [Hslot [old Hold]].
  pose proof (started_step m known) as Hstep.
  pose proof (started_current_in_range m known Hnom) as Hcur.
  destruct (in_range_lookup _ _ Hcur) as [_ [clk Hclk]].
  fold (current_id (started m known)) in Hclk.
  rewrite started_current in Hclk.
  exists known, old, clk.
  split; [exact Hknown|]. split; [exact Hold|]. split; [exact Hclk|].
  split; [apply _RGXGPUFreqCalibrationPeriodStart_run; assumption|].
  assert (Hslot' : next_slot (started m known) = next_slot m)
    by (unfold next_slot; rewrite (step_next_seq _ _ Hstep); reflexivity).
  assert (Hring' : ring (started m known) = ring m)
    by (unfold ring; rewrite (step_fwcb _ _ Hstep); reflexivity).
  apply _RGXMakeTimeCorrData_run.
  - rewrite (step_clock_source_valid _ _ Hstep). exact Hsrc.
  - rewrite started_current. exact Hidx.
  - rewrite started_current. exact Hclk.
  - rewrite Hslot'. exact Hslot.
  - rewrite Hslot', Hring'. exact Hold.
  - apply workload_clock_ok_now. apply (step_workload_clock_ok m); assumption.
Qed.

(** C2.  [RGXGPUFreqCalibratePostClockSpeedChange] outside the guest role.
    Same row as the current one: the requested speed is returned and only
    the accumulate flag changes, to true.  Another row and an accumulated
    host time of at least the transition threshold (a positive time), on a
    well-formed device: the value of [_RGXGPUFreqCalibrationCalculate] is
    returned, then a window is started, a record is written (the sequence
    count advances and the record is handed to [HTBSyncScale] with logging
    on, as the last event), and the accumulate flag is cleared. *)
Theorem post_clock_speed_change (m : Machine) (ui32NewClockSpeed : Z) :
  is_guest (eDriverMode m) = false ->
  (RGX_GPU_DVFS_GET_INDEX ui32NewClockSpeed = current_id m ->
   RGXGPUFreqCalibratePostClockSpeedChange ui32NewClockSpeed m
   = Ok ui32NewClockSpeed (set_accumulate true m))
  /\ (RGX_GPU_DVFS_GET_INDEX ui32NewClockSpeed <> current_id m ->
      RGX_GPU_DVFS_TRANSITION_CALIBRATION_TIME_US <= acc_host_us m ->
      0 < RGX_GPU_DVFS_TRANSITION_CALIBRATION_TIME_US ->
      clock_source_valid m = true ->
      current_in_range m = true ->
      nominal_in_range m = true ->
      ring_wf m = true ->
      workload_clock_ok m ->
      exists hz m1 m2 m3,
        _RGXGPUFreqCalibrationCalculate m = Ok hz m1
        /\ _RGXGPUFreqCalibrationPeriodStart m1 = Ok tt m2
        /\ _RGXMakeTimeCorrData true m2 = Ok tt m3
        /\ RGXGPUFreqCalibratePostClockSpeedChange ui32NewClockSpeed m
           = Ok hz (set_accumulate false m3)
        /\ seq_count m3 = next_seq m
        /\ (exists rec, ring m3 !! Z.to_nat (next_slot m) = Some rec
                        /\ known_clock m3 (current_id m3) = Some (ui32CoreClockSpeed rec))
        /\ (exists evs os cr clk, trace m3 = evs ++ [EvHTBSyncScale true os cr clk])
        /\ accumulate (set_accumulate false m3) = false).
Proof.
  intros Hguest. split.
  - intros Hsame.
    unfold RGXGPUFreqCalibratePostClockSpeedChange.
    rewrite (unless_guest_host _ _ _ Hguest), bind_gets_table.
    fold (current_id m). rewrite Hsame, Z.eqb_refl. reflexivity.
  - intros Hdiff Hlong Hpos Hsrc Hcur Hnom Hring Hwl.
    destruct (in_range_lookup _ _ Hcur) as [Hcur0 [old Hold]].
    assert (Hcalc : _RGXGPUFreqCalibrationCalculate m
                    = Ok (calibrated_hz m old) (calculated m old)).
    { apply _RGXGPUFreqCalibrationCalculate_run; [exact Hcur0 | exact Hold |].
      intros _. lia. }
    pose proof (calculated_step m old) as Hstep.
    set (m1 := calculated m old) in *.
    destruct (start_then_record m1 true) as (known & slot0 & clk & Hknown & Hslot & Hclk & Hstart & Hmake).
    { rewrite (step_clock_source_valid _ _ Hstep). exact Hsrc. }
    { rewrite (step_nominal_in_range _ _ Hstep). exact Hnom. }
    { rewrite (step_ring_wf _ _ Hstep). exact Hring. }
    { apply (step_workload_clock_ok m); assumption. }
    set (m2 := started m1 known) in *.
    pose proof (started_step m1 known) as Hstep2. fold m2 in Hstep2.
    pose proof (table_step_trans _ _ _ Hstep Hstep2) as Hstep02.
    rewrite (step_nominal_index _ _ Hstep) in Hknown, Hclk.
    rewrite (step_next_slot _ _ Hstep), (step_ring _ _ Hstep) in Hslot.
    exists (calibrated_hz m old), m1, m2, (made m2 true slot0 clk).
    split; [exact Hcalc|]. split; [exact Hstart|]. split; [exact Hmake|].
    split.
    { unfold RGXGPUFreqCalibratePostClockSpeedChange.
      rewrite (unless_guest_host _ _ _ Hguest), bind_gets_table.
      fold (current_id m).
      destruct (RGX_GPU_DVFS_GET_INDEX ui32NewClockSpeed =? current_id m) eqn:E;
        [apply Z.eqb_eq in E; contradiction|].
      cbn [negb]. rewrite bind_gets_table. fold (acc_host_us m).
      destruct (RGX_GPU_DVFS_TRANSITION_CALIBRATION_TIME_US <=? acc_host_us m) eqn:E2;
        [|apply Z.leb_gt in E2; lia].
      rewrite (bind_Ok _ _ _ _ _ Hcalc).
      rewrite (bind_Ok _ _ _ _ _ Hstart).
      rewrite (bind_Ok _ _ _ _ _ Hmake).
      reflexivity. }
    split.
    { rewrite made_seq_count. apply (step_next_seq _ _ Hstep02). }
    split.
    { exists (made_record m2 slot0 clk). split.
      - rewrite <- (step_next_slot _ _ Hstep02). apply made_slot.
        rewrite (step_next_slot _ _ Hstep02), (step_ring _ _ Hstep02). exact Hslot.
      - unfold known_clock, current_id. rewrite made_table.
        fold (current_id m2). fold (known_clock m2 (current_id m2)).
        unfold m2 at 2. rewrite started_current, (step_nominal_index _ _ Hstep).
        exact Hclk. }
    split.
    { destruct (made_events_last m2 true clk) as (evs & os & cr & Hev).
      exists (trace m2 ++ evs), os, cr, clk.
      rewrite made_trace, Hev, app_assoc. reflexivity. }
    destruct (made m2 true slot0 clk) as [? [] ? ? ? ? ? ? ? ?]. reflexivity.
Qed.

End Speed_change.

(** ** Observations a computation cannot change *)

Section Preserves.
Context {X : Type} (proj : Machine -> X).

Lemma preserves_ret {A} (a : A) : preserves proj (ret a).
Proof. intros m a' m' H. injection H as _ <-. reflexivity. Qed.

Lemma preserves_crash {A} (f : fault) : preserves proj (@crash A f).
Proof. intros m a m' H. discriminate H. Qed.

Lemma preserves_gets {A} (f : Machine -> A) : preserves proj (gets f).
Proof. intros m a m' H. injection H as _ <-. reflexivity. Qed.

Lemma preserves_gets_table {A} (f : RGX_GPU_DVFS_TABLE -> A) :
  preserves proj (gets_table f).
Proof. apply preserves_gets. Qed.

Lemma preserves_modify (f : Machine -> Machine) :
  (forall m, proj (f m) = proj m) -> preserves proj (modify f).
Proof. intros Hf m a m' H. injection H as _ <-. apply Hf. Qed.

Lemma preserves_bind {A B} (c : M A) (k : A -> M B) :
  preserves proj c -> (forall a, preserves proj (k a)) -> preserves proj (bind c k).
Proof.
  intros Hc Hk m b m' H.
  apply bind_inv in H as (a & m1 & H1 & H2).
  rewrite (Hk a m1 b m' H2). apply (Hc m a m1 H1).
Qed.

Lemma preserves_load {A} (l : list A) (i : Z) : preserves proj (load l i).
Proof.
  unfold load. intros m a m' H.
  destruct (0 <=? i); [|discriminate H].
  destruct (l !! Z.to_nat i); [|discriminate H].
  injection H as _ <-. reflexivity.
Qed.

Lemma preserves_update {A} (f : A -> A) (l : list A) (i : Z) :
  preserves proj (update f l i).
Proof.
  unfold update. apply preserves_bind; [apply preserves_load|].
  intros a. apply preserves_ret.
Qed.

Lemma preserves_OSDivide64r64 (n d : Z) : preserves proj (OSDivide64r64 n d).
Proof.
  unfold OSDivide64r64. destruct (d =? 0); [apply preserves_crash | apply preserves_ret].
Qed.

Lemma preserves_unless_guest {A} (dflt : A) (body : M A) :
  preserves proj body -> preserves proj (unless_guest dflt body).
Proof.
  intros Hb. unfold unless_guest. apply preserves_bind; [apply preserves_gets|].
  intros mode. destruct (is_guest mode); [apply preserves_ret | exact Hb].
Qed.

End Preserves.

Create HintDb frame.
#[global] Hint Resolve preserves_ret preserves_crash preserves_gets
  preserves_gets_table preserves_load preserves_update preserves_OSDivide64r64
  : frame.

(** Decompose a computation along its binds and branches; what is left are
    the state updates, each of which must leave the observation alone. *)
Ltac frame_leaf :=
  apply preserves_modify; intros [? [] [] ? ? ? ? ? ? ?]; reflexivity.

Ltac frame_step :=
  match goal with
  | |- preserves _ (bind _ _) => apply preserves_bind; [|intros ?]
  | |- preserves _ (unless_guest _ _) => apply preserves_unless_guest
  | |- preserves _ (if ?b then _ else _) => destruct b
  | |- preserves _ (modify _) => frame_leaf
  | |- preserves _ (modify_table _) => frame_leaf
  | |- preserves _ (modify_fwcb _) => frame_leaf
  | |- preserves _ (emit _) => frame_leaf
  | |- preserves _ (PVR_DPF _ _) => frame_leaf
  | |- preserves _ (HTBSyncScale _ _ _ _) => frame_leaf
  | |- preserves _ OSWriteMemoryBarrier => frame_leaf
  | |- preserves _ tick =>
      let m := fresh in let a := fresh in let m' := fresh in let H := fresh in
      intros m a m' H; injection H as _ <-; destruct m; reflexivity
  | |- preserves _ RGXReadHWTimerReg => unfold RGXReadHWTimerReg
  | |- preserves _ OSClockMonotonicns64 => unfold OSClockMonotonicns64
  | |- preserves _ OSClockMonotonicRawns64 => unfold OSClockMonotonicRawns64
  | |- preserves _ OSClockns64 => unfold OSClockns64
  | |- preserves _ (PVR_ASSERT _) => unfold PVR_ASSERT
  | |- preserves _ RGXGPUFreqCalibrateClockns64 => unfold RGXGPUFreqCalibrateClockns64
  | |- preserves _ RGXGPUFreqCalibrateClockus64 => unfold RGXGPUFreqCalibrateClockus64
  | |- preserves _ (RGXFWIF_GET_GPU_CLOCK_FREQUENCY_HZ _ _) =>
      unfold RGXFWIF_GET_GPU_CLOCK_FREQUENCY_HZ
  | |- preserves _ (store _ _ _) => unfold store
  | |- preserves _ (write_TimeCorr _ _) => unfold write_TimeCorr
  | |- preserves _ (read_TimeCorr _) => unfold read_TimeCorr
  | |- preserves _ read_OSMonoTime => unfold read_OSMonoTime
  | |- preserves _ _ => solve [auto with frame]
  end.

Ltac frame := repeat frame_step.

Section Frames_of_code.
Context `{P : Platform}.

(** The calibration routines change neither the clock source nor the driver
    mode. *)
Lemma stop_preserves_clock_source :
  preserves g_ui32ClockSource _RGXGPUFreqCalibrationPeriodStop.
Proof. unfold _RGXGPUFreqCalibrationPeriodStop. frame. Qed.

Lemma stop_preserves_mode : preserves eDriverMode _RGXGPUFreqCalibrationPeriodStop.
Proof. unfold _RGXGPUFreqCalibrationPeriodStop. frame. Qed.

Lemma calculate_preserves_clock_source :
  preserves g_ui32ClockSource _RGXGPUFreqCalibrationCalculate.
Proof. unfold _RGXGPUFreqCalibrationCalculate. frame. Qed.

Lemma calculate_preserves_mode : preserves eDriverMode _RGXGPUFreqCalibrationCalculate.
Proof. unfold _RGXGPUFreqCalibrationCalculate. frame. Qed.

Lemma start_preserves_clock_source :
  preserves g_ui32ClockSource _RGXGPUFreqCalibrationPeriodStart.
Proof. unfold _RGXGPUFreqCalibrationPeriodStart. frame. Qed.

Lemma start_preserves_accumulate :
  preserves accumulate _RGXGPUFreqCalibrationPeriodStart.
Proof. unfold _RGXGPUFreqCalibrationPeriodStart. frame. Qed.

Lemma record_preserves_clock_source (b : bool) :
  preserves g_ui32ClockSource (_RGXMakeTimeCorrData b).
Proof. unfold _RGXMakeTimeCorrData. frame. Qed.

Lemma record_preserves_accumulate (b : bool) :
  preserves accumulate (_RGXMakeTimeCorrData b).
Proof. unfold _RGXMakeTimeCorrData. frame. Qed.

Lemma pre_clock_source_change_preserves_clock_source :
  preserves g_ui32ClockSource _RGXGPUFreqCalibratePreClockSourceChange.
Proof.
  unfold _RGXGPUFreqCalibratePreClockSourceChange.
  pose proof stop_preserves_clock_source.
  pose proof calculate_preserves_clock_source.
  frame; assumption.
Qed.

Lemma pre_clock_source_change_preserves_mode :
  preserves eDriverMode _RGXGPUFreqCalibratePreClockSourceChange.
Proof.
  unfold _RGXGPUFreqCalibratePreClockSourceChange.
  pose proof stop_preserves_mode.
  pose proof calculate_preserves_mode.
  frame; assumption.
Qed.

Lemma post_clock_source_change_preserves_clock_source :
  preserves g_ui32ClockSource _RGXGPUFreqCalibratePostClockSourceChange.
Proof.
  unfold _RGXGPUFreqCalibratePostClockSourceChange.
  pose proof start_preserves_clock_source.
  pose proof (record_preserves_clock_source true).
  frame; assumption.
Qed.

End Frames_of_code.

Section Clock_source.
Context `{P : Platform}.

(** C6.  A value outside the enumeration is refused with
    [PVRSRV_ERROR_INVALID_PARAMS]; apart from the error message printed, the
    machine is left exactly as it was: the clock source, the calibration
    table, the correlation ring, the lock and the time are untouched, and no
    hook has run (no timer or clock was read). *)
Theorem set_clock_rejects_invalid (m : Machine) (ui32Value : Z) :
  RGXTIMECORR_CLOCK_LAST <= ui32Value ->
  exists m',
    _SetClock ui32Value m = Ok PVRSRV_ERROR_INVALID_PARAMS m'
    /\ m' = set_trace
              (trace m ++ [EvDPF PVR_DBG_ERROR (MsgInvalidClockSource ui32Value)]) m
    /\ g_ui32ClockSource m' = g_ui32ClockSource m
    /\ psGpuDVFSTable m' = psGpuDVFSTable m
    /\ psRGXFWIfGpuUtilFWCb m' = psRGXFWIfGpuUtilFWCb m
    /\ hPowerLock m' = hPowerLock m
    /\ now m' = now m.
Proof.
  intros Hv. eexists. split.
  - unfold _SetClock.
    destruct (RGXTIMECORR_CLOCK_LAST <=? ui32Value) eqn:E;
      [|apply Z.leb_gt in E; lia].
    unfold PVR_DPF. rewrite bind_emit. reflexivity.
  - destruct m. repeat split; reflexivity.
Qed.

(** A successful [_SetClock], taken apart: the pre-change hook, the log line
    and the assignment, the post-change hook. *)
Lemma _SetClock_inv (m m' : Machine) (ui32Value : Z) :
  _SetClock ui32Value m = Ok PVRSRV_OK m' ->
  ui32Value < RGXTIMECORR_CLOCK_LAST
  /\ exists m1,
      _RGXGPUFreqCalibratePreClockSourceChange m = Ok tt m1
      /\ _RGXGPUFreqCalibratePostClockSourceChange
           (set_ClockSource ui32Value
              (advance 0 [EvDPF PVR_DBG_WARNING
                            (MsgSettingClock
                               (apszClocks !! Z.to_nat (g_ui32ClockSource m1))
                               (apszClocks !! Z.to_nat ui32Value))] m1))
         = Ok tt m'.
Proof.
  unfold _SetClock. intros H.
  destruct (RGXTIMECORR_CLOCK_LAST <=? ui32Value) eqn:E.
  { apply bind_inv in H as (? & ? & _ & H). discriminate H. }
  apply Z.leb_gt in E. split; [exact E|].
  apply bind_inv in H as ([] & m1 & Hpre & H).
  rewrite bind_gets in H. unfold PVR_DPF in H.
  rewrite bind_emit, bind_modify in H.
  apply bind_inv in H as ([] & m3 & Hpost & H).
  injection H as <-.
  exists m1. split; [exact Hpre | exact Hpost].
Qed.

(** C8.  A successful [_SetClock]: the pre-change hook has run to its end on
    the machine as it was, with the old clock source still in place when it
    finished; then the stored value was replaced; and the post-change hook
    ran on the machine holding the new value, which is also the value in the
    final machine.  Outside the guest role the pre-change hook is a stop,
    followed by a calculation when the accumulated host time has reached the
    target, and the post-change hook sets the accumulate flag, starts a
    window and writes a record with logging on. *)
Theorem set_clock_hook_order (m m' : Machine) (ui32Value : Z) :
  _SetClock ui32Value m = Ok PVRSRV_OK m' ->
  exists m1,
    let swapped :=
      set_ClockSource ui32Value
        (advance 0 [EvDPF PVR_DBG_WARNING
                      (MsgSettingClock (apszClocks !! Z.to_nat (g_ui32ClockSource m1))
                                       (apszClocks !! Z.to_nat ui32Value))] m1) in
    _RGXGPUFreqCalibratePreClockSourceChange m = Ok tt m1
    /\ g_ui32ClockSource m1 = g_ui32ClockSource m
    /\ g_ui32ClockSource swapped = ui32Value
    /\ _RGXGPUFreqCalibratePostClockSourceChange swapped = Ok tt m'
    /\ g_ui32ClockSource m' = ui32Value
    /\ (is_guest (eDriverMode m) = false ->
        (exists ms,
            _RGXGPUFreqCalibrationPeriodStop m = Ok tt ms
            /\ if target_us ms <=? acc_host_us ms
               then exists hz, _RGXGPUFreqCalibrationCalculate ms = Ok hz m1
               else m1 = ms)
        /\ (exists m2,
               _RGXGPUFreqCalibrationPeriodStart (set_accumulate true swapped) = Ok tt m2
               /\ _RGXMakeTimeCorrData true m2 = Ok tt m'
               /\ accumulate m' = true)).
Proof.
  intros H.
  destruct (_SetClock_inv m m' ui32Value H) as [_ (m1 & Hpre & Hpost)].
  exists m1. cbv zeta.
  pose proof (pre_clock_source_change_preserves_clock_source _ _ _ Hpre) as Hsrc1.
  pose proof (post_clock_source_change_preserves_clock_source _ _ _ Hpost) as Hsrc3.
  split; [exact Hpre|]. split; [exact Hsrc1|].
  split; [destruct m1; reflexivity|].
  split; [exact Hpost|].
  split; [rewrite Hsrc3; destruct m1; reflexivity|].
  intros Hguest. split.
  - unfold _RGXGPUFreqCalibratePreClockSourceChange in Hpre.
    rewrite (unless_guest_host _ _ _ Hguest) in Hpre.
    apply bind_inv in Hpre as ([] & ms & Hstop & Hpre).
    exists ms. split; [exact Hstop|].
    rewrite !bind_gets_table in Hpre.
    fold (acc_host_us ms) in Hpre. fold (target_us ms) in Hpre.
    destruct (target_us ms <=? acc_host_us ms).
    + apply bind_inv in Hpre as (hz & m1' & Hcalc & Hret).
      injection Hret as <-. exists hz. exact Hcalc.
    + injection Hpre as <-. reflexivity.
  - pose proof (pre_clock_source_change_preserves_mode _ _ _ Hpre) as Hmode.
    unfold _RGXGPUFreqCalibratePostClockSourceChange in Hpost.
    rewrite unless_guest_host in Hpost
      by (destruct m1; cbn in *; rewrite Hmode; exact Hguest).
    rewrite bind_modify_table in Hpost.
    apply bind_inv in Hpost as ([] & m2 & Hstart & Hmake).
    exists m2. split; [exact Hstart|]. split; [exact Hmake|].
    rewrite (record_preserves_accumulate _ _ _ _ Hmake).
    rewrite (start_preserves_accumulate _ _ _ Hstart).
    destruct m1 as [? [] ? ? ? ? ? ? ? ?]. reflexivity.
Qed.


(** The host time accessors, for a valid clock source: one read of the
    selected clock; the monotonic clock's status is dropped; microseconds are
    the nanoseconds divided by 1000, rounding down. *)
Theorem clock_accessors (m : Machine) :
  clock_source_valid m = true ->
  exists ns ev,
    RGXGPUFreqCalibrateClockns64 m = Ok ns (advance 1 [ev] m)
    /\ RGXGPUFreqCalibrateClockus64 m = Ok (ns / 1000) (advance 1 [ev] m)
    /\ 1000 * (ns / 1000) <= ns < 1000 * (ns / 1000) + 1000
    /\ (g_ui32ClockSource m = RGXTIMECORR_CLOCK_MONO ->
        ns = u64 (snd (clock_monotonic (env m) (now m)))
        /\ ev = EvOSClockMonotonicns64 (fst (clock_monotonic (env m) (now m))) ns)
    /\ (g_ui32ClockSource m = RGXTIMECORR_CLOCK_MONO_RAW ->
        ns = u64 (clock_monotonic_raw (env m) (now m))
        /\ ev = EvOSClockMonotonicRawns64 ns)
    /\ (g_ui32ClockSource m = RGXTIMECORR_CLOCK_SCHED ->
        ns = u64 (clock_sched (env m) (now m))
        /\ ev = EvOSClockns64 ns).
Proof.
  intros Hsrc.
  exists (host_ns_at m 0), (host_event_at m 0).
  split; [apply RGXGPUFreqCalibrateClockns64_run; exact Hsrc|].
  split; [apply RGXGPUFreqCalibrateClockus64_run; exact Hsrc|].
  split.
  { pose proof (Z.div_mod (host_ns_at m 0) 1000 ltac:(lia)) as Hdiv.
    pose proof (Z.mod_pos_bound (host_ns_at m 0) 1000 ltac:(lia)) as Hmod.
    lia. }
  unfold host_ns_at, host_event_at.
  split; [|split]; intros E; rewrite E; split; reflexivity.
Qed.

End Clock_source.

Lemma OSTryLockAcquire_held (m : Machine) :
  hPowerLock m = true ->
  OSTryLockAcquire m = Ok false (advance 0 [EvTryLockAcquire false] m).
Proof.
  intros H. unfold OSTryLockAcquire. rewrite bind_gets, H, bind_emit. reflexivity.
Qed.

Lemma OSTryLockAcquire_free (m : Machine) :
  hPowerLock m = false ->
  OSTryLockAcquire m = Ok true (advance 0 [EvTryLockAcquire true] (set_lock true m)).
Proof.
  intros H. unfold OSTryLockAcquire.
  rewrite bind_gets, H, bind_modify, bind_emit. reflexivity.
Qed.

Lemma PVRSRVPowerUnlock_run (m : Machine) :
  PVRSRVPowerUnlock m = Ok tt (advance 0 [EvPowerUnlock] (set_lock false m)).
Proof. unfold PVRSRVPowerUnlock. rewrite bind_modify, emit_run. reflexivity. Qed.

Section Periodic.
Context `{P : Platform}.

(** C7.  [RGXGPUFreqCalibrateCorrelatePeriodic] outside the guest role reads
    the host clock once.  If less than the target has elapsed since the
    window opened, that read is all that happens: no lock is tried, no record
    written.  If the target is reached but the power lock is held, the
    failed attempt is all that is added.  If the lock is taken but the device
    is not powered on, the lock is released again and nothing else is done:
    in all three cases the table, the ring and the lock end as they were. *)
Theorem correlate_periodic_skips (m : Machine) :
  is_guest (eDriverMode m) = false ->
  clock_source_valid m = true ->
  let elapsed := u64 (host_us_at m 0 - ui64CalibrationOSTimestamp (psGpuDVFSTable m)) in
  (elapsed < target_us m ->
   RGXGPUFreqCalibrateCorrelatePeriodic m
   = Ok tt (advance 1 [host_event_at m 0] m))
  /\ (target_us m <= elapsed -> hPowerLock m = true ->
      RGXGPUFreqCalibrateCorrelatePeriodic m
      = Ok tt (advance 1 [host_event_at m 0; EvTryLockAcquire false] m))
  /\ (target_us m <= elapsed -> hPowerLock m = false ->
      is_power_on (ePowerState m) = false ->
      RGXGPUFreqCalibrateCorrelatePeriodic m
      = Ok tt (advance 1 [host_event_at m 0; EvTryLockAcquire true; EvPowerUnlock] m))
  /\ (forall evs,
        psGpuDVFSTable (advance 1 evs m) = psGpuDVFSTable m
        /\ psRGXFWIfGpuUtilFWCb (advance 1 evs m) = psRGXFWIfGpuUtilFWCb m
        /\ hPowerLock (advance 1 evs m) = hPowerLock m
        /\ trace (advance 1 evs m) = trace m ++ evs).
Proof.
  intros Hguest Hsrc elapsed.
  assert (Hrun : RGXGPUFreqCalibrateCorrelatePeriodic m
                 = (do started <- gets_table ui64CalibrationOSTimestamp;
                    do period <- gets_table ui32CalibrationPeriod;
                    if u64 (host_us_at m 0 - started) <? period then ret tt
                    else
                      do locked <- OSTryLockAcquire;
                      if negb locked then ret tt
                      else
                        do ePowerState <- PVRSRVGetDevicePowerState;
                        if negb (is_power_on ePowerState) then PVRSRVPowerUnlock
                        else
                          run _RGXGPUFreqCalibrationPeriodStop;
                          do _v <- _RGXGPUFreqCalibrationCalculate;
                          run _RGXGPUFreqCalibrationPeriodStart;
                          run _RGXMakeTimeCorrData true;
                          PVRSRVPowerUnlock) (advance 1 [host_event_at m 0] m)).
  { unfold RGXGPUFreqCalibrateCorrelatePeriodic.
    rewrite (bind_Ok _ _ _ _ _ (RGXGPUFreqCalibrateClockus64_run m Hsrc)).
    apply unless_guest_host. destruct m; exact Hguest. }
  rewrite Hrun. clear Hrun.
  rewrite !bind_gets_table.
  subst elapsed.
  destruct m as [src [crts osts crd osd per cur acc clk] fw nom mode pw lk w n tr].
  cbn [advance set_trace set_now psGpuDVFSTable ui64CalibrationOSTimestamp
       ui32CalibrationPeriod target_us hPowerLock ePowerState trace now
       g_ui32ClockSource psRGXFWIfGpuUtilFWCb timing_ui32CoreClockSpeed eDriverMode env].
  split; [|split; [|split]].
  - intros Hlt. apply Z.ltb_lt in Hlt. rewrite Hlt. reflexivity.
  - intros Hge Hlk. apply Z.ltb_ge in Hge. rewrite Hge. subst lk.
    erewrite bind_Ok by (apply OSTryLockAcquire_held; reflexivity).
    cbn. rewrite <- !app_assoc. reflexivity.
  - intros Hge Hlk Hpw. apply Z.ltb_ge in Hge. rewrite Hge. subst lk.
    erewrite bind_Ok by (apply OSTryLockAcquire_free; reflexivity).
    cbn [negb]. unfold PVRSRVGetDevicePowerState. rewrite bind_gets.
    cbn [advance set_trace set_now set_lock ePowerState hPowerLock trace now
         g_ui32ClockSource psGpuDVFSTable psRGXFWIfGpuUtilFWCb
         timing_ui32CoreClockSpeed eDriverMode env].
    rewrite Hpw. cbn [negb].
    rewrite PVRSRVPowerUnlock_run.
    cbn. rewrite <- !app_assoc. reflexivity.
  - intros evs. repeat split; reflexivity.
Qed.

End Periodic.

Section Short_window.
Context `{P : Platform}.

(** A window start writes the nominal row only. *)
Lemma started_other_row (m : Machine) (known i : Z) :
  0 <= i -> 0 <= nominal_index m -> i <> nominal_index m ->
  known_clock (started m known) i = known_clock m i.
Proof.
  intros Hi Hn Hne. unfold started, started_table.
  assert (Hnat : Z.to_nat (nominal_index m) <> Z.to_nat i)
    by (intros E; apply Z2Nat.inj in E; lia).
  destruct (uncalibrated m known); [|destruct (target_us m =? _)];
    destruct m as [? [] ? ? ? ? ? ? ? ?]; cbn in *; try reflexivity.
  apply list_lookup_insert_ne. exact Hnat.
Qed.

(** C10 (as amended).  [RGXGPUFreqCalibratePostClockSpeedChange] outside
    the guest role, the requested speed mapping to another row than the
    current one and the accumulated host time below the transition
    threshold, on a well-formed device: the requested speed is returned and
    no calculation runs; a window is started for the row of the device's
    nominal clock speed (the one in its timing information), a record is
    written with logging on, and the accumulate flag is cleared.  When the
    nominal speed maps to the row of the requested speed, that row is the
    new current one and the row that was current keeps its clock. *)
Theorem post_clock_speed_change_short_window (m : Machine) (ui32NewClockSpeed : Z) :
  is_guest (eDriverMode m) = false ->
  RGX_GPU_DVFS_GET_INDEX ui32NewClockSpeed <> current_id m ->
  acc_host_us m < RGX_GPU_DVFS_TRANSITION_CALIBRATION_TIME_US ->
  clock_source_valid m = true ->
  nominal_in_range m = true ->
  ring_wf m = true ->
  workload_clock_ok m ->
  exists m2 m3,
    _RGXGPUFreqCalibrationPeriodStart m = Ok tt m2
    /\ _RGXMakeTimeCorrData true m2 = Ok tt m3
    /\ RGXGPUFreqCalibratePostClockSpeedChange ui32NewClockSpeed m
       = Ok ui32NewClockSpeed (set_accumulate false m3)
    /\ current_id (set_accumulate false m3) = nominal_index m
    /\ seq_count m3 = next_seq m
    /\ (exists evs os cr clk, trace m3 = evs ++ [EvHTBSyncScale true os cr clk])
    /\ accumulate (set_accumulate false m3) = false
    /\ (nominal_index m = RGX_GPU_DVFS_GET_INDEX ui32NewClockSpeed ->
        0 <= current_id m ->
        current_id (set_accumulate false m3) = RGX_GPU_DVFS_GET_INDEX ui32NewClockSpeed
        /\ known_clock (set_accumulate false m3) (current_id m)
           = known_clock m (current_id m)).
Proof.
  intros Hguest Hdiff Hshort Hsrc Hnom Hring Hwl.
  destruct (start_then_record m true Hsrc Hnom Hring Hwl)
    as (known & slot0 & clk & Hknown & Hslot & Hclk & Hstart & Hmake).
  destruct (in_range_lookup _ _ Hnom) as [Hidx _].
  set (m2 := started m known) in *.
  pose proof (started_step m known) as Hstep. fold m2 in Hstep.
  set (m3 := made m2 true slot0 clk) in *.
  assert (Htable : psGpuDVFSTable (set_accumulate false m3)
                   = set_AccumulatePeriod false (psGpuDVFSTable m2)).
  { unfold m3. destruct m2. reflexivity. }
  assert (Hcur3 : current_id (set_accumulate false m3) = nominal_index m).
  { unfold current_id. rewrite Htable.
    change (ui32CurrentDVFSId (set_AccumulatePeriod false (psGpuDVFSTable m2)))
      with (current_id m2).
    apply started_current. }
  exists m2, m3.
  split; [exact Hstart|]. split; [exact Hmake|].
  split.
  { unfold RGXGPUFreqCalibratePostClockSpeedChange.
    rewrite (unless_guest_host _ _ _ Hguest), bind_gets_table.
    fold (current_id m).
    destruct (RGX_GPU_DVFS_GET_INDEX ui32NewClockSpeed =? current_id m) eqn:E;
      [apply Z.eqb_eq in E; contradiction|].
    cbn [negb]. rewrite bind_gets_table. fold (acc_host_us m).
    destruct (RGX_GPU_DVFS_TRANSITION_CALIBRATION_TIME_US <=? acc_host_us m) eqn:E2;
      [apply Z.leb_le in E2; lia|].
    rewrite bind_ret.
    rewrite (bind_Ok _ _ _ _ _ Hstart).
    rewrite (bind_Ok _ _ _ _ _ Hmake).
    reflexivity. }
  split; [exact Hcur3|].
  split.
  { unfold m3. rewrite made_seq_count. apply (step_next_seq _ _ Hstep). }
  split.
  { destruct (made_events_last m2 true clk) as (evs & os & cr & Hev).
    exists (trace m2 ++ evs), os, cr, clk.
    unfold m3. rewrite made_trace, Hev, app_assoc. reflexivity. }
  split.
  { destruct m3 as [? [] ? ? ? ? ? ? ? ?]. reflexivity. }
  intros Hsame Hcur0.
  split; [rewrite Hcur3; exact Hsame|].
  unfold known_clock at 1. rewrite Htable.
  change (aui32DVFSClock (set_AccumulatePeriod false (psGpuDVFSTable m2))
          !! Z.to_nat (current_id m))
    with (known_clock m2 (current_id m)).
  unfold m2. apply started_other_row; [exact Hcur0 | exact Hidx |].
  rewrite Hsame. intros E. apply Hdiff. symmetry. exact E.
Qed.

End Short_window.

Section Clock_failure.
Context `{P : Platform}.

(** C5 (as amended).  The status of the monotonic clock is discarded by
    [RGXGPUFreqCalibrateClockns64].  So when the monotonic clock is the
    selected source and its read fails while a record is written, the record
    is written all the same: the sequence count advances, the slot of the new
    count holds a complete record whose host timestamp is whatever the
    clock's output variable holds, and the record is handed to
    [HTBSyncScale]. *)
Theorem record_written_despite_clock_failure
        (m : Machine) (bLogToHTB : bool) (clk : Z) :
  g_ui32ClockSource m = RGXTIMECORR_CLOCK_MONO ->
  fst (clock_monotonic (env m) (S workload_reads + now m)) <> PVRSRV_OK ->
  0 <= current_id m ->
  known_clock m (current_id m) = Some clk ->
  ring_wf m = true ->
  workload_read_ok m ->
  exists m' rec,
    _RGXMakeTimeCorrData bLogToHTB m = Ok tt m'
    /\ seq_count m' = next_seq m
    /\ ring m' !! Z.to_nat (next_slot m) = Some rec
    /\ ui64OSTimeStamp rec
       = u64 (snd (clock_monotonic (env m) (S workload_reads + now m)))
    /\ ui64CRTimeStamp rec = hw_at m workload_reads
    /\ ui32CoreClockSpeed rec = clk
    /\ ui64CRDeltaToOSDeltaKNs rec = RGXFWIF_GET_CRDELTA_TO_OSDELTA_K_NS clk
    /\ (exists evs,
           trace m' = evs ++ [EvHTBSyncScale bLogToHTB (ui64OSTimeStamp rec)
                                (ui64CRTimeStamp rec) clk]).
Proof.
  intros Hmono Hfail Hcur Hclk Hring Hwl.
  destruct (next_slot_in_range m Hring) as [Hslot [old Hold]].
  assert (Hsrc : clock_source_valid m = true)
    by (unfold clock_source_valid; rewrite Hmono; reflexivity).
  exists (made m bLogToHTB old clk), (made_record m old clk).
  split; [apply _RGXMakeTimeCorrData_run; assumption|].
  split; [apply made_seq_count|].
  split; [apply made_slot; exact Hold|].
  split.
  { unfold made_record, host_ns_at. cbn [ui64OSTimeStamp]. rewrite Hmono. reflexivity. }
  repeat (split; [reflexivity|]).
  rewrite made_trace. unfold made_events.
  eexists (trace m ++ workload_events m ++ [_; _; _; _]).
  rewrite <- !app_assoc. reflexivity.
Qed.

End Clock_failure.

Section Lifecycle.
Context `{P : Platform}.

(** In the guest role every hook returns at once and leaves the machine as it
    is; the periodic hook has read the host clock before it asks for the
    role, and that read is all it does. *)
Theorem hooks_skip_in_guest_role (m : Machine) :
  is_guest (eDriverMode m) = true ->
  _RGXGPUFreqCalibratePreClockSourceChange m = Ok tt m
  /\ _RGXGPUFreqCalibratePostClockSourceChange m = Ok tt m
  /\ RGXGPUFreqCalibratePrePowerOff m = Ok tt m
  /\ RGXGPUFreqCalibratePostPowerOn m = Ok tt m
  /\ RGXGPUFreqCalibratePreClockSpeedChange m = Ok tt m
  /\ (forall ui32NewClockSpeed,
         RGXGPUFreqCalibratePostClockSpeedChange ui32NewClockSpeed m
         = Ok ui32NewClockSpeed m)
  /\ (clock_source_valid m = true ->
      RGXGPUFreqCalibrateCorrelatePeriodic m
      = Ok tt (advance 1 [host_event_at m 0] m)).
Proof.
  intros Hguest.
  split; [apply unless_guest_guest; exact Hguest|].
  split; [apply unless_guest_guest; exact Hguest|].
  split; [apply unless_guest_guest; exact Hguest|].
  split.
  { unfold RGXGPUFreqCalibratePostPowerOn. rewrite bind_gets.
    apply unless_guest_guest. exact Hguest. }
  split; [apply unless_guest_guest; exact Hguest|].
  split; [intros s; apply unless_guest_guest; exact Hguest|].
  intros Hsrc. unfold RGXGPUFreqCalibrateCorrelatePeriodic.
  rewrite (bind_Ok _ _ _ _ _ (RGXGPUFreqCalibrateClockus64_run m Hsrc)).
  apply unless_guest_guest. destruct m; exact Hguest.
Qed.

(** The record writer on a well-formed device: the sequence count advances
    by one modulo [2 ^ 32]; the slot addressed by the new count, and no
    other, is overwritten with the timer reading, the host time of the
    selected clock, the clock of the current row and its scale factor; the
    calibration table is not touched; the barrier comes after the reads and
    before the record is handed to [HTBSyncScale] with the caller's flag. *)
Theorem record_lands_in_next_slot (m : Machine) (bLogToHTB : bool) (clk : Z) :
  clock_source_valid m = true ->
  0 <= current_id m ->
  known_clock m (current_id m) = Some clk ->
  ring_wf m = true ->
  workload_read_ok m ->
  let slot := u32 (seq_count m + 1) mod RGXFWIF_TIME_CORR_ARRAY_SIZE in
  exists m' rec,
    _RGXMakeTimeCorrData bLogToHTB m = Ok tt m'
    /\ seq_count m' = u32 (seq_count m + 1)
    /\ ring m' = <[Z.to_nat slot := rec]> (ring m)
    /\ ring m' !! Z.to_nat slot = Some rec
    /\ ui64CRTimeStamp rec = hw_at m workload_reads
    /\ ui64OSTimeStamp rec = host_ns_at m (S workload_reads)
    /\ ui32CoreClockSpeed rec = clk
    /\ ui64CRDeltaToOSDeltaKNs rec = RGXFWIF_GET_CRDELTA_TO_OSDELTA_K_NS clk
    /\ psGpuDVFSTable m' = psGpuDVFSTable m
    /\ trace m'
       = trace m ++ workload_events m
         ++ [EvReadHWTimerReg (ui64CRTimeStamp rec);
             host_event_at m (S workload_reads);
             EvWriteMemoryBarrier;
             EvDPF PVR_DBG_MESSAGE
               (MsgCorrelated (ui64OSTimeStamp rec) (ui64CRTimeStamp rec) clk);
             EvHTBSyncScale bLogToHTB (ui64OSTimeStamp rec) (ui64CRTimeStamp rec) clk].
Proof.
  intros Hsrc Hcur Hclk Hring Hwl slot.
  destruct (next_slot_in_range m Hring) as [Hslot [old Hold]].
  exists (made m bLogToHTB old clk), (made_record m old clk).
  split; [apply _RGXMakeTimeCorrData_run; assumption|].
  split; [apply made_seq_count|].
  split; [destruct m as [? ? [] ? ? ? ? ? ? ?]; reflexivity|].
  split; [apply made_slot; exact Hold|].
  repeat (split; [first [reflexivity | apply made_table]|]).
  apply made_trace.
Qed.

(** [RGXGPUFreqCalibratePrePowerOff] outside the guest role: the window is
    stopped, and a calculation follows exactly when the accumulated host time
    has reached the target. *)
Theorem pre_power_off_closes_window (m : Machine) :
  is_guest (eDriverMode m) = false ->
  clock_source_valid m = true ->
  exists ms,
    _RGXGPUFreqCalibrationPeriodStop m = Ok tt ms
    /\ (acc_host_us ms < target_us ms ->
        RGXGPUFreqCalibratePrePowerOff m = Ok tt ms)
    /\ (target_us ms <= acc_host_us ms ->
        current_in_range m = true ->
        (NO_HARDWARE = false -> acc_host_us ms <> 0) ->
        exists hz mc,
          _RGXGPUFreqCalibrationCalculate ms = Ok hz mc
          /\ RGXGPUFreqCalibratePrePowerOff m = Ok tt mc).
Proof.
  intros Hguest Hsrc.
  pose proof (_RGXGPUFreqCalibrationPeriodStop_run m Hsrc) as Hstop.
  set (ms := set_table _ _) in Hstop.
  assert (Hpre : RGXGPUFreqCalibratePrePowerOff m
                 = (if target_us ms <=? acc_host_us ms
                    then do _v <- _RGXGPUFreqCalibrationCalculate; ret tt
                    else ret tt) ms).
  { unfold RGXGPUFreqCalibratePrePowerOff.
    rewrite (unless_guest_host _ _ _ Hguest), (bind_Ok _ _ _ _ _ Hstop).
    rewrite !bind_gets_table. reflexivity. }
  exists ms. split; [exact Hstop|]. split.
  - intros Hlt. rewrite Hpre.
    destruct (target_us ms <=? acc_host_us ms) eqn:E;
      [apply Z.leb_le in E; lia | reflexivity].
  - intros Hge Hcur Hus. rewrite Hpre.
    destruct (target_us ms <=? acc_host_us ms) eqn:E;
      [|apply Z.leb_gt in E; lia].
    assert (Hcur' : current_in_range ms = true)
      by (destruct m as [? [] ? ? ? ? ? ? ? ?]; exact Hcur).
    destruct (in_range_lookup _ _ Hcur') as [H0 [old Hold]].
    exists (calibrated_hz ms old), (calculated ms old).
    pose proof (_RGXGPUFreqCalibrationCalculate_run ms old H0 Hold Hus) as Hcalc.
    split; [exact Hcalc|].
    rewrite (bind_Ok _ _ _ _ _ Hcalc). reflexivity.
Qed.

(** [RGXGPUFreqCalibratePostPowerOn] outside the guest role, on a well-formed
    device: the accumulate flag records whether the nominal speed still maps
    to the current row, a window is started, and a record is written that is
    not logged ([HTBSyncScale] is called with logging off). *)
Theorem post_power_on_opens_window (m : Machine) :
  is_guest (eDriverMode m) = false ->
  clock_source_valid m = true ->
  nominal_in_range m = true ->
  ring_wf m = true ->
  workload_clock_ok m ->
  let flagged := set_accumulate (nominal_index m =? current_id m) m in
  let queried :=
    if CONFIG_MACH_MT6799 then advance 0 [EvMTKQueryPowerState 1] flagged
    else flagged in
  exists m2 m3,
    _RGXGPUFreqCalibrationPeriodStart queried = Ok tt m2
    /\ _RGXMakeTimeCorrData false m2 = Ok tt m3
    /\ RGXGPUFreqCalibratePostPowerOn m = Ok tt m3
    /\ accumulate m3 = (nominal_index m =? current_id m)
    /\ current_id m3 = nominal_index m
    /\ seq_count m3 = next_seq m
    /\ (exists evs os cr clk, trace m3 = evs ++ [EvHTBSyncScale false os cr clk]).
Proof.
  intros Hguest Hsrc Hnom Hring Hwl flagged queried.
  assert (Hstep : table_step m queried).
  { subst queried flagged. destruct CONFIG_MACH_MT6799;
      destruct m as [? [] ? ? ? ? ? ? ? ?]; constructor; reflexivity. }
  assert (Hflag : accumulate queried = (nominal_index m =? current_id m)).
  { subst queried flagged. destruct CONFIG_MACH_MT6799;
      destruct m as [? [] ? ? ? ? ? ? ? ?]; reflexivity. }
  destruct (start_then_record queried false)
    as (known & slot0 & clk & Hknown & Hslot & Hclk & Hstart & Hmake).
  { rewrite (step_clock_source_valid _ _ Hstep). exact Hsrc. }
  { rewrite (step_nominal_in_range _ _ Hstep). exact Hnom. }
  { rewrite (step_ring_wf _ _ Hstep). exact Hring. }
  { apply (step_workload_clock_ok m); assumption. }
  set (m2 := started queried known) in *.
  pose proof (started_step queried known) as Hstep2. fold m2 in Hstep2.
  exists m2, (made m2 false slot0 clk).
  split; [exact Hstart|]. split; [exact Hmake|].
  split.
  { unfold RGXGPUFreqCalibratePostPowerOn.
    rewrite bind_gets, (unless_guest_host _ _ _ Hguest).
    rewrite bind_gets_table, bind_modify_table.
    assert (Hq : (do _u <- (if CONFIG_MACH_MT6799
                            then emit (EvMTKQueryPowerState 1) else ret tt);
                  run _RGXGPUFreqCalibrationPeriodStart;
                  _RGXMakeTimeCorrData false) flagged
                 = (run _RGXGPUFreqCalibrationPeriodStart;
                    _RGXMakeTimeCorrData false) queried).
    { subst queried. destruct CONFIG_MACH_MT6799;
        [rewrite bind_emit | rewrite bind_ret]; reflexivity. }
    unfold flagged, set_accumulate, nominal_index, current_id in Hq.
    rewrite Hq. fold flagged. fold queried.
    rewrite (bind_Ok _ _ _ _ _ Hstart). exact Hmake. }
  split.
  { unfold accumulate. rewrite made_table. fold (accumulate m2).
    unfold m2. rewrite started_accumulate. exact Hflag. }
  split.
  { unfold current_id. rewrite made_table. fold (current_id m2).
    unfold m2. rewrite started_current. apply (step_nominal_index _ _ Hstep). }
  split.
  { rewrite made_seq_count.
    rewrite (step_next_seq _ _ Hstep2). apply (step_next_seq _ _ Hstep). }
  destruct (made_events_last m2 false clk) as (evs & os & cr & Hev).
  exists (trace m2 ++ evs), os, cr, clk.
  rewrite made_trace, Hev, app_assoc. reflexivity.
Qed.

(** [RGXGPUFreqCalibrateCorrelatePeriodic] when it is due, outside the guest
    role, with the power lock free and the device powered on, on a
    well-formed device whose stopped window has a host time other than zero:
    the lock is taken, the window is stopped, the frequency calculated, a
    window started, a record written with logging on, and the lock released
    again. *)
Theorem correlate_periodic_recalibrates (m : Machine) :
  is_guest (eDriverMode m) = false ->
  clock_source_valid m = true ->
  target_us m
  <= u64 (host_us_at m 0 - ui64CalibrationOSTimestamp (psGpuDVFSTable m)) ->
  hPowerLock m = false ->
  is_power_on (ePowerState m) = true ->
  current_in_range m = true ->
  nominal_in_range m = true ->
  ring_wf m = true ->
  workload_clock_ok m ->
  let locked :=
    advance 1 [host_event_at m 0; EvTryLockAcquire true] (set_lock true m) in
  (NO_HARDWARE = false -> ui64CalibrationOSTimediff (stopped_table locked) <> 0) ->
  exists ms hz mc m2 m3,
    _RGXGPUFreqCalibrationPeriodStop locked = Ok tt ms
    /\ _RGXGPUFreqCalibrationCalculate ms = Ok hz mc
    /\ _RGXGPUFreqCalibrationPeriodStart mc = Ok tt m2
    /\ _RGXMakeTimeCorrData true m2 = Ok tt m3
    /\ RGXGPUFreqCalibrateCorrelatePeriodic m
       = Ok tt (advance 0 [EvPowerUnlock] (set_lock false m3))
    /\ hPowerLock (advance 0 [EvPowerUnlock] (set_lock false m3)) = false
    /\ seq_count m3 = next_seq m
    /\ (exists evs os cr clk, trace m3 = evs ++ [EvHTBSyncScale true os cr clk]).
Proof.
  intros Hguest Hsrc Hdue Hfree Hon Hcur Hnom Hring Hwl locked Hus.
  assert (Hsrc_l : clock_source_valid locked = true) by (destruct m; exact Hsrc).
  assert (Hnom_l : nominal_in_range locked = true) by (destruct m; exact Hnom).
  assert (Hring_l : ring_wf locked = true) by (destruct m; exact Hring).
  assert (Hwl_l : workload_clock_ok locked) by (destruct m; exact Hwl).
  assert (Hseq_l : next_seq locked = next_seq m) by (destruct m; reflexivity).
  pose proof (_RGXGPUFreqCalibrationPeriodStop_run locked Hsrc_l) as Hstop.
  set (ms := set_table _ _) in Hstop.
  assert (Hstep_s : table_step locked ms) by apply stopped_step.
  assert (Hcur_s : current_in_range ms = true)
    by (destruct m as [? [] ? ? ? ? ? ? ? ?]; exact Hcur).
  assert (Hus_s : NO_HARDWARE = false -> acc_host_us ms <> 0)
    by (destruct m as [? [] ? ? ? ? ? ? ? ?]; exact Hus).
  destruct (in_range_lookup _ _ Hcur_s) as [H0 [old Hold]].
  pose proof (_RGXGPUFreqCalibrationCalculate_run ms old H0 Hold Hus_s) as Hcalc.
  set (mc := calculated ms old) in *.
  pose proof (table_step_trans _ _ _ Hstep_s (calculated_step ms old)) as Hstep_c.
  fold mc in Hstep_c.
  destruct (start_then_record mc true)
    as (known & slot0 & clk & Hknown & Hslot & Hclk & Hstart & Hmake).
  { rewrite (step_clock_source_valid _ _ Hstep_c). exact Hsrc_l. }
  { rewrite (step_nominal_in_range _ _ Hstep_c). exact Hnom_l. }
  { rewrite (step_ring_wf _ _ Hstep_c). exact Hring_l. }
  { apply (step_workload_clock_ok locked); assumption. }
  set (m2 := started mc known) in *.
  pose proof (started_step mc known) as Hstep2. fold m2 in Hstep2.
  exists ms, (calibrated_hz ms old), mc, m2, (made m2 true slot0 clk).
  split; [exact Hstop|]. split; [exact Hcalc|].
  split; [exact Hstart|]. split; [exact Hmake|].
  split.
  { unfold RGXGPUFreqCalibrateCorrelatePeriodic.
    rewrite (bind_Ok _ _ _ _ _ (RGXGPUFreqCalibrateClockus64_run m Hsrc)).
    rewrite unless_guest_host by (destruct m; exact Hguest).
    rewrite !bind_gets_table.
    assert (Hlocked : OSTryLockAcquire (advance 1 [host_event_at m 0] m)
                      = Ok true locked).
    { rewrite OSTryLockAcquire_free by (destruct m; exact Hfree).
      subst locked. destruct m. cbn. rewrite <- app_assoc. reflexivity. }
    assert (Hcond : (u64 (host_us_at m 0
                          - ui64CalibrationOSTimestamp
                              (psGpuDVFSTable (advance 1 [host_event_at m 0] m)))
                     <? ui32CalibrationPeriod
                          (psGpuDVFSTable (advance 1 [host_event_at m 0] m)))
                    = false).
    { apply Z.ltb_ge. destruct m; exact Hdue. }
    rewrite Hcond, (bind_Ok _ _ _ _ _ Hlocked). cbn [negb].
    unfold PVRSRVGetDevicePowerState. rewrite bind_gets.
    replace (ePowerState locked) with (ePowerState m) by (destruct m; reflexivity).
    rewrite Hon. cbn [negb].
    rewrite (bind_Ok _ _ _ _ _ Hstop), (bind_Ok _ _ _ _ _ Hcalc).
    rewrite (bind_Ok _ _ _ _ _ Hstart), (bind_Ok _ _ _ _ _ Hmake).
    apply PVRSRVPowerUnlock_run. }
  split; [destruct (made m2 true slot0 clk); reflexivity|].
  split.
  { rewrite made_seq_count, (step_next_seq _ _ Hstep2), (step_next_seq _ _ Hstep_c).
    exact Hseq_l. }
  destruct (made_events_last m2 true clk) as (evs & os & cr & Hev).
  exists (trace m2 ++ evs), os, cr, clk.
  rewrite made_trace, Hev, app_assoc. reflexivity.
Qed.

End Lifecycle.

(** * Examples on the sample device *)

Lemma sample_workload_clock_ok (m : Machine) :
  @workload_clock_ok sample_platform m.
Proof. intros Hw. discriminate Hw. Qed.

(** C3, instance: the flag clear at the first stop and set at the second;
    the accumulators end as the sum of the two windows' deltas. *)
Lemma consecutive_stops_example :
  exists m1 m2,
    @_RGXGPUFreqCalibrationPeriodStop sample_platform sample_machine = Ok tt m1
    /\ @_RGXGPUFreqCalibrationPeriodStop sample_platform (set_accumulate true m1) = Ok tt m2
    /\ acc_ticks m2
       = u64 (window_ticks sample_machine 0 + window_ticks (set_accumulate true m1) 0)
    /\ acc_host_us m2
       = u64 (window_host_us sample_machine 0
              + window_host_us (set_accumulate true m1) 0).
Proof.
  destruct (@consecutive_stops sample_platform sample_machine true eq_refl)
    as (m1 & m2 & H1 & H2 & Hacc & _).
  exists m1, m2. split; [exact H1|]. split; [exact H2|].
  exact (Hacc eq_refl).
Defined.

(** C3, as stated, fails: with the flag set at both stops and 7 ticks over 3
    microseconds accumulated before, the accumulators end 7 and 3 above the
    sum of the two windows' deltas. *)
Lemma consecutive_stops_keep_earlier_windows :
  exists m1 m2,
    @_RGXGPUFreqCalibrationPeriodStop sample_platform merged_machine = Ok tt m1
    /\ accumulate m1 = true
    /\ @_RGXGPUFreqCalibrationPeriodStop sample_platform m1 = Ok tt m2
    /\ window_ticks merged_machine 0 + window_ticks m1 0 = 400000000
    /\ window_host_us merged_machine 0 + window_host_us m1 0 = 600000
    /\ acc_ticks m2 = 400000007
    /\ acc_host_us m2 = 600003
    /\ acc_ticks m2 <> u64 (window_ticks merged_machine 0 + window_ticks m1 0)
    /\ acc_host_us m2 <> u64 (window_host_us merged_machine 0 + window_host_us m1 0).
Proof.
  eexists. eexists.
  split; [vm_compute; reflexivity|].
  split; [reflexivity|].
  split; [vm_compute; reflexivity|].
  vm_compute. repeat split; discriminate.
Qed.

(** C1, instance: the example of the specification. *)
Lemma calculate_calibrates_example :
  exists m',
    @_RGXGPUFreqCalibrationCalculate sample_platform calibrating_machine
    = Ok 1000000000 m'
    /\ known_clock m' 5 = Some 1000000000
    /\ acc_ticks m' = 0
    /\ acc_host_us m' = 0.
Proof.
  destruct (@calculate_calibrates sample_platform calibrating_machine
              eq_refl eq_refl ltac:(discriminate))
    as (m' & Hrun & Hknown & _ & _ & Ht & Hu & _).
  exists m'. split; [exact Hrun|]. split; [exact Hknown|]. split; assumption.
Defined.

(** C1, as stated, fails: ten thousand million ticks over one second make
    [T * 1_000_000 / U] ten thousand million, which the 32-bit result cannot
    hold; the call returns 1_410_065_408. *)
Lemma calculate_truncates_to_32_bits :
  exists m',
    @_RGXGPUFreqCalibrationCalculate sample_platform fast_machine = Ok 1410065408 m'
    /\ acc_ticks fast_machine * 1000000 / acc_host_us fast_machine = 10000000000
    /\ 1410065408 <> acc_ticks fast_machine * 1000000 / acc_host_us fast_machine.
Proof.
  eexists. split; [vm_compute; reflexivity|].
  split; [reflexivity | discriminate].
Qed.

(** C4, instance: the row holds the nominal speed, so the target is the
    first-calibration threshold. *)
Lemma start_opens_window_example :
  exists m',
    @_RGXGPUFreqCalibrationPeriodStart sample_platform sample_machine = Ok tt m'
    /\ ui64CalibrationCRTimestamp (psGpuDVFSTable m') = 100000000
    /\ ui64CalibrationOSTimestamp (psGpuDVFSTable m') = 200000
    /\ current_id m' = 5
    /\ known_clock m' 5 = Some 500000000
    /\ target_us m' = 4000000.
Proof.
  destruct (@start_opens_window sample_platform sample_machine 500000000
              eq_refl ltac:(discriminate) eq_refl)
    as (m' & Hrun & Hcr & Hos & Hcur & Hfirst & _).
  destruct (Hfirst (or_intror eq_refl)) as [Hknown Htarget].
  exists m'. repeat split; assumption.
Defined.

(** C2, instance: asked for the 500 MHz it already runs at, the sample device
    only sets its flag; the device that has accumulated 200 milliseconds at
    row 5 and is told it now runs at 300 MHz (row 3) returns the calibrated
    498 MHz, not the requested speed. *)
Lemma post_clock_speed_change_example :
  @RGXGPUFreqCalibratePostClockSpeedChange sample_platform 500000000 sample_machine
  = Ok 500000000 (set_accumulate true sample_machine)
  /\ exists m',
      @RGXGPUFreqCalibratePostClockSpeedChange sample_platform 300000000 retimed_machine
      = Ok 498000000 m'
      /\ accumulate m' = false
      /\ seq_count m' = 1.
Proof.
  split.
  - apply (proj1 (@post_clock_speed_change sample_platform sample_machine 500000000
                    eq_refl)).
    reflexivity.
  - destruct (proj2 (@post_clock_speed_change sample_platform retimed_machine 300000000
                       eq_refl))
      as (hz & m1 & m2 & m3 & Hcalc & _ & _ & Hpost & Hseq & _ & _ & Hacc).
    + discriminate.
    + discriminate.
    + reflexivity.
    + reflexivity.
    + reflexivity.
    + reflexivity.
    + reflexivity.
    + apply sample_workload_clock_ok.
    + assert (Hhz : hz = 498000000).
      { vm_compute in Hcalc. injection Hcalc as <- _. reflexivity. }
      subst hz. exists (set_accumulate false m3).
      split; [exact Hpost|]. split; [exact Hacc|].
      destruct m3 as [? [] ? ? ? ? ? ? ? ?]. exact Hseq.
Defined.

(** C10, instance: the same device after only 100 milliseconds, and its
    timing information agreeing with the request: the requested 300 MHz is
    returned, row 3 becomes current and row 5 keeps its 498 MHz. *)
Lemma post_clock_speed_change_short_window_example :
  exists m',
    @RGXGPUFreqCalibratePostClockSpeedChange sample_platform 300000000
      retimed_early_machine
    = Ok 300000000 m'
    /\ current_id m' = 3
    /\ known_clock m' 5 = Some 498000000
    /\ accumulate m' = false.
Proof.
  destruct (@post_clock_speed_change_short_window sample_platform
              retimed_early_machine 300000000)
    as (m2 & m3 & _ & _ & Hpost & _ & _ & _ & Hacc & Hsame).
  - reflexivity.
  - discriminate.
  - reflexivity.
  - reflexivity.
  - reflexivity.
  - reflexivity.
  - apply sample_workload_clock_ok.
  - destruct (Hsame eq_refl ltac:(discriminate)) as [Hcur Hknown].
    exists (set_accumulate false m3).
    split; [exact Hpost|]. split; [exact Hcur|]. split; [exact Hknown | exact Hacc].
Defined.

(** C10, as stated, fails: the window is started for the row of the speed
    in the device's timing information.  Asked for 300 MHz (row 3) while
    that information still says 500 MHz, the call makes row 5 current. *)
Lemma post_clock_speed_change_starts_nominal_row :
  exists m',
    is_guest (eDriverMode sample_machine) = false
    /\ @RGX_GPU_DVFS_GET_INDEX sample_platform 300000000 = 3
    /\ current_id sample_machine = 5
    /\ acc_host_us sample_machine
       < @RGX_GPU_DVFS_TRANSITION_CALIBRATION_TIME_US sample_platform
    /\ @RGXGPUFreqCalibratePostClockSpeedChange sample_platform 300000000 sample_machine
       = Ok 300000000 m'
    /\ current_id m' = 5
    /\ current_id m' <> @RGX_GPU_DVFS_GET_INDEX sample_platform 300000000.
Proof.
  eexists.
  split; [reflexivity|]. split; [reflexivity|]. split; [reflexivity|].
  split; [reflexivity|].
  split; [vm_compute; reflexivity|].
  split; [reflexivity | discriminate].
Qed.

(** C5, instance: the monotonic clock fails, and the record is there. *)
Lemma record_written_despite_clock_failure_example :
  exists m' rec,
    @_RGXMakeTimeCorrData sample_platform true failing_machine = Ok tt m'
    /\ seq_count m' = 1
    /\ ring m' !! 1%nat = Some rec
    /\ ui64OSTimeStamp rec = 42
    /\ ui64CRTimeStamp rec = 100000000
    /\ ui32CoreClockSpeed rec = 500000000.
Proof.
  destruct (@record_written_despite_clock_failure sample_platform failing_machine
              true 500000000)
    as (m' & rec & Hrun & Hseq & Hslot & Hos & Hcr & Hclk & _).
  - reflexivity.
  - discriminate.
  - discriminate.
  - reflexivity.
  - reflexivity.
  - intros Hw. discriminate Hw.
  - exists m', rec. repeat split; assumption.
Defined.

(** C5, as stated, fails: the read of the selected clock reports an error,
    yet the sequence count goes from 0 to 1 and slot 1 holds a complete
    record, which is also handed to [HTBSyncScale]. *)
Lemma record_written_when_clock_fails :
  exists m',
    g_ui32ClockSource failing_machine = RGXTIMECORR_CLOCK_MONO
    /\ (forall n, fst (clock_monotonic (env failing_machine) n) = PVRSRV_ERROR_OTHER 1)
    /\ @_RGXMakeTimeCorrData sample_platform true failing_machine = Ok tt m'
    /\ seq_count failing_machine = 0
    /\ seq_count m' = 1
    /\ ring m' !! 1%nat
       = Some {| ui64OSTimeStamp := 42;
                 ui64OSMonoTimeStamp := 0;
                 ui64CRTimeStamp := 100000000;
                 ui32CoreClockSpeed := 500000000;
                 ui64CRDeltaToOSDeltaKNs := 2097151 |}
    /\ last (trace m') = Some (EvHTBSyncScale true 42 100000000 500000000).
Proof.
  eexists.
  split; [reflexivity|].
  split; [intros n; reflexivity|].
  split; [vm_compute; reflexivity|].
  repeat split; reflexivity.
Qed.

(** C6, instance. *)
Lemma set_clock_rejects_invalid_example :
  exists m',
    @_SetClock sample_platform 3 sample_machine = Ok PVRSRV_ERROR_INVALID_PARAMS m'
    /\ g_ui32ClockSource m' = RGXTIMECORR_CLOCK_MONO
    /\ psGpuDVFSTable m' = sample_table
    /\ psRGXFWIfGpuUtilFWCb m' = psRGXFWIfGpuUtilFWCb sample_machine.
Proof.
  destruct (@set_clock_rejects_invalid sample_platform sample_machine 3
              ltac:(discriminate))
    as (m' & Hrun & _ & Hsrc & Htable & Hfw & _).
  exists m'. repeat split; assumption.
Defined.

(** C7, instance: a tenth of a second into a window whose target is four
    seconds, the periodic hook only reads the clock. *)
Lemma correlate_periodic_skips_example :
  @RGXGPUFreqCalibrateCorrelatePeriodic sample_platform sample_machine
  = Ok tt (advance 1 [EvOSClockMonotonicns64 PVRSRV_OK 100000000] sample_machine).
Proof.
  apply (proj1 (@correlate_periodic_skips sample_platform sample_machine
                  eq_refl eq_refl)).
  reflexivity.
Defined.

(** C8, instance: switching the sample device from the monotonic to the
    scheduler clock. *)
Lemma set_clock_hook_order_example :
  exists m1 m',
    @_SetClock sample_platform RGXTIMECORR_CLOCK_SCHED sample_machine = Ok PVRSRV_OK m'
    /\ @_RGXGPUFreqCalibratePreClockSourceChange sample_platform sample_machine
       = Ok tt m1
    /\ g_ui32ClockSource m1 = RGXTIMECORR_CLOCK_MONO
    /\ g_ui32ClockSource m' = RGXTIMECORR_CLOCK_SCHED
    /\ accumulate m' = true.
Proof.
  assert (Hrun : { m' | @_SetClock sample_platform RGXTIMECORR_CLOCK_SCHED sample_machine
                        = Ok PVRSRV_OK m' }).
  { eexists. vm_compute. reflexivity. }
  destruct Hrun as [m' Hrun].
  destruct (@set_clock_hook_order sample_platform sample_machine m' _ Hrun)
    as (m1 & Hpre & Hold & _ & _ & Hnew & Hhooks).
  destruct (Hhooks eq_refl) as [_ (m2 & _ & _ & Hacc)].
  exists m1, m'. repeat split; assumption.
Defined.

(** The guest device: the speed change hook hands back what it is given. *)
Lemma hooks_skip_in_guest_role_example :
  @RGXGPUFreqCalibratePostClockSpeedChange sample_platform 300000000 guest_machine
  = Ok 300000000 guest_machine
  /\ @RGXGPUFreqCalibratePrePowerOff sample_platform guest_machine = Ok tt guest_machine.
Proof.
  destruct (@hooks_skip_in_guest_role sample_platform guest_machine eq_refl)
    as (_ & _ & Hoff & _ & _ & Hspeed & _).
  split; [apply Hspeed | exact Hoff].
Defined.

(** The first record of the sample device goes to slot 1. *)
Lemma record_lands_in_next_slot_example :
  exists m' rec,
    @_RGXMakeTimeCorrData sample_platform false sample_machine = Ok tt m'
    /\ seq_count m' = 1
    /\ ring m' = [empty_corr; rec; empty_corr; empty_corr]
    /\ ui64CRTimeStamp rec = 100000000
    /\ ui64OSTimeStamp rec = 200000000
    /\ ui32CoreClockSpeed rec = 500000000.
Proof.
  destruct (@record_lands_in_next_slot sample_platform sample_machine false 500000000)
    as (m' & rec & Hrun & Hseq & Hring & _ & Hcr & Hos & Hclk & _).
  - reflexivity.
  - discriminate.
  - reflexivity.
  - reflexivity.
  - intros Hw. discriminate Hw.
  - exists m', rec. repeat split; assumption.
Defined.

(** Powering the sample device off 0.2 seconds into a four-second window
    stops the window and calculates nothing. *)
Lemma pre_power_off_closes_window_example :
  exists ms,
    @RGXGPUFreqCalibratePrePowerOff sample_platform sample_machine = Ok tt ms
    /\ acc_ticks ms = 100000000
    /\ acc_host_us ms = 200000
    /\ known_clock ms 5 = Some 500000000.
Proof.
  destruct (@pre_power_off_closes_window sample_platform sample_machine eq_refl eq_refl)
    as (ms & Hstop & Hshort & _).
  vm_compute in Hstop. injection Hstop as <-.
  eexists. split; [apply Hshort; reflexivity|].
  repeat split; reflexivity.
Defined.

(** Powering the sample device on again at the same speed. *)
Lemma post_power_on_opens_window_example :
  exists m',
    @RGXGPUFreqCalibratePostPowerOn sample_platform sample_machine = Ok tt m'
    /\ accumulate m' = true
    /\ current_id m' = 5
    /\ seq_count m' = 1.
Proof.
  destruct (@post_power_on_opens_window sample_platform sample_machine
              eq_refl eq_refl eq_refl eq_refl (sample_workload_clock_ok _))
    as (m2 & m3 & _ & _ & Hrun & Hacc & Hcur & Hseq & _).
  exists m3. repeat split; assumption.
Defined.

(** One minute into its window the sample device recalibrates. *)
Lemma correlate_periodic_recalibrates_example :
  exists m',
    @RGXGPUFreqCalibrateCorrelatePeriodic sample_platform due_machine = Ok tt m'
    /\ hPowerLock m' = false.
Proof.
  destruct (@correlate_periodic_recalibrates sample_platform due_machine)
    as (ms & hz & mc & m2 & m3 & _ & _ & _ & _ & Hrun & Hlock & _).
  - reflexivity.
  - reflexivity.
  - discriminate.
  - reflexivity.
  - reflexivity.
  - reflexivity.
  - reflexivity.
  - reflexivity.
  - apply sample_workload_clock_ok.
  - intros _. discriminate.
  - eexists. split; [exact Hrun | exact Hlock].
Defined.


(** The sample device's clock, a tenth of a second after its start. *)
Lemma clock_accessors_example :
  exists m',
    @RGXGPUFreqCalibrateClockns64 sample_platform sample_machine = Ok 100000000 m'
    /\ @RGXGPUFreqCalibrateClockus64 sample_platform sample_machine = Ok 100000 m'.
Proof.
  destruct (@clock_accessors sample_platform sample_machine eq_refl)
    as (ns & ev & Hns & Hus & _ & Hmono & _).
  destruct (Hmono eq_refl) as [-> _].
  eexists. split; [exact Hns | exact Hus].
Defined.

(** * More on the hooks *)

Section Untouched.
Context `{P : Platform}.

Lemma stop_preserves_inputs : preserves device_inputs _RGXGPUFreqCalibrationPeriodStop.
Proof. unfold _RGXGPUFreqCalibrationPeriodStop. frame. Qed.

Lemma calculate_preserves_inputs : preserves device_inputs _RGXGPUFreqCalibrationCalculate.
Proof. unfold _RGXGPUFreqCalibrationCalculate. frame. Qed.

Lemma start_preserves_inputs : preserves device_inputs _RGXGPUFreqCalibrationPeriodStart.
Proof. unfold _RGXGPUFreqCalibrationPeriodStart. frame. Qed.

Lemma record_preserves_inputs (b : bool) :
  preserves device_inputs (_RGXMakeTimeCorrData b).
Proof. unfold _RGXMakeTimeCorrData. frame. Qed.

Lemma clock_us_preserves_inputs : preserves device_inputs RGXGPUFreqCalibrateClockus64.
Proof. frame. Qed.

Lemma start_preserves_accumulators :
  preserves accumulators _RGXGPUFreqCalibrationPeriodStart.
Proof. unfold _RGXGPUFreqCalibrationPeriodStart. frame. Qed.

Lemma record_preserves_accumulators (b : bool) :
  preserves accumulators (_RGXMakeTimeCorrData b).
Proof. unfold _RGXMakeTimeCorrData. frame. Qed.

Lemma record_preserves_mode (b : bool) :
  preserves eDriverMode (_RGXMakeTimeCorrData b).
Proof. unfold _RGXMakeTimeCorrData. frame. Qed.

Lemma start_preserves_mode : preserves eDriverMode _RGXGPUFreqCalibrationPeriodStart.
Proof. unfold _RGXGPUFreqCalibrationPeriodStart. frame. Qed.

(** None of the six lifecycle hooks, nor the clock-source setter, takes or
    releases the power lock, changes the power state or the driver mode, or
    writes the nominal clock speed of the timing information: whenever one of
    them returns, these four are as it found them.  In particular the speed
    handed to, or returned by, the post clock speed change hook is not
    stored there. *)
Theorem hooks_leave_device_inputs :
  preserves device_inputs _RGXGPUFreqCalibratePreClockSourceChange
  /\ preserves device_inputs _RGXGPUFreqCalibratePostClockSourceChange
  /\ preserves device_inputs RGXGPUFreqCalibratePrePowerOff
  /\ preserves device_inputs RGXGPUFreqCalibratePostPowerOn
  /\ preserves device_inputs RGXGPUFreqCalibratePreClockSpeedChange
  /\ (forall ui32NewClockSpeed,
         preserves device_inputs
           (RGXGPUFreqCalibratePostClockSpeedChange ui32NewClockSpeed))
  /\ (forall ui32Value, preserves device_inputs (_SetClock ui32Value)).
Proof.
  pose proof stop_preserves_inputs.
  pose proof calculate_preserves_inputs.
  pose proof start_preserves_inputs.
  pose proof (record_preserves_inputs true).
  pose proof (record_preserves_inputs false).
  assert (Hpre : preserves device_inputs _RGXGPUFreqCalibratePreClockSourceChange)
    by (unfold _RGXGPUFreqCalibratePreClockSourceChange; frame; assumption).
  assert (Hpost : preserves device_inputs _RGXGPUFreqCalibratePostClockSourceChange)
    by (unfold _RGXGPUFreqCalibratePostClockSourceChange; frame; assumption).
  split; [exact Hpre|]. split; [exact Hpost|].
  split; [unfold RGXGPUFreqCalibratePrePowerOff; frame; assumption|].
  split; [unfold RGXGPUFreqCalibratePostPowerOn; frame; assumption|].
  split; [unfold RGXGPUFreqCalibratePreClockSpeedChange; frame; assumption|].
  split; [intros s; unfold RGXGPUFreqCalibratePostClockSpeedChange; frame; assumption|].
  intros v. unfold _SetClock. frame; assumption.
Qed.

(** The periodic hook never leaks the power lock: however it returns (not
    due, lock busy, device off, or after a full recalibration), the lock is
    held exactly if it was held before the call, and the power state, the
    driver mode and the nominal clock speed are unchanged. *)
Theorem periodic_restores_lock (m m' : Machine) :
  RGXGPUFreqCalibrateCorrelatePeriodic m = Ok tt m' ->
  device_inputs m' = device_inputs m.
Proof.
  unfold RGXGPUFreqCalibrateCorrelatePeriodic. intros H.
  apply bind_inv in H as (now_us & m0 & Hread & H).
  pose proof (clock_us_preserves_inputs _ _ _ Hread) as H0.
  rewrite <- H0. clear H0 Hread m.
  unfold unless_guest in H. rewrite bind_gets in H.
  destruct (is_guest (eDriverMode m0)); [injection H as <-; reflexivity|].
  rewrite !bind_gets_table in H.
  destruct (_ <? _); [injection H as <-; reflexivity|].
  unfold OSTryLockAcquire in H.
  apply bind_inv in H as (locked & m1 & Htry & H).
  rewrite bind_gets in Htry.
  destruct (hPowerLock m0) eqn:Hlock.
  - rewrite bind_emit in Htry. injection Htry as <- <-.
    cbn [negb] in H. injection H as <-. destruct m0; reflexivity.
  - rewrite bind_modify, bind_emit in Htry. injection Htry as <- <-.
    cbn [negb] in H.
    unfold PVRSRVGetDevicePowerState in H. rewrite bind_gets in H.
    destruct (negb (is_power_on _)).
    + rewrite PVRSRVPowerUnlock_run in H. injection H as <-.
      destruct m0; cbn in *; subst; reflexivity.
    + apply bind_inv in H as ([] & ms & Hstop & H).
      apply bind_inv in H as (hz & mc & Hcalc & H).
      apply bind_inv in H as ([] & m2 & Hstart & H).
      apply bind_inv in H as ([] & m3 & Hmake & H).
      rewrite PVRSRVPowerUnlock_run in H. injection H as <-.
      pose proof (stop_preserves_inputs _ _ _ Hstop) as E1.
      pose proof (calculate_preserves_inputs _ _ _ Hcalc) as E2.
      pose proof (start_preserves_inputs _ _ _ Hstart) as E3.
      pose proof (record_preserves_inputs _ _ _ _ Hmake) as E4.
      assert (E : device_inputs m3
                  = (true, ePowerState m0, eDriverMode m0,
                     timing_ui32CoreClockSpeed m0))
        by (rewrite E4, E3, E2, E1; reflexivity).
      unfold device_inputs in *. cbn.
      injection E as _ -> -> ->. rewrite Hlock. reflexivity.
Qed.

End Untouched.

(** ** Windows across hooks *)

Lemma hw_at_range (m : Machine) (k : nat) : 0 <= hw_at m k < 2 ^ 64.
Proof. unfold hw_at, u64. apply Z.mod_pos_bound. lia. Qed.

Lemma host_ns_at_range (m : Machine) (k : nat) : 0 <= host_ns_at m k < 2 ^ 64.
Proof.
  unfold host_ns_at, u64.
  repeat match goal with |- context [if ?b then _ else _] => destruct b end;
    try (apply Z.mod_pos_bound; lia); lia.
Qed.

Lemma host_us_at_range (m : Machine) (k : nat) : 0 <= host_us_at m k < 2 ^ 64.
Proof.
  unfold host_us_at. pose proof (host_ns_at_range m k) as H.
  split; [apply Z.div_pos; lia|].
  apply Z.div_lt_upper_bound; lia.
Qed.

Lemma stopped_accumulators (m : Machine) (k : nat) (evs : list event) :
  acc_ticks (set_table (stopped_table m) (advance k evs m))
  = u64 ((if accumulate m then acc_ticks m else 0) + window_ticks m 0)
  /\ acc_host_us (set_table (stopped_table m) (advance k evs m))
     = u64 ((if accumulate m then acc_host_us m else 0) + window_host_us m 0).
Proof. destruct m as [? [] ? ? ? ? ? ? ? ?]. split; reflexivity. Qed.

Lemma stopped_rest (m : Machine) (k : nat) (evs : list event) :
  let m' := set_table (stopped_table m) (advance k evs m) in
  ui64CalibrationCRTimestamp (psGpuDVFSTable m')
  = ui64CalibrationCRTimestamp (psGpuDVFSTable m)
  /\ ui64CalibrationOSTimestamp (psGpuDVFSTable m')
     = ui64CalibrationOSTimestamp (psGpuDVFSTable m)
  /\ aui32DVFSClock (psGpuDVFSTable m') = aui32DVFSClock (psGpuDVFSTable m)
  /\ current_id m' = current_id m
  /\ target_us m' = target_us m
  /\ accumulate m' = accumulate m
  /\ now m' = (k + now m)%nat
  /\ trace m' = trace m ++ evs.
Proof. destruct m as [? [] ? ? ? ? ? ? ? ?]. repeat split; reflexivity. Qed.

Section Window_arithmetic.
Context `{P : Platform}.

(** While the timer and the host clock read no earlier than the snapshots
    taken when the window opened, and the sums fit 64 bits,
    [_RGXGPUFreqCalibrationPeriodStop] counts exactly: each accumulator
    becomes its base (what it held if the window is merged, zero otherwise)
    plus the plain difference between the reading and the snapshot, so it
    never decreases below its base. *)
Theorem stop_counts_exactly (m : Machine) :
  clock_source_valid m = true ->
  0 <= window_start_ticks m <= hw_at m 0 ->
  0 <= window_start_us m <= host_us_at m 1 ->
  0 <= base_ticks m ->
  base_ticks m + (hw_at m 0 - window_start_ticks m) < 2 ^ 64 ->
  0 <= base_host_us m ->
  base_host_us m + (host_us_at m 1 - window_start_us m) < 2 ^ 64 ->
  exists m',
    _RGXGPUFreqCalibrationPeriodStop m = Ok tt m'
    /\ acc_ticks m' = base_ticks m + (hw_at m 0 - window_start_ticks m)
    /\ acc_host_us m' = base_host_us m + (host_us_at m 1 - window_start_us m)
    /\ base_ticks m <= acc_ticks m'
    /\ base_host_us m <= acc_host_us m'.
Proof.
  intros Hsrc Hcr Hos Ht0 Ht Hu0 Hu.
  eexists. split; [apply _RGXGPUFreqCalibrationPeriodStop_run; exact Hsrc|].
  destruct (stopped_accumulators m 2
              [EvReadHWTimerReg (hw_at m 0); host_event_at m 1]) as [Eticks Eus].
  rewrite Eticks, Eus. unfold window_ticks, window_host_us.
  fold (window_start_ticks m) (window_start_us m) (base_ticks m) (base_host_us m).
  rewrite (u64_small (hw_at m 0 - _)) by lia.
  rewrite (u64_small (host_us_at m 1 - _)) by lia.
  rewrite !u64_small by lia.
  repeat split; lia.
Qed.

(** The unsigned subtraction wraps: when the host clock reads earlier than
    the snapshot of a window that is not merged,
    [_RGXGPUFreqCalibrationPeriodStop] leaves two to the sixty-fourth less
    the gap as the host time of the window. *)
Theorem stop_wraps_when_clock_reads_early (m : Machine) :
  clock_source_valid m = true ->
  accumulate m = false ->
  host_us_at m 1 < window_start_us m < 2 ^ 64 ->
  exists m',
    _RGXGPUFreqCalibrationPeriodStop m = Ok tt m'
    /\ acc_host_us m' = 2 ^ 64 - (window_start_us m - host_us_at m 1).
Proof.
  intros Hsrc Hacc Hos.
  eexists. split; [apply _RGXGPUFreqCalibrationPeriodStop_run; exact Hsrc|].
  destruct (stopped_accumulators m 2
              [EvReadHWTimerReg (hw_at m 0); host_event_at m 1]) as [_ Eus].
  rewrite Eus, Hacc. unfold window_host_us. fold (window_start_us m).
  pose proof (host_us_at_range m 1) as Hr.
  rewrite Z.add_0_l, u64_u64. unfold u64.
  replace (host_us_at m 1 - window_start_us m)
    with (2 ^ 64 - (window_start_us m - host_us_at m 1) + (-1) * 2 ^ 64)
    by lia.
  rewrite Z.mod_add by lia. apply Z.mod_small. lia.
Qed.

End Window_arithmetic.

(** ** Windows across a transition or a power cycle *)

Section Transitions.
Context `{P : Platform}.

Lemma stop_after (m : Machine) :
  clock_source_valid m = true ->
  exists m',
    _RGXGPUFreqCalibrationPeriodStop m = Ok tt m'
    /\ acc_ticks m' = u64 (base_ticks m + window_ticks m 0)
    /\ acc_host_us m' = u64 (base_host_us m + window_host_us m 0).
Proof.
  intros Hsrc.
  eexists. split; [apply _RGXGPUFreqCalibrationPeriodStop_run; exact Hsrc|].
  apply stopped_accumulators.
Qed.

Lemma window_ticks_u64 (m : Machine) (k : nat) : u64 (window_ticks m k) = window_ticks m k.
Proof. apply u64_u64. Qed.

Lemma window_host_us_u64 (m : Machine) (k : nat) :
  u64 (window_host_us m k) = window_host_us m k.
Proof. apply u64_u64. Qed.

(** What is left of a call of the post clock speed change hook that moved
    the device to another row. *)
Lemma post_clock_speed_change_moved (m m' : Machine) (ui32NewClockSpeed hz : Z) :
  RGXGPUFreqCalibratePostClockSpeedChange ui32NewClockSpeed m = Ok hz m' ->
  is_guest (eDriverMode m) = false ->
  RGX_GPU_DVFS_GET_INDEX ui32NewClockSpeed <> current_id m ->
  accumulate m' = false
  /\ g_ui32ClockSource m' = g_ui32ClockSource m
  /\ eDriverMode m' = eDriverMode m.
Proof.
  intros H Hhost Hrow.
  unfold RGXGPUFreqCalibratePostClockSpeedChange in H.
  rewrite unless_guest_host in H by exact Hhost.
  rewrite bind_gets_table in H.
  destruct (Z.eqb_spec (RGX_GPU_DVFS_GET_INDEX ui32NewClockSpeed)
              (ui32CurrentDVFSId (psGpuDVFSTable m))) as [E|_];
    [exfalso; apply Hrow; exact E|].
  cbn [negb] in H. rewrite bind_gets_table in H.
  apply bind_inv in H as (hz0 & m1 & Hcalc & H).
  apply bind_inv in H as ([] & m2 & Hstart & H).
  apply bind_inv in H as ([] & m3 & Hmake & H).
  rewrite bind_modify_table in H. injection H as _ <-.
  assert (E1 : g_ui32ClockSource m1 = g_ui32ClockSource m
               /\ eDriverMode m1 = eDriverMode m).
  { destruct (_ <=? _).
    - split; [exact (calculate_preserves_clock_source _ _ _ Hcalc)
             | exact (calculate_preserves_mode _ _ _ Hcalc)].
    - injection Hcalc as _ <-. split; reflexivity. }
  destruct E1 as [Es1 Em1].
  pose proof (start_preserves_clock_source _ _ _ Hstart) as Es2.
  pose proof (start_preserves_mode _ _ _ Hstart) as Em2.
  pose proof (record_preserves_clock_source _ _ _ _ Hmake) as Es3.
  pose proof (record_preserves_mode _ _ _ _ Hmake) as Em3.
  destruct m3 as [? [] ? ? ? ? ? ? ? ?]. cbn in *.
  split; [reflexivity|]. split; congruence.
Qed.

(** Once the post clock speed change hook has moved the device to another
    row, whether or not it recalibrated the row it left, what had been
    accumulated is dropped: the next pre clock speed change hook leaves in
    the accumulators the deltas of the new window alone. *)
Theorem transition_discards_old_window (m m' : Machine) (ui32NewClockSpeed hz : Z) :
  RGXGPUFreqCalibratePostClockSpeedChange ui32NewClockSpeed m = Ok hz m' ->
  is_guest (eDriverMode m) = false ->
  RGX_GPU_DVFS_GET_INDEX ui32NewClockSpeed <> current_id m ->
  clock_source_valid m = true ->
  exists m2,
    RGXGPUFreqCalibratePreClockSpeedChange m' = Ok tt m2
    /\ acc_ticks m2 = window_ticks m' 0
    /\ acc_host_us m2 = window_host_us m' 0.
Proof.
  intros H Hhost Hrow Hsrc.
  destruct (post_clock_speed_change_moved _ _ _ _ H Hhost Hrow) as (Hacc & Es & Em).
  assert (Hsrc' : clock_source_valid m' = true)
    by (unfold clock_source_valid in *; rewrite Es; exact Hsrc).
  destruct (stop_after m' Hsrc') as (m2 & Hstop & Ht & Hu).
  exists m2. unfold RGXGPUFreqCalibratePreClockSpeedChange.
  rewrite unless_guest_host by (rewrite Em; exact Hhost).
  split; [exact Hstop|].
  unfold base_ticks, base_host_us in *. rewrite Hacc in *.
  rewrite Ht, Hu, !Z.add_0_l, window_ticks_u64, window_host_us_u64.
  split; reflexivity.
Qed.

(** A transition that stays on the current row leaves the window open: the
    pre hook accumulates, the post hook only marks the window as merged and
    hands back the speed it was given, without opening a window or writing a
    record.  The next pre hook therefore measures from the same snapshots
    again and adds that to what was accumulated. *)
Theorem noop_transition_keeps_window (m : Machine) (ui32NewClockSpeed : Z) :
  is_guest (eDriverMode m) = false ->
  clock_source_valid m = true ->
  RGX_GPU_DVFS_GET_INDEX ui32NewClockSpeed = current_id m ->
  exists m1 m2,
    RGXGPUFreqCalibratePreClockSpeedChange m = Ok tt m1
    /\ RGXGPUFreqCalibratePostClockSpeedChange ui32NewClockSpeed m1
       = Ok ui32NewClockSpeed (set_accumulate true m1)
    /\ window_start_ticks m1 = window_start_ticks m
    /\ window_start_us m1 = window_start_us m
    /\ psRGXFWIfGpuUtilFWCb m1 = psRGXFWIfGpuUtilFWCb m
    /\ aui32DVFSClock (psGpuDVFSTable m1) = aui32DVFSClock (psGpuDVFSTable m)
    /\ target_us m1 = target_us m
    /\ trace m1 = trace m ++ [EvReadHWTimerReg (hw_at m 0); host_event_at m 1]
    /\ RGXGPUFreqCalibratePreClockSpeedChange (set_accumulate true m1) = Ok tt m2
    /\ acc_ticks m2
       = u64 (acc_ticks m1 + u64 (hw_at m 2 - window_start_ticks m))
    /\ acc_host_us m2
       = u64 (acc_host_us m1 + u64 (host_us_at m 3 - window_start_us m)).
Proof.
  intros Hhost Hsrc Hrow.
  set (m1 := set_table (stopped_table m)
               (advance 2 [EvReadHWTimerReg (hw_at m 0); host_event_at m 1] m)).
  assert (Hstep : table_step m m1) by apply stopped_step.
  destruct (stopped_rest m 2 [EvReadHWTimerReg (hw_at m 0); host_event_at m 1])
    as (Ecr & Eos & Eclk & Ecur & Etgt & Eacc & Enow & Etr).
  fold m1 in Ecr, Eos, Eclk, Ecur, Etgt, Eacc, Enow, Etr.
  assert (Hhost1 : is_guest (eDriverMode m1) = false)
    by (rewrite (step_mode _ _ Hstep); exact Hhost).
  assert (Hsrc1 : clock_source_valid (set_accumulate true m1) = true).
  { rewrite <- Hsrc, <- (step_clock_source_valid _ _ Hstep).
    destruct m1 as [? [] ? ? ? ? ? ? ? ?]. reflexivity. }
  destruct (stop_after _ Hsrc1) as (m2 & Hstop2 & Ht & Hu).
  exists m1, m2.
  split.
  { unfold RGXGPUFreqCalibratePreClockSpeedChange.
    rewrite unless_guest_host by exact Hhost.
    apply _RGXGPUFreqCalibrationPeriodStop_run. exact Hsrc. }
  split.
  { unfold RGXGPUFreqCalibratePostClockSpeedChange.
    rewrite unless_guest_host by exact Hhost1.
    rewrite bind_gets_table. fold (current_id m1). rewrite Ecur, Hrow, Z.eqb_refl.
    cbn [negb]. rewrite bind_modify_table. reflexivity. }
  split; [exact Ecr|]. split; [exact Eos|].
  split; [exact (step_fwcb _ _ Hstep)|].
  split; [exact Eclk|]. split; [exact Etgt|]. split; [exact Etr|].
  split.
  { unfold RGXGPUFreqCalibratePreClockSpeedChange.
    rewrite unless_guest_host; [exact Hstop2|].
    rewrite <- Hhost1. destruct m1 as [? [] ? ? ? ? ? ? ? ?]. reflexivity. }
  rewrite Ht, Hu.
  assert (Eenv : env m1 = env m) by exact (step_env _ _ Hstep).
  assert (Ecs : g_ui32ClockSource m1 = g_ui32ClockSource m)
    by exact (step_clock_source _ _ Hstep).
  unfold window_start_ticks, window_start_us in *.
  clear Hstop2 Ht Hu Hsrc1 Hstep.
  destruct m1 as [s1 [] ? ? ? ? ? e1 n1 ?].
  unfold base_ticks, base_host_us, window_ticks, window_host_us, hw_at,
    host_us_at, host_ns_at, acc_ticks, acc_host_us, accumulate in *.
  cbn in *. subst. split; reflexivity.
Qed.

(** Powering on leaves the accumulators alone and takes fresh snapshots, so
    the time from the stop before to the power-on is never counted: after
    it, a window is merged exactly if the nominal speed is on the row that
    was current, and the next stop adds to the accumulators (or to zero, on
    another row) what the timer and the host clock advanced since the
    power-on. *)
Theorem power_on_resumes_window (m : Machine) :
  is_guest (eDriverMode m) = false ->
  clock_source_valid m = true ->
  nominal_in_range m = true ->
  ring_wf m = true ->
  workload_clock_ok m ->
  exists m' m2,
    RGXGPUFreqCalibratePostPowerOn m = Ok tt m'
    /\ accumulators m' = accumulators m
    /\ accumulate m' = (nominal_index m =? current_id m)
    /\ window_start_ticks m' = hw_at m 0
    /\ window_start_us m' = host_us_at m 1
    /\ _RGXGPUFreqCalibrationPeriodStop m' = Ok tt m2
    /\ acc_ticks m2
       = u64 ((if nominal_index m =? current_id m then acc_ticks m else 0)
              + u64 (hw_at m' 0 - hw_at m 0))
    /\ acc_host_us m2
       = u64 ((if nominal_index m =? current_id m then acc_host_us m else 0)
              + u64 (host_us_at m' 1 - host_us_at m 1)).
Proof.
  intros Hhost Hsrc Hnom Hring Hwl.
  set (evs := if CONFIG_MACH_MT6799 then [EvMTKQueryPowerState 1] else []).
  set (m0 := advance 0 evs
               (set_accumulate (nominal_index m =? current_id m) m)).
  assert (Hstep0 : table_step m m0).
  { subst m0. destruct m as [? [] ? ? ? ? ? ? ? ?]. constructor; reflexivity. }
  assert (Hsrc0 : clock_source_valid m0 = true)
    by (rewrite (step_clock_source_valid _ _ Hstep0); exact Hsrc).
  assert (Hnom0 : nominal_in_range m0 = true)
    by (rewrite (step_nominal_in_range _ _ Hstep0); exact Hnom).
  assert (Hring0 : ring_wf m0 = true)
    by (rewrite (step_ring_wf _ _ Hstep0); exact Hring).
  pose proof (step_workload_clock_ok _ _ Hstep0 Hwl) as Hwl0.
  destruct (start_then_record m0 false Hsrc0 Hnom0 Hring0 Hwl0)
    as (known & old & clk & Hknown & Hold & Hclk & Hstart & Hmake).
  set (m' := made (started m0 known) false old clk) in *.
  assert (Hrun : RGXGPUFreqCalibratePostPowerOn m = Ok tt m').
  { unfold RGXGPUFreqCalibratePostPowerOn.
    rewrite bind_gets, (unless_guest_host _ _ _ Hhost).
    rewrite bind_gets_table, bind_modify_table.
    assert (Eq : bind (if CONFIG_MACH_MT6799 then emit (EvMTKQueryPowerState 1) else ret tt)
                   (fun _ => run _RGXGPUFreqCalibrationPeriodStart;
                             _RGXMakeTimeCorrData false)
                   (set_accumulate (nominal_index m =? current_id m) m)
                 = (run _RGXGPUFreqCalibrationPeriodStart;
                    _RGXMakeTimeCorrData false) m0).
    { subst m0 evs. destruct CONFIG_MACH_MT6799.
      - rewrite bind_emit. reflexivity.
      - rewrite bind_ret. destruct m as [? [] ? ? ? ? ? ? ? ?]. cbn.
        rewrite ?app_nil_r. reflexivity. }
    unfold set_accumulate, nominal_index, current_id in Eq. rewrite Eq.
    erewrite bind_Ok by exact Hstart. exact Hmake. }
  assert (Haccs : accumulators m' = accumulators m
                  /\ accumulate m' = (nominal_index m =? current_id m)
                  /\ window_start_ticks m' = hw_at m 0
                  /\ window_start_us m' = host_us_at m 1
                  /\ g_ui32ClockSource m' = g_ui32ClockSource m
                  /\ env m' = env m).
  { subst m' m0. clear.
    destruct m as [? [] [] ? ? ? ? ? ? ?].
    unfold made, started, started_table, accumulators, accumulate, acc_ticks,
      acc_host_us, window_start_ticks, window_start_us, hw_at, host_us_at,
      host_ns_at, set_accumulate.
    cbn. destruct (uncalibrated _ _); [|destruct (_ =? _)%Z]; cbn;
      repeat split; reflexivity. }
  destruct Haccs as (Eaccs & Eacc & Ecr & Eos & Es & Ee).
  assert (Hsrc' : clock_source_valid m' = true)
    by (unfold clock_source_valid in *; rewrite Es; exact Hsrc).
  destruct (stop_after m' Hsrc') as (m2 & Hstop & Ht & Hu).
  exists m', m2.
  split; [exact Hrun|]. split; [exact Eaccs|]. split; [exact Eacc|].
  split; [exact Ecr|]. split; [exact Eos|]. split; [exact Hstop|].
  rewrite Ht, Hu. unfold base_ticks, base_host_us, window_ticks, window_host_us.
  fold (window_start_ticks m') (window_start_us m').
  rewrite Eacc, Ecr, Eos.
  unfold accumulators in Eaccs.
  assert (Et : acc_ticks m' = acc_ticks m) by congruence.
  assert (Eu : acc_host_us m' = acc_host_us m) by congruence.
  rewrite Et, Eu. split; reflexivity.
Qed.

End Transitions.

(** ** Records in the ring *)

Lemma mod_succ_ne (a n : Z) : 2 <= n -> (a + 1) mod n <> a mod n.
Proof.
  intros Hn E.
  assert (H1 : (a + 1 - a) mod n = 0)
    by (rewrite Zminus_mod, E, Z.sub_diag; apply Z.mod_0_l; lia).
  replace (a + 1 - a) with 1 in H1 by lia.
  rewrite Z.mod_1_l in H1 by lia. discriminate H1.
Qed.

Section Ring.
Context `{P : Platform}.

Lemma made_frame (m : Machine) (b : bool) (old : RGXFWIF_TIME_CORR) (clk : Z) :
  g_ui32ClockSource (made m b old clk) = g_ui32ClockSource m
  /\ env (made m b old clk) = env m
  /\ length (ring (made m b old clk)) = length (ring m).
Proof.
  destruct m as [? ? [] ? ? ? ? ? ? ?]. unfold made. cbn.
  repeat split. apply length_insert.
Qed.

Lemma made_other_slot (m : Machine) (b : bool) (old : RGXFWIF_TIME_CORR) (clk : Z)
      (i : nat) :
  i <> Z.to_nat (next_slot m) ->
  ring (made m b old clk) !! i = ring m !! i.
Proof.
  intros Hne. destruct m as [? ? [] ? ? ? ? ? ? ?]. unfold made. cbn.
  apply list_lookup_insert_ne. intros E. apply Hne. symmetry. exact E.
Qed.

Lemma started_row (m : Machine) (known : Z) :
  known_clock m (nominal_index m) = Some known ->
  known_clock (started m known) (nominal_index m)
  = Some (if uncalibrated m known then timing_ui32CoreClockSpeed m else known).
Proof.
  intros Hknown.
  assert (Hlen : (Z.to_nat (nominal_index m)
                  < length (aui32DVFSClock (psGpuDVFSTable m)))%nat)
    by (apply lookup_lt_is_Some; eauto).
  unfold started, started_table.
  destruct (uncalibrated m known); [|destruct (target_us m =? _)];
    destruct m as [? [] ? ? ? ? ? ? ? ?]; cbn in *; try exact Hknown.
  apply list_lookup_insert_eq. exact Hlen.
Qed.

(** Two records written one after the other land in different slots of a
    ring of at least two slots, as long as the sequence counter does not
    wrap: the record of the first call is still in its slot after the
    second one, next to the record of the second, and the counter has
    advanced by two. *)
Theorem consecutive_records_keep_previous (m : Machine) (b1 b2 : bool) :
  clock_source_valid m = true ->
  current_in_range m = true ->
  ring_wf m = true ->
  workload_clock_ok m ->
  2 <= RGXFWIF_TIME_CORR_ARRAY_SIZE ->
  0 <= seq_count m ->
  seq_count m + 2 < 2 ^ 32 ->
  exists m1 m2 rec1 rec2,
    _RGXMakeTimeCorrData b1 m = Ok tt m1
    /\ _RGXMakeTimeCorrData b2 m1 = Ok tt m2
    /\ next_slot m1 <> next_slot m
    /\ ring m1 !! Z.to_nat (next_slot m) = Some rec1
    /\ ring m2 !! Z.to_nat (next_slot m) = Some rec1
    /\ ring m2 !! Z.to_nat (next_slot m1) = Some rec2
    /\ ui64CRTimeStamp rec1 = hw_at m workload_reads
    /\ ui64CRTimeStamp rec2 = hw_at m1 workload_reads
    /\ seq_count m2 = seq_count m + 2.
Proof.
  intros Hsrc Hcur Hring Hwl Hsize Hseq0 Hseq.
  destruct (in_range_lookup _ _ Hcur) as [Hc0 [clk Hclk]].
  fold (current_id m) in Hc0. fold (known_clock m (current_id m)) in Hclk.
  destruct (next_slot_in_range m Hring) as [Hslot [old1 Hold1]].
  pose proof (_RGXMakeTimeCorrData_run m b1 old1 clk Hsrc Hc0 Hclk Hslot Hold1
                (workload_clock_ok_now m Hwl)) as Hrun1.
  set (m1 := made m b1 old1 clk) in *.
  destruct (made_frame m b1 old1 clk) as (Es1 & Ee1 & El1). fold m1 in Es1, Ee1, El1.
  pose proof (made_table m b1 old1 clk) as Et1. fold m1 in Et1.
  assert (Hsrc1 : clock_source_valid m1 = true)
    by (unfold clock_source_valid in *; rewrite Es1; exact Hsrc).
  assert (Hring1 : ring_wf m1 = true)
    by (unfold ring_wf in *; rewrite El1; exact Hring).
  assert (Hwl1 : workload_clock_ok m1)
    by (unfold workload_clock_ok in *; rewrite Ee1; exact Hwl).
  assert (Hc1 : 0 <= current_id m1) by (unfold current_id; rewrite Et1; exact Hc0).
  assert (Hclk1 : known_clock m1 (current_id m1) = Some clk)
    by (unfold known_clock, current_id; rewrite Et1; exact Hclk).
  destruct (next_slot_in_range m1 Hring1) as [Hslot1 [old2 Hold2]].
  pose proof (_RGXMakeTimeCorrData_run m1 b2 old2 clk Hsrc1 Hc1 Hclk1 Hslot1 Hold2
                (workload_clock_ok_now m1 Hwl1)) as Hrun2.
  set (m2 := made m1 b2 old2 clk) in *.
  assert (Hn1 : next_seq m = seq_count m + 1)
    by (unfold next_seq; apply u32_small; lia).
  assert (Hs1 : seq_count m1 = seq_count m + 1)
    by (subst m1; rewrite made_seq_count; exact Hn1).
  assert (Hn2 : next_seq m1 = seq_count m + 1 + 1)
    by (unfold next_seq; rewrite Hs1; apply u32_small; lia).
  assert (Hne : next_slot m1 <> next_slot m).
  { unfold next_slot, RGXFWIF_TIME_CORR_CURR_INDEX. rewrite Hn1, Hn2.
    apply mod_succ_ne. exact Hsize. }
  exists m1, m2, (made_record m old1 clk), (made_record m1 old2 clk).
  split; [exact Hrun1|]. split; [exact Hrun2|]. split; [exact Hne|].
  split; [apply made_slot; exact Hold1|].
  split.
  { subst m2. rewrite made_other_slot by (intros E; apply Z2Nat.inj in E; lia).
    apply made_slot. exact Hold1. }
  split; [apply made_slot; exact Hold2|].
  split; [reflexivity|]. split; [reflexivity|].
  subst m2. rewrite made_seq_count, Hn2. lia.
Qed.

(** A window opened and a record written, as every hook that writes a
    record does: the record carries the clock speed of the row the window
    was opened for, which is the nominal speed when that row was empty or
    held the nominal speed, and what the row held otherwise; with a nominal
    speed other than zero, the recorded speed is never zero.  The conversion
    factor of the record is derived from that same speed. *)
Theorem record_after_start_carries_row (m : Machine) (bLogToHTB : bool) :
  clock_source_valid m = true ->
  nominal_in_range m = true ->
  ring_wf m = true ->
  workload_clock_ok m ->
  timing_ui32CoreClockSpeed m <> 0 ->
  exists known m1 m2 rec,
    known_clock m (nominal_index m) = Some known
    /\ _RGXGPUFreqCalibrationPeriodStart m = Ok tt m1
    /\ _RGXMakeTimeCorrData bLogToHTB m1 = Ok tt m2
    /\ ring m2 !! Z.to_nat (next_slot m) = Some rec
    /\ ui32CoreClockSpeed rec
       = (if uncalibrated m known then timing_ui32CoreClockSpeed m else known)
    /\ known_clock m2 (current_id m2) = Some (ui32CoreClockSpeed rec)
    /\ ui32CoreClockSpeed rec <> 0
    /\ ui64CRDeltaToOSDeltaKNs rec
       = RGXFWIF_GET_CRDELTA_TO_OSDELTA_K_NS (ui32CoreClockSpeed rec).
Proof.
  intros Hsrc Hnom Hring Hwl Hspeed.
  destruct (start_then_record m bLogToHTB Hsrc Hnom Hring Hwl)
    as (known & old & clk & Hknown & Hold & Hclk & Hstart & Hmake).
  pose proof (started_row m known Hknown) as Hrow.
  rewrite Hclk in Hrow. injection Hrow as Hrow.
  pose proof (started_step m known) as Hstep.
  exists known, (started m known), (made (started m known) bLogToHTB old clk),
    (made_record (started m known) old clk).
  split; [exact Hknown|]. split; [exact Hstart|]. split; [exact Hmake|].
  split.
  { rewrite <- (step_next_slot _ _ Hstep). apply made_slot.
    rewrite (step_next_slot _ _ Hstep), (step_ring _ _ Hstep). exact Hold. }
  split; [exact Hrow|].
  split.
  { unfold known_clock, current_id. rewrite made_table.
    fold (current_id (started m known)). rewrite started_current. exact Hclk. }
  split; [|reflexivity].
  cbn [ui32CoreClockSpeed made_record]. rewrite Hrow.
  unfold uncalibrated. destruct (Z.eqb_spec known 0) as [|Hk]; cbn [orb].
  - exact Hspeed.
  - destruct (known =? _); [exact Hspeed | exact Hk].
Qed.

End Ring.

(** ** The clock-source setter, end to end *)

Lemma hw_at_ext (m m' : Machine) (k k' : nat) :
  env m' = env m -> (k' + now m')%nat = (k + now m)%nat -> hw_at m' k' = hw_at m k.
Proof. unfold hw_at. intros -> ->. reflexivity. Qed.

Lemma host_ns_at_ext (m m' : Machine) (k k' : nat) :
  g_ui32ClockSource m' = g_ui32ClockSource m ->
  env m' = env m -> (k' + now m')%nat = (k + now m)%nat ->
  host_ns_at m' k' = host_ns_at m k.
Proof. unfold host_ns_at. intros -> -> ->. reflexivity. Qed.

Lemma host_us_at_ext (m m' : Machine) (k k' : nat) :
  g_ui32ClockSource m' = g_ui32ClockSource m ->
  env m' = env m -> (k' + now m')%nat = (k + now m)%nat ->
  host_us_at m' k' = host_us_at m k.
Proof. unfold host_us_at. intros. f_equal. apply host_ns_at_ext; assumption. Qed.

Section Setter.
Context `{P : Platform}.

Lemma calculated_now (m : Machine) (old : Z) : now (calculated m old) = now m.
Proof.
  unfold calculated. destruct NO_HARDWARE; [reflexivity|].
  destruct m. reflexivity.
Qed.

Lemma started_window (m : Machine) (known : Z) :
  window_start_ticks (started m known) = hw_at m 0
  /\ window_start_us (started m known) = host_us_at m 1
  /\ now (started m known) = (2 + now m)%nat
  /\ accumulators (started m known) = accumulators m.
Proof.
  unfold started, started_table.
  destruct (uncalibrated m known); [|destruct (target_us m =? _)];
    destruct m as [? [] ? ? ? ? ? ? ? ?]; repeat split; reflexivity.
Qed.

Lemma made_now (m : Machine) (b : bool) (old : RGXFWIF_TIME_CORR) (clk : Z) :
  now (made m b old clk) = (2 + workload_reads + now m)%nat.
Proof. destruct m. reflexivity. Qed.

(** The body shared by the pre clock source change and the pre power off
    hooks, on a well-formed device with a positive target: a stop, then a
    calculation exactly if the accumulated host time has reached the
    target, which then is not zero. *)
Lemma pre_hooks_run (m : Machine) :
  is_guest (eDriverMode m) = false ->
  clock_source_valid m = true ->
  current_in_range m = true ->
  0 < target_us m ->
  exists m1,
    _RGXGPUFreqCalibratePreClockSourceChange m = Ok tt m1
    /\ RGXGPUFreqCalibratePrePowerOff m = Ok tt m1
    /\ table_step m m1
    /\ now m1 = (2 + now m)%nat
    /\ accumulate m1 = accumulate m.
Proof.
  intros Hhost Hsrc Hcur Htgt.
  pose proof (_RGXGPUFreqCalibrationPeriodStop_run m Hsrc) as Hstop.
  set (ms := set_table _ _) in Hstop.
  assert (Hstep : table_step m ms) by apply stopped_step.
  destruct (stopped_rest m 2 [EvReadHWTimerReg (hw_at m 0); host_event_at m 1])
    as (_ & _ & Eclk & Ecur & Etgt & Eacc & Enow & _).
  fold ms in Eclk, Ecur, Etgt, Eacc, Enow.
  assert (Hcur_s : current_in_range ms = true).
  { unfold current_in_range. fold (current_id ms). rewrite Eclk, Ecur. exact Hcur. }
  destruct (in_range_lookup _ _ Hcur_s) as [H0 [old Hold]].
  assert (Hbody : (run _RGXGPUFreqCalibrationPeriodStop;
                   do osdiff <- gets_table ui64CalibrationOSTimediff;
                   do period <- gets_table ui32CalibrationPeriod;
                   if period <=? osdiff then
                     do _v <- _RGXGPUFreqCalibrationCalculate; ret tt
                   else ret tt) m
                  = Ok tt (if target_us ms <=? acc_host_us ms
                           then calculated ms old else ms)).
  { rewrite (bind_Ok _ _ _ _ _ Hstop), !bind_gets_table.
    fold (acc_host_us ms) (target_us ms).
    destruct (Z.leb_spec (target_us ms) (acc_host_us ms)) as [Hle|_]; [|reflexivity].
    erewrite bind_Ok; [reflexivity|].
    apply _RGXGPUFreqCalibrationCalculate_run; [exact H0 | exact Hold|].
    intros _. rewrite Etgt in Hle. lia. }
  eexists.
  split; [unfold _RGXGPUFreqCalibratePreClockSourceChange;
          rewrite (unless_guest_host _ _ _ Hhost); exact Hbody|].
  split; [unfold RGXGPUFreqCalibratePrePowerOff;
          rewrite (unless_guest_host _ _ _ Hhost); exact Hbody|].
  destruct (target_us ms <=? acc_host_us ms).
  - split; [exact (table_step_trans _ _ _ Hstep (calculated_step ms old))|].
    split; [rewrite calculated_now; exact Enow|].
    rewrite <- Eacc. unfold calculated. destruct NO_HARDWARE; [reflexivity|].
    destruct ms as [? [] ? ? ? ? ? ? ? ?]. reflexivity.
  - split; [exact Hstep|]. split; [exact Enow | exact Eacc].
Qed.

(** On a well-formed device outside the guest role, with a positive target,
    selecting any of the three clocks succeeds, also the one already
    selected: the new value is stored, the window is stopped with the old
    clock and a merged window opened with the new one, whose host snapshot
    and whose record are readings of the new clock, and exactly one record
    is written. *)
Theorem set_clock_succeeds (m : Machine) (ui32Value : Z) :
  0 <= ui32Value < RGXTIMECORR_CLOCK_LAST ->
  is_guest (eDriverMode m) = false ->
  clock_source_valid m = true ->
  current_in_range m = true ->
  nominal_in_range m = true ->
  ring_wf m = true ->
  workload_clock_ok m ->
  0 < target_us m ->
  exists m' rec,
    _SetClock ui32Value m = Ok PVRSRV_OK m'
    /\ g_ui32ClockSource m' = ui32Value
    /\ accumulate m' = true
    /\ window_start_ticks m' = hw_at m 2
    /\ window_start_us m' = host_us_at (set_ClockSource ui32Value m) 3
    /\ seq_count m' = next_seq m
    /\ ring m' !! Z.to_nat (next_slot m) = Some rec
    /\ ui64CRTimeStamp rec = hw_at m (4 + workload_reads)
    /\ ui64OSTimeStamp rec
       = host_ns_at (set_ClockSource ui32Value m) (5 + workload_reads).
Proof.
  intros Hv Hhost Hsrc Hcur Hnom Hring Hwl Htgt.
  destruct (pre_hooks_run m Hhost Hsrc Hcur Htgt)
    as (m1 & Hpre & _ & Hstep1 & Hnow1 & _).
  set (sw := set_accumulate true
               (set_ClockSource ui32Value
                  (advance 0 [EvDPF PVR_DBG_WARNING
                                (MsgSettingClock
                                   (apszClocks !! Z.to_nat (g_ui32ClockSource m1))
                                   (apszClocks !! Z.to_nat ui32Value))] m1))).
  assert (Hsw : g_ui32ClockSource sw = ui32Value
                /\ psRGXFWIfGpuUtilFWCb sw = psRGXFWIfGpuUtilFWCb m1
                /\ timing_ui32CoreClockSpeed sw = timing_ui32CoreClockSpeed m1
                /\ eDriverMode sw = eDriverMode m1
                /\ env sw = env m1
                /\ now sw = now m1
                /\ aui32DVFSClock (psGpuDVFSTable sw) = aui32DVFSClock (psGpuDVFSTable m1)
                /\ accumulate sw = true).
  { subst sw. destruct m1 as [? [] ? ? ? ? ? ? ? ?]. repeat split; reflexivity. }
  destruct Hsw as (Es & Ef & Et & Em & Ee & En & Ec & Ea).
  assert (Hsrc_sw : clock_source_valid sw = true).
  { unfold clock_source_valid. rewrite Es. apply andb_true_iff.
    split; [apply Z.leb_le | apply Z.ltb_lt]; lia. }
  assert (Hnom_sw : nominal_in_range sw = true).
  { rewrite <- Hnom, <- (step_nominal_in_range _ _ Hstep1).
    unfold nominal_in_range, nominal_index. rewrite Et, Ec. reflexivity. }
  assert (Hring_sw : ring_wf sw = true).
  { rewrite <- Hring, <- (step_ring_wf _ _ Hstep1).
    unfold ring_wf, ring. rewrite Ef. reflexivity. }
  assert (Hwl_sw : workload_clock_ok sw).
  { unfold workload_clock_ok in *. rewrite Ee, (step_env _ _ Hstep1). exact Hwl. }
  destruct (start_then_record sw true Hsrc_sw Hnom_sw Hring_sw Hwl_sw)
    as (known & old & clk & Hknown & Hold & Hclk & Hstart & Hmake).
  pose proof (started_step sw known) as Hstep2.
  destruct (started_window sw known) as (Wt & Wu & Wn & _).
  set (m2 := started sw known) in *.
  destruct (made_frame m2 true old clk) as (Fs & Fe & _).
  assert (Hseq : next_seq m2 = next_seq m).
  { rewrite (step_next_seq _ _ Hstep2). unfold next_seq, seq_count.
    rewrite Ef, (step_fwcb _ _ Hstep1). reflexivity. }
  assert (Hslot : next_slot m2 = next_slot m)
    by (unfold next_slot; rewrite Hseq; reflexivity).
  assert (Henv : env sw = env m) by (rewrite Ee; exact (step_env _ _ Hstep1)).
  assert (Hpost : _RGXGPUFreqCalibratePostClockSourceChange
                    (set_ClockSource ui32Value
                       (advance 0 [EvDPF PVR_DBG_WARNING
                                     (MsgSettingClock
                                        (apszClocks !! Z.to_nat (g_ui32ClockSource m1))
                                        (apszClocks !! Z.to_nat ui32Value))] m1))
                  = Ok tt (made m2 true old clk)).
  { unfold _RGXGPUFreqCalibratePostClockSourceChange.
    rewrite unless_guest_host.
    2:{ rewrite <- Hhost, <- (step_mode _ _ Hstep1).
        destruct m1; reflexivity. }
    rewrite bind_modify_table.
    change (set_table _ _) with sw.
    rewrite (bind_Ok _ _ _ _ _ Hstart). exact Hmake. }
  exists (made m2 true old clk), (made_record m2 old clk).
  split.
  { unfold _SetClock.
    destruct (Z.leb_spec RGXTIMECORR_CLOCK_LAST ui32Value) as [Hbad|_]; [lia|].
    rewrite (bind_Ok _ _ _ _ _ Hpre), bind_gets. unfold PVR_DPF.
    rewrite bind_emit, bind_modify.
    rewrite (bind_Ok _ _ _ _ _ Hpost). reflexivity. }
  split; [rewrite Fs, (step_clock_source _ _ Hstep2); exact Es|].
  split.
  { unfold accumulate. rewrite made_table. fold (accumulate m2).
    subst m2. rewrite started_accumulate. exact Ea. }
  split.
  { unfold window_start_ticks. rewrite made_table. fold (window_start_ticks m2).
    rewrite Wt. apply hw_at_ext; [exact Henv | rewrite En, Hnow1; reflexivity]. }
  split.
  { unfold window_start_us. rewrite made_table. fold (window_start_us m2).
    rewrite Wu. apply host_us_at_ext;
      [rewrite Es; destruct m; reflexivity
      | rewrite Henv; destruct m; reflexivity
      | rewrite En, Hnow1; destruct m; reflexivity]. }
  split; [rewrite made_seq_count; exact Hseq|].
  split.
  { rewrite <- Hslot. apply made_slot.
    rewrite (step_next_slot _ _ Hstep2), (step_ring _ _ Hstep2). exact Hold. }
  split.
  { cbn [ui64CRTimeStamp made_record]. apply hw_at_ext.
    - rewrite (step_env _ _ Hstep2). exact Henv.
    - rewrite Wn, En, Hnow1. lia. }
  cbn [ui64OSTimeStamp made_record]. apply host_ns_at_ext.
  - rewrite (step_clock_source _ _ Hstep2), Es. destruct m; reflexivity.
  - rewrite (step_env _ _ Hstep2), Henv. destruct m; reflexivity.
  - rewrite Wn, En, Hnow1. destruct m. cbn. lia.
Qed.


End Setter.

(** ** The periodic hook, end to end *)

Section Periodic_recalibration.
Context `{P : Platform}.

Lemma calculated_row (m : Machine) (old : Z) :
  NO_HARDWARE = false ->
  known_clock m (current_id m) = Some old ->
  known_clock (calculated m old) (current_id m) = Some (calibrated_hz m old)
  /\ current_id (calculated m old) = current_id m
  /\ accumulators (calculated m old) = (0, 0)
  /\ target_us (calculated m old) = target_us m.
Proof.
  intros Hhw Hold.
  assert (Hlen : (Z.to_nat (current_id m)
                  < length (aui32DVFSClock (psGpuDVFSTable m)))%nat)
    by (apply lookup_lt_is_Some; eauto).
  unfold calculated. rewrite Hhw.
  destruct m as [? [] ? ? ? ? ? ? ? ?]. cbn in *.
  repeat split. apply list_lookup_insert_eq. exact Hlen.
Qed.

Lemma started_target (m : Machine) (known : Z) :
  target_us (started m known)
  = (if uncalibrated m known then RGX_GPU_DVFS_FIRST_CALIBRATION_TIME_US
     else if target_us m =? RGX_GPU_DVFS_FIRST_CALIBRATION_TIME_US
          then RGX_GPU_DVFS_TRANSITION_CALIBRATION_TIME_US
          else RGX_GPU_DVFS_PERIODIC_CALIBRATION_TIME_US).
Proof.
  unfold started, started_table.
  destruct (uncalibrated m known); [|destruct (target_us m =? _)];
    destruct m as [? [] ? ? ? ? ? ? ? ?]; reflexivity.
Qed.

(** The periodic hook when it is due, on a powered-on, well-formed hardware
    device that is still on the row its window was opened for, with the
    power lock free: provided the host clock has not gone back since the
    window opened nor between the hook's own reading and the stop's, the
    hook returns, the division is by a host time of at least the target,
    and the frequency it computes (timer ticks times a million over host
    microseconds, cut to 32 bits) is what the row holds and what the new
    record carries, unless it is zero or the nominal speed, when both carry
    the nominal speed and the target goes back to the first-calibration
    time.  The accumulators are left at zero and the lock free. *)
Theorem periodic_recalibration_publishes (m : Machine) :
  NO_HARDWARE = false ->
  is_guest (eDriverMode m) = false ->
  clock_source_valid m = true ->
  hPowerLock m = false ->
  is_power_on (ePowerState m) = true ->
  current_in_range m = true ->
  nominal_index m = current_id m ->
  ring_wf m = true ->
  workload_clock_ok m ->
  0 < target_us m ->
  0 <= window_start_us m ->
  window_start_us m + target_us m <= host_us_at m 0 ->
  host_us_at m 0 <= host_us_at m 2 ->
  0 <= base_host_us m ->
  base_host_us m + (host_us_at m 2 - window_start_us m) < 2 ^ 64 ->
  let ticks := u64 (base_ticks m + u64 (hw_at m 1 - window_start_ticks m)) in
  let us := base_host_us m + (host_us_at m 2 - window_start_us m) in
  let hz := u32 (u64 (ticks * 1000000) / us) in
  let fresh := (hz =? 0) || (hz =? timing_ui32CoreClockSpeed m) in
  let clk := if fresh then timing_ui32CoreClockSpeed m else hz in
  exists m' rec,
    RGXGPUFreqCalibrateCorrelatePeriodic m = Ok tt m'
    /\ target_us m <= us
    /\ known_clock m' (current_id m) = Some clk
    /\ current_id m' = current_id m
    /\ accumulators m' = (0, 0)
    /\ target_us m'
       = (if fresh then RGX_GPU_DVFS_FIRST_CALIBRATION_TIME_US
          else if target_us m =? RGX_GPU_DVFS_FIRST_CALIBRATION_TIME_US
               then RGX_GPU_DVFS_TRANSITION_CALIBRATION_TIME_US
               else RGX_GPU_DVFS_PERIODIC_CALIBRATION_TIME_US)
    /\ ring m' !! Z.to_nat (next_slot m) = Some rec
    /\ ui32CoreClockSpeed rec = clk
    /\ seq_count m' = next_seq m
    /\ hPowerLock m' = false.
Proof.
  intros Hhw Hguest Hsrc Hfree Hon Hcur Hsame Hring Hwl Htgt Hstart0 Hdue Hmono
         Hbase Hfit ticks us hz fresh clk.
  set (locked := advance 1 [host_event_at m 0; EvTryLockAcquire true]
                   (set_lock true m)).
  assert (Hnom : nominal_in_range m = true)
    by (unfold nominal_in_range; rewrite Hsame; exact Hcur).
  assert (Hl : clock_source_valid locked = true
               /\ nominal_in_range locked = true
               /\ ring_wf locked = true
               /\ workload_clock_ok locked
               /\ next_seq locked = next_seq m
               /\ current_in_range locked = true
               /\ nominal_index locked = nominal_index m
               /\ timing_ui32CoreClockSpeed locked = timing_ui32CoreClockSpeed m
               /\ psGpuDVFSTable locked = psGpuDVFSTable m
               /\ hw_at locked 0 = hw_at m 1
               /\ host_us_at locked 1 = host_us_at m 2).
  { subst locked. destruct m. repeat split; assumption || reflexivity. }
  destruct Hl as (Hsrc_l & Hnom_l & Hring_l & Hwl_l & Hseq_l & Hcur_l & Hni_l
                  & Htim_l & Htab_l & Hhw_l & Hus_l).
  pose proof (_RGXGPUFreqCalibrationPeriodStop_run locked Hsrc_l) as Hstop.
  destruct (stopped_accumulators locked 2
              [EvReadHWTimerReg (hw_at locked 0); host_event_at locked 1])
    as [Eticks Eus].
  destruct (stopped_rest locked 2
              [EvReadHWTimerReg (hw_at locked 0); host_event_at locked 1])
    as (_ & _ & Eclk & Ecur & Etgt & _ & _ & _).
  set (ms := set_table _ _) in *.
  assert (Hstep_s : table_step locked ms) by apply stopped_step.
  assert (Eticks' : acc_ticks ms = ticks).
  { rewrite Eticks. unfold window_ticks, base_ticks, accumulate, acc_ticks.
    rewrite Htab_l, Hhw_l. reflexivity. }
  assert (Eus' : acc_host_us ms = us).
  { rewrite Eus. unfold window_host_us, base_host_us, accumulate, acc_host_us.
    rewrite Htab_l, Hus_l. fold (window_start_us m).
    pose proof (host_us_at_range m 2) as Hr.
    rewrite (u64_small (host_us_at m 2 - _)) by lia.
    apply u64_small. fold (acc_host_us m) (accumulate m) (base_host_us m).
    subst us. lia. }
  assert (Hus_pos : target_us m <= us) by (subst us; lia).
  assert (Hcur_s : current_in_range ms = true).
  { unfold current_in_range. fold (current_id ms). rewrite Eclk, Ecur. exact Hcur_l. }
  destruct (in_range_lookup _ _ Hcur_s) as [H0 [old Hold]].
  fold (current_id ms) in H0. fold (known_clock ms (current_id ms)) in Hold.
  assert (Hcalc : _RGXGPUFreqCalibrationCalculate ms
                  = Ok (calibrated_hz ms old) (calculated ms old)).
  { apply _RGXGPUFreqCalibrationCalculate_run; [exact H0 | exact Hold|].
    intros _. rewrite Eus'. lia. }
  assert (Ehz : calibrated_hz ms old = hz).
  { unfold calibrated_hz. rewrite Hhw, Eticks', Eus'. reflexivity. }
  rewrite Ehz in Hcalc.
  destruct (calculated_row ms old Hhw Hold) as (Crow & Ccur & Cacc & Ctgt).
  rewrite Ehz in Crow.
  set (mc := calculated ms old) in *.
  pose proof (table_step_trans _ _ _ Hstep_s (calculated_step ms old)) as Hstep_c.
  fold mc in Hstep_c.
  assert (Ecur_m : current_id ms = current_id m)
    by (rewrite Ecur; unfold current_id; rewrite Htab_l; reflexivity).
  assert (Eni_c : nominal_index mc = current_id m)
    by (rewrite (step_nominal_index _ _ Hstep_c), Hni_l; exact Hsame).
  assert (Etim_c : timing_ui32CoreClockSpeed mc = timing_ui32CoreClockSpeed m)
    by (rewrite (step_timing _ _ Hstep_c); exact Htim_l).
  destruct (start_then_record mc true)
    as (known & slot0 & clk0 & Hknown & Hslot & Hclk & Hstart & Hmake).
  { rewrite (step_clock_source_valid _ _ Hstep_c). exact Hsrc_l. }
  { rewrite (step_nominal_in_range _ _ Hstep_c). exact Hnom_l. }
  { rewrite (step_ring_wf _ _ Hstep_c). exact Hring_l. }
  { apply (step_workload_clock_ok locked); assumption. }
  assert (Eknown : known = hz).
  { rewrite Eni_c, <- Ecur_m, Crow in Hknown. injection Hknown as <-. reflexivity. }
  subst known.
  assert (Efresh : uncalibrated mc hz = fresh)
    by (unfold uncalibrated; rewrite Etim_c; reflexivity).
  pose proof (started_row mc hz Hknown) as Hrow.
  rewrite Efresh, Etim_c in Hrow. fold clk in Hrow.
  rewrite Hrow in Hclk. injection Hclk as <-.
  pose proof (started_target mc hz) as Stgt. rewrite Efresh in Stgt.
  destruct (started_window mc hz) as (_ & _ & _ & Sacc).
  pose proof (started_current mc hz) as Scur.
  set (m2 := started mc hz) in *.
  pose proof (started_step mc hz) as Hstep2. fold m2 in Hstep2.
  set (m3 := made m2 true slot0 clk) in *.
  pose proof (made_table m2 true slot0 clk) as Mtab. fold m3 in Mtab.
  assert (Eslot : next_slot m2 = next_slot m).
  { unfold next_slot.
    rewrite (step_next_seq _ _ Hstep2), (step_next_seq _ _ Hstep_c), Hseq_l.
    reflexivity. }
  exists (advance 0 [EvPowerUnlock] (set_lock false m3)), (made_record m2 slot0 clk).
  split.
  { unfold RGXGPUFreqCalibrateCorrelatePeriodic.
    rewrite (bind_Ok _ _ _ _ _ (RGXGPUFreqCalibrateClockus64_run m Hsrc)).
    rewrite unless_guest_host by (destruct m; exact Hguest).
    rewrite !bind_gets_table.
    assert (Hlocked : OSTryLockAcquire (advance 1 [host_event_at m 0] m)
                      = Ok true locked).
    { rewrite OSTryLockAcquire_free by (destruct m; exact Hfree).
      subst locked. destruct m. cbn. rewrite <- app_assoc. reflexivity. }
    assert (Hcond : (u64 (host_us_at m 0
                          - ui64CalibrationOSTimestamp
                              (psGpuDVFSTable (advance 1 [host_event_at m 0] m)))
                     <? ui32CalibrationPeriod
                          (psGpuDVFSTable (advance 1 [host_event_at m 0] m)))
                    = false).
    { apply Z.ltb_ge.
      replace (psGpuDVFSTable (advance 1 [host_event_at m 0] m))
        with (psGpuDVFSTable m) by (destruct m; reflexivity).
      fold (window_start_us m) (target_us m).
      pose proof (host_us_at_range m 0) as Hr.
      rewrite u64_small by lia. lia. }
    rewrite Hcond, (bind_Ok _ _ _ _ _ Hlocked). cbn [negb].
    unfold PVRSRVGetDevicePowerState. rewrite bind_gets.
    replace (ePowerState locked) with (ePowerState m) by (destruct m; reflexivity).
    rewrite Hon. cbn [negb].
    rewrite (bind_Ok _ _ _ _ _ Hstop), (bind_Ok _ _ _ _ _ Hcalc).
    rewrite (bind_Ok _ _ _ _ _ Hstart), (bind_Ok _ _ _ _ _ Hmake).
    apply PVRSRVPowerUnlock_run. }
  split; [exact Hus_pos|].
  assert (Hout : forall X (f : RGX_GPU_DVFS_TABLE -> X),
             f (psGpuDVFSTable (advance 0 [EvPowerUnlock] (set_lock false m3)))
             = f (psGpuDVFSTable m2)).
  { intros X f. rewrite <- Mtab. destruct m3. reflexivity. }
  split.
  { unfold known_clock.
    rewrite (Hout _ (fun t => aui32DVFSClock t !! Z.to_nat (current_id m))).
    fold (known_clock m2 (current_id m)). rewrite <- Eni_c. exact Hrow. }
  split.
  { unfold current_id at 1. rewrite (Hout _ ui32CurrentDVFSId).
    fold (current_id m2). rewrite Scur. exact Eni_c. }
  split.
  { unfold accumulators, acc_ticks, acc_host_us.
    rewrite (Hout _ ui64CalibrationCRTimediff), (Hout _ ui64CalibrationOSTimediff).
    fold (acc_ticks m2) (acc_host_us m2). fold (accumulators m2).
    rewrite Sacc. exact Cacc. }
  split.
  { unfold target_us at 1. rewrite (Hout _ ui32CalibrationPeriod).
    fold (target_us m2). rewrite Stgt, Ctgt, Etgt.
    unfold target_us at 1. rewrite Htab_l. reflexivity. }
  assert (Hfw : psRGXFWIfGpuUtilFWCb (advance 0 [EvPowerUnlock] (set_lock false m3))
                = psRGXFWIfGpuUtilFWCb m3) by (destruct m3; reflexivity).
  split.
  { unfold ring. rewrite Hfw. fold (ring m3). rewrite <- Eslot.
    apply made_slot.
    rewrite (step_next_slot _ _ Hstep2), (step_ring _ _ Hstep2). exact Hslot. }
  split; [reflexivity|].
  split.
  { unfold seq_count. rewrite Hfw. fold (seq_count m3). subst m3.
    rewrite made_seq_count, (step_next_seq _ _ Hstep2), (step_next_seq _ _ Hstep_c).
    exact Hseq_l. }
  destruct m3; reflexivity.
Qed.

End Periodic_recalibration.

(** ** Invariants of the table and the ring *)

Section Keeps.
Context {R : Machine -> Machine -> Prop}.
Hypothesis R_refl : forall m, R m m.
Hypothesis R_trans : forall m1 m2 m3, R m1 m2 -> R m2 m3 -> R m1 m3.

Lemma keeps_ret {A} (a : A) : keeps R (ret a).
Proof. intros m a' m' H. injection H as _ <-. apply R_refl. Qed.

Lemma keeps_bind {A B} (c : M A) (k : A -> M B) :
  keeps R c -> (forall a, keeps R (k a)) -> keeps R (bind c k).
Proof.
  intros Hc Hk m b m' H.
  apply bind_inv in H as (a & m1 & H1 & H2).
  exact (R_trans _ _ _ (Hc _ _ _ H1) (Hk _ _ _ _ H2)).
Qed.

Lemma keeps_unless_guest {A} (dflt : A) (body : M A) :
  keeps R body -> keeps R (unless_guest dflt body).
Proof.
  intros Hb m a m' H. unfold unless_guest in H. rewrite bind_gets in H.
  destruct (is_guest _); [injection H as _ <-; apply R_refl | exact (Hb _ _ _ H)].
Qed.

(** A relation that only looks at the observation [view] is kept by what
    preserves that observation. *)
Lemma keeps_view {X A} (view : Machine -> X) (c : M A) :
  (forall m m', view m' = view m -> R m m') -> preserves view c -> keeps R c.
Proof. intros Hv Hc m a m' H. apply Hv. exact (Hc _ _ _ H). Qed.

End Keeps.

Lemma load_inv {A} (l : list A) (i : Z) (v : A) (m m' : Machine) :
  load l i m = Ok v m' -> m' = m /\ 0 <= i /\ l !! Z.to_nat i = Some v.
Proof.
  unfold load. destruct (Z.leb_spec 0 i) as [Hi|]; [|discriminate].
  destruct (l !! Z.to_nat i) eqn:E; [|discriminate].
  intros H. injection H as <- <-. repeat split; assumption.
Qed.

Lemma update_inv {A} (f : A -> A) (l l' : list A) (i : Z) (m m' : Machine) :
  update f l i m = Ok l' m' ->
  m' = m /\ exists v, l' = <[Z.to_nat i := f v]> l.
Proof.
  unfold update. intros H. apply bind_inv in H as (v & m1 & Hload & H).
  apply load_inv in Hload as (-> & _ & _). injection H as <- <-.
  split; [reflexivity | exists v; reflexivity].
Qed.

Section Rows_kept.
Context `{P : Platform}.

Lemma rows_step_refl (m : Machine) : rows_step m m.
Proof. repeat split; auto. Qed.

Lemma rows_step_trans (m1 m2 m3 : Machine) :
  rows_step m1 m2 -> rows_step m2 m3 -> rows_step m1 m3.
Proof.
  intros (Ht1 & He1 & Hl1 & Hr1 & Hc1 & Hp1 & Hk1)
         (Ht2 & He2 & Hl2 & Hr2 & Hc2 & Hp2 & Hk2).
  assert (Hn : nominal_index m2 = nominal_index m1)
    by (unfold nominal_index; rewrite Ht1; reflexivity).
  split; [congruence|]. split; [congruence|].
  split; [congruence|]. split; [congruence|].
  split.
  { rewrite Hn in Hc2. destruct Hc1 as [E|E], Hc2 as [E'|E']; rewrite ?E', ?E; auto. }
  split.
  { destruct Hp2 as [E|Hp2]; [rewrite E; exact Hp1 | right; exact Hp2]. }
  intros i Hi Hj. rewrite Hn in Hk2.
  rewrite Hk2; [apply Hk1; assumption | | exact Hj].
  destruct Hc1 as [E|E]; rewrite E; assumption.
Qed.

Lemma rows_view_step (m m' : Machine) : rows_view m' = rows_view m -> rows_step m m'.
Proof.
  unfold rows_view, rows_step, nominal_index, current_id, target_us, ring.
  intros E. injection E as -> -> -> -> -> ->. repeat split; auto.
Qed.

Lemma keeps_rows_view {A} (c : M A) : preserves rows_view c -> keeps rows_step c.
Proof. apply keeps_view. exact rows_view_step. Qed.

Lemma stop_keeps_rows : keeps rows_step _RGXGPUFreqCalibrationPeriodStop.
Proof.
  apply keeps_rows_view. unfold _RGXGPUFreqCalibrationPeriodStop. frame.
Qed.

Lemma calculate_keeps_rows : keeps rows_step _RGXGPUFreqCalibrationCalculate.
Proof.
  unfold _RGXGPUFreqCalibrationCalculate. destruct NO_HARDWARE.
  { apply keeps_rows_view. frame. }
  intros m hz m' H.
  rewrite !bind_gets_table in H.
  apply bind_inv in H as (qr & m0 & Hdiv & H).
  assert (m0 = m) as ->.
  { unfold RGXFWIF_GET_GPU_CLOCK_FREQUENCY_HZ, OSDivide64r64 in Hdiv.
    destruct (_ =? 0); [discriminate Hdiv|]. injection Hdiv as _ <-. reflexivity. }
  rewrite !bind_gets_table in H.
  apply bind_inv in H as (old & m1 & Hload & H).
  apply load_inv in Hload as (-> & Hi & Hold).
  unfold PVR_DPF in H. rewrite bind_emit in H.
  apply bind_inv in H as (clocks' & m2 & Hstore & H).
  apply update_inv in Hstore as (-> & v & ->).
  rewrite !bind_modify_table in H. injection H as _ <-.
  destruct m as [? [] [] ? ? ? ? ? ? ?]. unfold rows_step. cbn in *.
  split; [reflexivity|]. split; [reflexivity|].
  split; [apply length_insert|]. split; [reflexivity|].
  split; [left; reflexivity|]. split; [left; reflexivity|].
  intros i Hc _. apply list_lookup_insert_ne. intros E. apply Hc. symmetry. exact E.
Qed.

Lemma start_keeps_rows : keeps rows_step _RGXGPUFreqCalibrationPeriodStart.
Proof.
  intros m [] m' H. unfold _RGXGPUFreqCalibrationPeriodStart in H.
  rewrite bind_gets in H.
  apply bind_inv in H as (cr & m0 & Hcr & H).
  apply bind_inv in H as (os & m1 & Hos & H).
  assert (Hview : rows_view m1 = rows_view m).
  { assert (H0 : preserves rows_view RGXReadHWTimerReg) by frame.
    assert (H1 : preserves rows_view RGXGPUFreqCalibrateClockus64) by frame.
    rewrite (H1 _ _ _ Hos). exact (H0 _ _ _ Hcr). }
  apply (rows_step_trans _ m1); [apply rows_view_step; exact Hview|].
  assert (Htim : timing_ui32CoreClockSpeed m1 = timing_ui32CoreClockSpeed m)
    by (unfold rows_view in Hview; congruence).
  clear Hview Hcr Hos. rewrite <- Htim in H. clear Htim m m0.
  rewrite !bind_modify_table, !bind_gets_table in H.
  apply bind_inv in H as (known & m2 & Hload & H).
  apply load_inv in Hload as (-> & Hi & Hknown).
  rewrite bind_gets_table in H.
  apply bind_inv in H as ([] & m3 & Hif & H).
  unfold modify_table, modify in H. injection H as <-.
  destruct (_ || _).
  - apply bind_inv in Hif as (clocks' & m4 & Hstore & Hif).
    apply update_inv in Hstore as (-> & v & ->).
    rewrite !bind_modify_table in Hif. unfold PVR_DPF in Hif.
    rewrite emit_run in Hif. injection Hif as <-.
    destruct m1 as [? [] [] ? ? ? ? ? ? ?]. unfold rows_step, nominal_index. cbn in *.
    split; [reflexivity|]. split; [reflexivity|].
    split; [apply length_insert|]. split; [reflexivity|].
    split; [right; reflexivity|]. split; [right; left; reflexivity|].
    intros i _ Hn. apply list_lookup_insert_ne. intros E. apply Hn. symmetry. exact E.
  - match goal with |- rows_step _ ?x => set (m' := x) end.
    assert (E : aui32DVFSClock (psGpuDVFSTable m') = aui32DVFSClock (psGpuDVFSTable m1)
                /\ current_id m' = nominal_index m1
                /\ timing_ui32CoreClockSpeed m' = timing_ui32CoreClockSpeed m1
                /\ env m' = env m1
                /\ ring m' = ring m1
                /\ (target_us m' = RGX_GPU_DVFS_TRANSITION_CALIBRATION_TIME_US
                    \/ target_us m' = RGX_GPU_DVFS_PERIODIC_CALIBRATION_TIME_US)).
    { subst m'.
      destruct (_ =? _); unfold modify_table, modify in Hif; injection Hif as <-;
        destruct m1 as [? [] [] ? ? ? ? ? ? ?]; repeat split;
        try reflexivity; [left | right]; reflexivity. }
    destruct E as (Ec & Ei & Et & Ee & Er & Ep).
    unfold rows_step. rewrite Ec, Et, Er.
    split; [reflexivity|]. split; [exact Ee|].
    split; [reflexivity|]. split; [reflexivity|].
    split; [right; exact Ei|].
    split; [right; right; exact Ep|]. intros; reflexivity.
Qed.

Lemma write_TimeCorr_keeps_rows (slot : Z) (f : RGXFWIF_TIME_CORR -> RGXFWIF_TIME_CORR) :
  keeps rows_step (write_TimeCorr slot f).
Proof.
  intros m [] m' H. unfold write_TimeCorr in H.
  rewrite bind_gets in H.
  apply bind_inv in H as (ring' & m1 & Hupd & H).
  apply update_inv in Hupd as (-> & v & ->).
  unfold modify_fwcb, modify in H. injection H as <-.
  destruct m as [? [] [] ? ? ? ? ? ? ?]. unfold rows_step. cbn.
  split; [reflexivity|]. split; [reflexivity|].
  split; [reflexivity|]. split; [apply length_insert|].
  split; [left; reflexivity|]. split; [left; reflexivity|]. intros; reflexivity.
Qed.

End Rows_kept.

Create HintDb keep.

#[export] Hint Resolve stop_keeps_rows calculate_keeps_rows start_keeps_rows
  write_TimeCorr_keeps_rows : keep.

(** Decompose a computation along its binds and branches, down to the three
    routines that write to an array and to steps that leave the table and
    the ring as they are. *)
Ltac keep_step :=
  match goal with
  | |- keeps rows_step (bind _ _) =>
      apply (keeps_bind rows_step_trans); [|intros ?]
  | |- keeps rows_step (unless_guest _ _) =>
      apply (keeps_unless_guest rows_step_refl)
  | |- keeps rows_step (if ?b then _ else _) => destruct b
  | |- keeps rows_step _ => solve [auto with keep]
  | |- keeps rows_step _ => apply keeps_rows_view; solve [frame]
  end.

Ltac keep := repeat keep_step.

Section Well_formed.
Context `{P : Platform}.

Lemma record_keeps_rows (b : bool) : keeps rows_step (_RGXMakeTimeCorrData b).
Proof. unfold _RGXMakeTimeCorrData. keep. Qed.

Lemma pre_clock_source_change_keeps_rows :
  keeps rows_step _RGXGPUFreqCalibratePreClockSourceChange.
Proof. unfold _RGXGPUFreqCalibratePreClockSourceChange. keep. Qed.

Lemma post_clock_source_change_keeps_rows :
  keeps rows_step _RGXGPUFreqCalibratePostClockSourceChange.
Proof.
  pose proof (record_keeps_rows true).
  unfold _RGXGPUFreqCalibratePostClockSourceChange. keep.
Qed.

Lemma periodic_keeps_rows : keeps rows_step RGXGPUFreqCalibrateCorrelatePeriodic.
Proof.
  pose proof (record_keeps_rows true).
  unfold RGXGPUFreqCalibrateCorrelatePeriodic, OSTryLockAcquire, PVRSRVPowerUnlock,
    PVRSRVGetDevicePowerState.
  keep.
Qed.

Lemma set_clock_keeps_rows (ui32Value : Z) : keeps rows_step (_SetClock ui32Value).
Proof.
  pose proof pre_clock_source_change_keeps_rows.
  pose proof post_clock_source_change_keeps_rows.
  unfold _SetClock. keep.
Qed.

Lemma pre_power_off_keeps_rows : keeps rows_step RGXGPUFreqCalibratePrePowerOff.
Proof. unfold RGXGPUFreqCalibratePrePowerOff. keep. Qed.

Lemma post_power_on_keeps_rows : keeps rows_step RGXGPUFreqCalibratePostPowerOn.
Proof.
  pose proof (record_keeps_rows false).
  unfold RGXGPUFreqCalibratePostPowerOn. keep.
Qed.

Lemma pre_clock_speed_change_keeps_rows :
  keeps rows_step RGXGPUFreqCalibratePreClockSpeedChange.
Proof. unfold RGXGPUFreqCalibratePreClockSpeedChange. keep. Qed.

Lemma post_clock_speed_change_keeps_rows (ui32NewClockSpeed : Z) :
  keeps rows_step (RGXGPUFreqCalibratePostClockSpeedChange ui32NewClockSpeed).
Proof.
  pose proof (record_keeps_rows true).
  unfold RGXGPUFreqCalibratePostClockSpeedChange. keep.
Qed.

Lemma hooks_preserve_clock_source :
  preserves g_ui32ClockSource RGXGPUFreqCalibratePrePowerOff
  /\ preserves g_ui32ClockSource RGXGPUFreqCalibratePostPowerOn
  /\ preserves g_ui32ClockSource RGXGPUFreqCalibratePreClockSpeedChange
  /\ (forall ui32NewClockSpeed,
         preserves g_ui32ClockSource
           (RGXGPUFreqCalibratePostClockSpeedChange ui32NewClockSpeed))
  /\ preserves g_ui32ClockSource RGXGPUFreqCalibrateCorrelatePeriodic.
Proof.
  pose proof stop_preserves_clock_source.
  pose proof calculate_preserves_clock_source.
  pose proof start_preserves_clock_source.
  pose proof (record_preserves_clock_source true).
  pose proof (record_preserves_clock_source false).
  split; [unfold RGXGPUFreqCalibratePrePowerOff; frame; assumption|].
  split; [unfold RGXGPUFreqCalibratePostPowerOn; frame; assumption|].
  split; [unfold RGXGPUFreqCalibratePreClockSpeedChange; frame; assumption|].
  split; [intros s; unfold RGXGPUFreqCalibratePostClockSpeedChange; frame; assumption|].
  unfold RGXGPUFreqCalibrateCorrelatePeriodic, OSTryLockAcquire, PVRSRVPowerUnlock,
    PVRSRVGetDevicePowerState.
  frame; assumption.
Qed.

(** Calibrating one frequency never disturbs another: whenever a lifecycle
    hook, the periodic hook or the clock-source setter returns, every row
    of the clock table other than the row that was current and the row of
    the nominal speed holds what it held, the table and the ring have kept
    their sizes, the nominal speed is unchanged, the current row is the one
    it was or the row of the nominal speed, and the target is the one it was
    or one of the three calibration times. *)
Theorem hooks_keep_other_rows :
  keeps rows_step RGXGPUFreqCalibratePrePowerOff
  /\ keeps rows_step RGXGPUFreqCalibratePostPowerOn
  /\ keeps rows_step RGXGPUFreqCalibratePreClockSpeedChange
  /\ (forall ui32NewClockSpeed,
         keeps rows_step (RGXGPUFreqCalibratePostClockSpeedChange ui32NewClockSpeed))
  /\ keeps rows_step RGXGPUFreqCalibrateCorrelatePeriodic
  /\ (forall eClockType,
         keeps rows_step (RGXGPUFreqCalibrateSetClockSource eClockType)).
Proof.
  split; [exact pre_power_off_keeps_rows|].
  split; [exact post_power_on_keeps_rows|].
  split; [exact pre_clock_speed_change_keeps_rows|].
  split; [exact post_clock_speed_change_keeps_rows|].
  split; [exact periodic_keeps_rows|].
  intros v. exact (set_clock_keeps_rows v).
Qed.

Lemma rows_step_well_formed (m m' : Machine) :
  rows_step m m' ->
  clock_source_valid m' = true ->
  well_formed m = true ->
  well_formed m' = true.
Proof.
  intros (Ht & _ & Hl & Hr & Hc & _ & _) Hsrc Hwf.
  unfold well_formed in *.
  apply andb_true_iff in Hwf as [Hwf Hring].
  apply andb_true_iff in Hwf as [Hwf Hnom].
  apply andb_true_iff in Hwf as [_ Hcur].
  assert (Hnom' : nominal_in_range m' = true).
  { unfold nominal_in_range, nominal_index, in_range in *. rewrite Ht, Hl. exact Hnom. }
  assert (Hcur' : current_in_range m' = true).
  { unfold current_in_range, nominal_in_range, in_range in *.
    fold (current_id m') (current_id m) in *. rewrite Hl.
    destruct Hc as [E|E]; rewrite E; assumption. }
  assert (Hring' : ring_wf m' = true)
    by (unfold ring_wf in *; rewrite Hr; exact Hring).
  rewrite Hsrc, Hcur', Hnom', Hring'. reflexivity.
Qed.

Lemma valid_of_same_source (m m' : Machine) :
  g_ui32ClockSource m' = g_ui32ClockSource m ->
  well_formed m = true -> clock_source_valid m' = true.
Proof.
  intros E Hwf. unfold well_formed in Hwf.
  apply andb_true_iff in Hwf as [Hwf _].
  apply andb_true_iff in Hwf as [Hwf _].
  apply andb_true_iff in Hwf as [Hsrc _].
  unfold clock_source_valid in *. rewrite E. exact Hsrc.
Qed.

Lemma set_clock_valid_source (m m' : Machine) (v : Z) (e : PVRSRV_ERROR) :
  0 <= v ->
  _SetClock v m = Ok e m' ->
  well_formed m = true ->
  clock_source_valid m' = true.
Proof.
  intros Hv H Hwf. unfold _SetClock in H.
  destruct (Z.leb_spec RGXTIMECORR_CLOCK_LAST v) as [Hbad|Hok].
  - unfold PVR_DPF in H. rewrite bind_emit in H. injection H as _ <-.
    apply (valid_of_same_source m); [destruct m; reflexivity | exact Hwf].
  - apply bind_inv in H as ([] & m1 & Hpre & H).
    rewrite bind_gets in H. unfold PVR_DPF in H.
    rewrite bind_emit, bind_modify in H.
    apply bind_inv in H as ([] & m3 & Hpost & H).
    injection H as _ <-.
    pose proof (post_clock_source_change_preserves_clock_source _ _ _ Hpost) as E.
    unfold clock_source_valid. rewrite E.
    replace (g_ui32ClockSource (set_ClockSource v _)) with v
      by (destruct m1; reflexivity).
    apply andb_true_iff. split; [apply Z.leb_le | apply Z.ltb_lt]; lia.
Qed.

(** Well-formedness is an invariant of the entry points: whenever a
    lifecycle hook or the periodic hook returns on a well-formed device, or
    the clock-source setter does for any unsigned value, valid or not, the
    device is well-formed again, so the next call finds a valid clock
    source, rows inside the table and a ring of the right size. *)
Theorem entry_points_keep_well_formed (m m' : Machine) :
  well_formed m = true ->
  RGXGPUFreqCalibratePrePowerOff m = Ok tt m'
  \/ RGXGPUFreqCalibratePostPowerOn m = Ok tt m'
  \/ RGXGPUFreqCalibratePreClockSpeedChange m = Ok tt m'
  \/ (exists ui32NewClockSpeed hz,
         RGXGPUFreqCalibratePostClockSpeedChange ui32NewClockSpeed m = Ok hz m')
  \/ RGXGPUFreqCalibrateCorrelatePeriodic m = Ok tt m'
  \/ (exists eClockType e,
         0 <= eClockType
         /\ RGXGPUFreqCalibrateSetClockSource eClockType m = Ok e m') ->
  well_formed m' = true.
Proof.
  intros Hwf H.
  destruct hooks_preserve_clock_source as (S1 & S2 & S3 & S4 & S5).
  destruct H as [H|[H|[H|[(s & hz & H)|[H|(v & e & Hv & H)]]]]].
  - apply (rows_step_well_formed m); [exact (pre_power_off_keeps_rows _ _ _ H) | | exact Hwf].
    exact (valid_of_same_source _ _ (S1 _ _ _ H) Hwf).
  - apply (rows_step_well_formed m); [exact (post_power_on_keeps_rows _ _ _ H) | | exact Hwf].
    exact (valid_of_same_source _ _ (S2 _ _ _ H) Hwf).
  - apply (rows_step_well_formed m);
      [exact (pre_clock_speed_change_keeps_rows _ _ _ H) | | exact Hwf].
    exact (valid_of_same_source _ _ (S3 _ _ _ H) Hwf).
  - apply (rows_step_well_formed m);
      [exact (post_clock_speed_change_keeps_rows _ _ _ _ H) | | exact Hwf].
    exact (valid_of_same_source _ _ (S4 _ _ _ _ H) Hwf).
  - apply (rows_step_well_formed m); [exact (periodic_keeps_rows _ _ _ H) | | exact Hwf].
    exact (valid_of_same_source _ _ (S5 _ _ _ H) Hwf).
  - apply (rows_step_well_formed m); [exact (set_clock_keeps_rows _ _ _ _ H) | | exact Hwf].
    exact (set_clock_valid_source _ _ _ _ Hv H Hwf).
Qed.

End Well_formed.

(** ** The lifecycle hooks never fault *)

Section Progress.
Context `{P : Platform}.

Lemma well_formed_parts (m : Machine) :
  well_formed m = true ->
  clock_source_valid m = true /\ current_in_range m = true
  /\ nominal_in_range m = true /\ ring_wf m = true.
Proof.
  unfold well_formed. intros H.
  apply andb_true_iff in H as [H H4].
  apply andb_true_iff in H as [H H3].
  apply andb_true_iff in H as [H1 H2]. auto.
Qed.

Lemma ready_kept (m m' : Machine) :
  0 < RGX_GPU_DVFS_FIRST_CALIBRATION_TIME_US ->
  0 < RGX_GPU_DVFS_TRANSITION_CALIBRATION_TIME_US ->
  0 < RGX_GPU_DVFS_PERIODIC_CALIBRATION_TIME_US ->
  rows_step m m' ->
  clock_source_valid m' = true ->
  ready m = true ->
  workload_clock_ok m ->
  ready m' = true /\ workload_clock_ok m'.
Proof.
  intros H1 H2 H3 Hstep Hsrc Hready Hwl.
  unfold ready in *. apply andb_true_iff in Hready as [Hwf Htgt].
  apply Z.ltb_lt in Htgt.
  rewrite (rows_step_well_formed _ _ Hstep Hsrc Hwf).
  destruct Hstep as (_ & He & _ & _ & _ & Hp & _).
  split.
  - apply Z.ltb_lt. destruct Hp as [E|[E|[E|E]]]; rewrite E; assumption.
  - unfold workload_clock_ok in *. rewrite He. exact Hwl.
Qed.

(** A window started and a record written, on a machine that differs from
    a well-formed one only where [table_step] allows. *)
Lemma start_and_record_run (m0 m : Machine) (b : bool) :
  table_step m0 m ->
  well_formed m0 = true ->
  workload_clock_ok m0 ->
  exists m2 m3,
    _RGXGPUFreqCalibrationPeriodStart m = Ok tt m2
    /\ _RGXMakeTimeCorrData b m2 = Ok tt m3.
Proof.
  intros Hstep Hwf Hwl.
  destruct (well_formed_parts m0 Hwf) as (Hsrc & _ & Hnom & Hring).
  destruct (start_then_record m b)
    as (known & old & clk & _ & _ & _ & Hstart & Hmake).
  { rewrite (step_clock_source_valid _ _ Hstep). exact Hsrc. }
  { rewrite (step_nominal_in_range _ _ Hstep). exact Hnom. }
  { rewrite (step_ring_wf _ _ Hstep). exact Hring. }
  { apply (step_workload_clock_ok m0); assumption. }
  eauto.
Qed.

Lemma set_accumulate_step (m : Machine) (b : bool) (evs : list event) :
  table_step m (advance 0 evs (set_accumulate b m)).
Proof. destruct m as [? [] ? ? ? ? ? ? ? ?]. constructor; reflexivity. Qed.

Lemma post_power_on_run (m : Machine) :
  well_formed m = true ->
  workload_clock_ok m ->
  exists m', RGXGPUFreqCalibratePostPowerOn m = Ok tt m'.
Proof.
  intros Hwf Hwl. unfold RGXGPUFreqCalibratePostPowerOn. rewrite bind_gets.
  destruct (is_guest (eDriverMode m)) eqn:G.
  { eexists. apply unless_guest_guest. exact G. }
  rewrite (unless_guest_host _ _ _ G), bind_gets_table, bind_modify_table.
  set (b := _ =? _).
  destruct CONFIG_MACH_MT6799.
  - rewrite bind_emit.
    destruct (start_and_record_run m _ false
                (set_accumulate_step m b [EvMTKQueryPowerState 1]) Hwf Hwl)
      as (m2 & m3 & Hstart & Hmake).
    exists m3. unfold set_accumulate in Hstart.
    rewrite (bind_Ok _ _ _ _ _ Hstart). exact Hmake.
  - rewrite bind_ret.
    destruct (start_and_record_run m (set_accumulate b m) false) as (m2 & m3 & Hstart & Hmake);
      [|exact Hwf|exact Hwl|].
    { destruct m as [? [] ? ? ? ? ? ? ? ?]. constructor; reflexivity. }
    exists m3. unfold set_accumulate in Hstart.
    rewrite (bind_Ok _ _ _ _ _ Hstart). exact Hmake.
Qed.

Lemma post_clock_source_change_run (m0 m : Machine) :
  table_step m0 m ->
  well_formed m0 = true ->
  workload_clock_ok m0 ->
  exists m', _RGXGPUFreqCalibratePostClockSourceChange m = Ok tt m'.
Proof.
  intros Hstep Hwf Hwl. unfold _RGXGPUFreqCalibratePostClockSourceChange.
  destruct (is_guest (eDriverMode m)) eqn:G.
  { eexists. apply unless_guest_guest. exact G. }
  rewrite (unless_guest_host _ _ _ G), bind_modify_table.
  destruct (start_and_record_run m0 (set_accumulate true m) true)
    as (m2 & m3 & Hstart & Hmake); [|exact Hwf|exact Hwl|].
  { apply (table_step_trans _ m); [exact Hstep|].
    destruct m as [? [] ? ? ? ? ? ? ? ?]. constructor; reflexivity. }
  exists m3. unfold set_accumulate in Hstart.
  rewrite (bind_Ok _ _ _ _ _ Hstart). exact Hmake.
Qed.

Lemma post_clock_speed_change_run (m : Machine) (ui32NewClockSpeed : Z) :
  0 < RGX_GPU_DVFS_TRANSITION_CALIBRATION_TIME_US ->
  well_formed m = true ->
  workload_clock_ok m ->
  exists hz m', RGXGPUFreqCalibratePostClockSpeedChange ui32NewClockSpeed m = Ok hz m'.
Proof.
  intros Hpos Hwf Hwl. unfold RGXGPUFreqCalibratePostClockSpeedChange.
  destruct (is_guest (eDriverMode m)) eqn:G.
  { eexists _, _. apply unless_guest_guest. exact G. }
  rewrite (unless_guest_host _ _ _ G), bind_gets_table.
  destruct (negb _).
  2:{ rewrite bind_modify_table. eexists _, _. reflexivity. }
  rewrite bind_gets_table. fold (acc_host_us m).
  destruct (well_formed_parts m Hwf) as (_ & Hcur & _ & _).
  destruct (in_range_lookup _ _ Hcur) as [H0 [old Hold]].
  assert (Hfirst : exists hz m1,
             (if RGX_GPU_DVFS_TRANSITION_CALIBRATION_TIME_US <=? acc_host_us m
              then _RGXGPUFreqCalibrationCalculate
              else ret ui32NewClockSpeed) m = Ok hz m1
             /\ table_step m m1).
  { destruct (Z.leb_spec RGX_GPU_DVFS_TRANSITION_CALIBRATION_TIME_US (acc_host_us m)).
    - exists (calibrated_hz m old), (calculated m old).
      split; [|apply calculated_step].
      apply _RGXGPUFreqCalibrationCalculate_run; [exact H0 | exact Hold | lia].
    - exists ui32NewClockSpeed, m. split; [reflexivity | apply table_step_refl]. }
  destruct Hfirst as (hz & m1 & Hcalc & Hstep).
  destruct (start_and_record_run m m1 true Hstep Hwf Hwl) as (m2 & m3 & Hstart & Hmake).
  rewrite (bind_Ok _ _ _ _ _ Hcalc), (bind_Ok _ _ _ _ _ Hstart).
  rewrite (bind_Ok _ _ _ _ _ Hmake), bind_modify_table.
  eexists _, _. reflexivity.
Qed.

Lemma pre_hooks_total (m : Machine) :
  ready m = true ->
  exists m1,
    _RGXGPUFreqCalibratePreClockSourceChange m = Ok tt m1
    /\ RGXGPUFreqCalibratePrePowerOff m = Ok tt m1
    /\ table_step m m1.
Proof.
  intros Hready. unfold ready in Hready.
  apply andb_true_iff in Hready as [Hwf Htgt]. apply Z.ltb_lt in Htgt.
  destruct (well_formed_parts m Hwf) as (Hsrc & Hcur & _ & _).
  destruct (is_guest (eDriverMode m)) eqn:G.
  - exists m. split; [apply unless_guest_guest; exact G|].
    split; [apply unless_guest_guest; exact G | apply table_step_refl].
  - destruct (pre_hooks_run m G Hsrc Hcur Htgt) as (m1 & H1 & H2 & Hstep & _).
    exists m1. auto.
Qed.

Lemma set_clock_run (m : Machine) (ui32Value : Z) :
  0 <= ui32Value ->
  ready m = true ->
  workload_clock_ok m ->
  exists e m', _SetClock ui32Value m = Ok e m'.
Proof.
  intros Hv Hready Hwl. unfold _SetClock.
  destruct (Z.leb_spec RGXTIMECORR_CLOCK_LAST ui32Value) as [|Hlt].
  { unfold PVR_DPF. rewrite bind_emit. eexists _, _. reflexivity. }
  destruct (pre_hooks_total m Hready) as (m1 & Hpre & _ & Hstep).
  rewrite (bind_Ok _ _ _ _ _ Hpre), bind_gets. unfold PVR_DPF.
  rewrite bind_emit, bind_modify.
  apply andb_true_iff in Hready as [Hwf _].
  destruct (well_formed_parts m Hwf) as (_ & Hcur & Hnom & Hring).
  set (sw := set_ClockSource ui32Value _).
  set (m0 := set_ClockSource ui32Value m).
  assert (Hwf0 : well_formed m0 = true).
  { unfold well_formed.
    replace (clock_source_valid m0) with true.
    2:{ symmetry. subst m0. destruct m. unfold clock_source_valid. cbn.
        apply andb_true_iff. split; [apply Z.leb_le | apply Z.ltb_lt]; lia. }
    replace (current_in_range m0) with true by (subst m0; destruct m; auto).
    replace (nominal_in_range m0) with true by (subst m0; destruct m; auto).
    replace (ring_wf m0) with true by (subst m0; destruct m; auto).
    reflexivity. }
  assert (Hwl0 : workload_clock_ok m0) by (subst m0; destruct m; exact Hwl).
  assert (Hstep0 : table_step m0 sw).
  { subst sw m0. destruct Hstep. destruct m, m1.
    constructor; cbn in *; congruence. }
  destruct (post_clock_source_change_run m0 sw Hstep0 Hwf0 Hwl0) as (m' & Hpost).
  rewrite (bind_Ok _ _ _ _ _ Hpost). eexists _, _. reflexivity.
Qed.

(** On a device that is well-formed with a positive target, in a build
    whose three calibration times are positive, the lifecycle hooks and the
    clock-source setter always return, in the guest role or outside it: no
    row is read or written outside the table, no slot outside the ring, and
    no frequency is computed over a host time of zero.  The device they
    leave is again well-formed with a positive target, so this holds for any
    sequence of such calls. *)
Theorem lifecycle_hooks_never_fault (m : Machine) :
  0 < RGX_GPU_DVFS_FIRST_CALIBRATION_TIME_US ->
  0 < RGX_GPU_DVFS_TRANSITION_CALIBRATION_TIME_US ->
  0 < RGX_GPU_DVFS_PERIODIC_CALIBRATION_TIME_US ->
  ready m = true ->
  workload_clock_ok m ->
  (exists m',
      RGXGPUFreqCalibratePrePowerOff m = Ok tt m'
      /\ ready m' = true /\ workload_clock_ok m')
  /\ (exists m',
         RGXGPUFreqCalibratePostPowerOn m = Ok tt m'
         /\ ready m' = true /\ workload_clock_ok m')
  /\ (exists m',
         RGXGPUFreqCalibratePreClockSpeedChange m = Ok tt m'
         /\ ready m' = true /\ workload_clock_ok m')
  /\ (forall ui32NewClockSpeed, exists hz m',
         RGXGPUFreqCalibratePostClockSpeedChange ui32NewClockSpeed m = Ok hz m'
         /\ ready m' = true /\ workload_clock_ok m')
  /\ (forall eClockType, 0 <= eClockType -> exists e m',
         RGXGPUFreqCalibrateSetClockSource eClockType m = Ok e m'
         /\ ready m' = true /\ workload_clock_ok m').
Proof.
  intros H1 H2 H3 Hready Hwl.
  destruct hooks_preserve_clock_source as (S1 & S2 & S3 & S4 & _).
  assert (Hwf : well_formed m = true)
    by (unfold ready in Hready; apply andb_true_iff in Hready as [Hwf _]; exact Hwf).
  split.
  { destruct (pre_hooks_total m Hready) as (m' & _ & Hrun & _).
    exists m'. split; [exact Hrun|].
    apply (ready_kept m); try assumption.
    - exact (pre_power_off_keeps_rows _ _ _ Hrun).
    - exact (valid_of_same_source _ _ (S1 _ _ _ Hrun) Hwf). }
  split.
  { destruct (post_power_on_run m Hwf Hwl) as (m' & Hrun).
    exists m'. split; [exact Hrun|].
    apply (ready_kept m); try assumption.
    - exact (post_power_on_keeps_rows _ _ _ Hrun).
    - exact (valid_of_same_source _ _ (S2 _ _ _ Hrun) Hwf). }
  split.
  { assert (Hrun : exists m', RGXGPUFreqCalibratePreClockSpeedChange m = Ok tt m').
    { unfold RGXGPUFreqCalibratePreClockSpeedChange.
      destruct (is_guest (eDriverMode m)) eqn:G.
      - eexists. apply unless_guest_guest. exact G.
      - rewrite (unless_guest_host _ _ _ G). eexists.
        apply _RGXGPUFreqCalibrationPeriodStop_run.
        apply (well_formed_parts m Hwf). }
    destruct Hrun as (m' & Hrun).
    exists m'. split; [exact Hrun|].
    apply (ready_kept m); try assumption.
    - exact (pre_clock_speed_change_keeps_rows _ _ _ Hrun).
    - exact (valid_of_same_source _ _ (S3 _ _ _ Hrun) Hwf). }
  split.
  { intros s.
    destruct (post_clock_speed_change_run m s H2 Hwf Hwl) as (hz & m' & Hrun).
    exists hz, m'. split; [exact Hrun|].
    apply (ready_kept m); try assumption.
    - exact (post_clock_speed_change_keeps_rows _ _ _ _ Hrun).
    - exact (valid_of_same_source _ _ (S4 _ _ _ _ Hrun) Hwf). }
  intros v Hv.
  destruct (set_clock_run m v Hv Hready Hwl) as (e & m' & Hrun).
  exists e, m'. split; [exact Hrun|].
  apply (ready_kept m); try assumption.
  - exact (set_clock_keeps_rows _ _ _ _ Hrun).
  - exact (set_clock_valid_source _ _ _ _ Hv Hrun Hwf).
Qed.

End Progress.

(** ** Examples on the sample device, continued *)

(** Closed arithmetic and boolean side conditions, by evaluation. *)
Ltac by_evaluation :=
  first
    [ apply sample_workload_clock_ok
    | vm_compute; repeat split;
      solve [reflexivity | discriminate | intro; discriminate] ].

(** The sample device one minute into its window: the periodic hook takes
    the lock and gives it back. *)
Lemma periodic_restores_lock_example :
  exists m',
    @RGXGPUFreqCalibrateCorrelatePeriodic sample_platform due_machine = Ok tt m'
    /\ device_inputs m' = device_inputs due_machine.
Proof.
  assert (Hrun : { m' | @RGXGPUFreqCalibrateCorrelatePeriodic sample_platform due_machine
                        = Ok tt m' }).
  { eexists. vm_compute. reflexivity. }
  destruct Hrun as [m' Hrun].
  exists m'. split; [exact Hrun|].
  exact (@periodic_restores_lock sample_platform due_machine m' Hrun).
Defined.

(** The sample device stops its first window: a tenth of a second of ticks
    over 200 milliseconds of host time. *)
Lemma stop_counts_exactly_example :
  exists m',
    @_RGXGPUFreqCalibrationPeriodStop sample_platform sample_machine = Ok tt m'
    /\ acc_ticks m' = 100000000
    /\ acc_host_us m' = 200000.
Proof.
  destruct (@stop_counts_exactly sample_platform sample_machine)
    as (m' & Hrun & Ht & Hu & _); [by_evaluation .. | ].
  exists m'. split; [exact Hrun|]. split; [exact Ht | exact Hu].
Defined.

(** A window snapshot 700 milliseconds ahead of the clock. *)
Lemma stop_wraps_when_clock_reads_early_example :
  exists m',
    @_RGXGPUFreqCalibrationPeriodStop sample_platform late_start_machine = Ok tt m'
    /\ acc_host_us m' = 2 ^ 64 - 700000.
Proof.
  destruct (@stop_wraps_when_clock_reads_early sample_platform late_start_machine)
    as (m' & Hrun & Hu); [by_evaluation .. | ].
  exists m'. split; [exact Hrun | exact Hu].
Defined.

(** The retimed device moves from row 5 to row 3; the next stop counts the
    new window alone. *)
Lemma transition_discards_old_window_example :
  exists hz m' m2,
    @RGXGPUFreqCalibratePostClockSpeedChange sample_platform 300000000 retimed_machine
    = Ok hz m'
    /\ @RGXGPUFreqCalibratePreClockSpeedChange sample_platform m' = Ok tt m2
    /\ acc_ticks m2 = window_ticks m' 0
    /\ acc_host_us m2 = window_host_us m' 0.
Proof.
  assert (Hrun : { r : Z * Machine
                 | @RGXGPUFreqCalibratePostClockSpeedChange sample_platform 300000000
                     retimed_machine = Ok (fst r) (snd r) }).
  { eexists (_, _). vm_compute. reflexivity. }
  destruct Hrun as [[hz m'] Hrun]. cbn [fst snd] in Hrun.
  destruct (@transition_discards_old_window sample_platform retimed_machine m'
              300000000 hz Hrun)
    as (m2 & Hpre & Ht & Hu); [by_evaluation .. | ].
  exists hz, m', m2. repeat split; assumption.
Defined.

(** The sample device asked for the speed it runs at. *)
Lemma noop_transition_keeps_window_example :
  exists m1,
    @RGXGPUFreqCalibratePreClockSpeedChange sample_platform sample_machine = Ok tt m1
    /\ @RGXGPUFreqCalibratePostClockSpeedChange sample_platform 500000000 m1
       = Ok 500000000 (set_accumulate true m1)
    /\ window_start_us m1 = window_start_us sample_machine.
Proof.
  destruct (@noop_transition_keeps_window sample_platform sample_machine 500000000)
    as (m1 & m2 & Hpre & Hpost & _ & Hus & _); [by_evaluation .. | ].
  exists m1. repeat split; assumption.
Defined.

(** The sample device powered on. *)
Lemma power_on_resumes_window_example :
  exists m',
    @RGXGPUFreqCalibratePostPowerOn sample_platform sample_machine = Ok tt m'
    /\ accumulators m' = accumulators sample_machine
    /\ accumulate m' = true.
Proof.
  destruct (@power_on_resumes_window sample_platform sample_machine)
    as (m' & m2 & Hrun & Hacc & Hflag & _); [by_evaluation .. | ].
  exists m'. repeat split; assumption.
Defined.

(** Two records on the sample device go to slots 1 and 2. *)
Lemma consecutive_records_keep_previous_example :
  exists m1 m2 rec1,
    @_RGXMakeTimeCorrData sample_platform true sample_machine = Ok tt m1
    /\ @_RGXMakeTimeCorrData sample_platform true m1 = Ok tt m2
    /\ ring m2 !! Z.to_nat (@next_slot sample_platform sample_machine) = Some rec1
    /\ ui64CRTimeStamp rec1 = hw_at sample_machine 0.
Proof.
  destruct (@consecutive_records_keep_previous sample_platform sample_machine true true)
    as (m1 & m2 & rec1 & rec2 & H1 & H2 & _ & _ & Hkept & _ & Hcr & _); [by_evaluation .. | ].
  exists m1, m2, rec1. repeat split; assumption.
Defined.

(** The sample device records its nominal 500 MHz. *)
Lemma record_after_start_carries_row_example :
  exists m1 m2 rec,
    @_RGXGPUFreqCalibrationPeriodStart sample_platform sample_machine = Ok tt m1
    /\ @_RGXMakeTimeCorrData sample_platform true m1 = Ok tt m2
    /\ ring m2 !! Z.to_nat (@next_slot sample_platform sample_machine) = Some rec
    /\ ui32CoreClockSpeed rec <> 0.
Proof.
  destruct (@record_after_start_carries_row sample_platform sample_machine true)
    as (known & m1 & m2 & rec & _ & H1 & H2 & Hslot & _ & _ & Hnz & _); [by_evaluation .. | ].
  exists m1, m2, rec. repeat split; assumption.
Defined.

(** The sample device switched to the scheduler clock. *)
Lemma set_clock_succeeds_example :
  exists m',
    @_SetClock sample_platform RGXTIMECORR_CLOCK_SCHED sample_machine = Ok PVRSRV_OK m'
    /\ g_ui32ClockSource m' = RGXTIMECORR_CLOCK_SCHED
    /\ seq_count m' = 1.
Proof.
  destruct (@set_clock_succeeds sample_platform sample_machine RGXTIMECORR_CLOCK_SCHED)
    as (m' & rec & Hrun & Hsrc & _ & _ & _ & Hseq & _); [by_evaluation .. | ].
  exists m'. repeat split; assumption.
Defined.


(** The sample device one minute into its window: 601 tenths of a second of
    ticks over 60.2 seconds of host time. *)
Lemma periodic_recalibration_publishes_example :
  exists m' rec,
    @RGXGPUFreqCalibrateCorrelatePeriodic sample_platform due_machine = Ok tt m'
    /\ ring m' !! 1%nat = Some rec
    /\ ui32CoreClockSpeed rec = 998338870
    /\ known_clock m' 5 = Some 998338870.
Proof.
  destruct (@periodic_recalibration_publishes sample_platform due_machine)
    as (m' & rec & Hrun & _ & Hrow & _ & _ & _ & Hslot & Hclk & _); [by_evaluation .. | ].
  exists m', rec. split; [exact Hrun|]. split; [exact Hslot|].
  split; [exact Hclk | exact Hrow].
Defined.

(** The sample device is well-formed, and so it is after powering on. *)
Lemma entry_points_keep_well_formed_example :
  exists m',
    @RGXGPUFreqCalibratePostPowerOn sample_platform sample_machine = Ok tt m'
    /\ @well_formed sample_platform m' = true.
Proof.
  assert (Hrun : { m' | @RGXGPUFreqCalibratePostPowerOn sample_platform sample_machine
                        = Ok tt m' }).
  { eexists. vm_compute. reflexivity. }
  destruct Hrun as [m' Hrun].
  exists m'. split; [exact Hrun|].
  apply (@entry_points_keep_well_formed sample_platform sample_machine m').
  - reflexivity.
  - right. left. exact Hrun.
Defined.

(** Every hook returns on the sample device. *)
Lemma lifecycle_hooks_never_fault_example :
  (exists m', @RGXGPUFreqCalibratePrePowerOff sample_platform sample_machine = Ok tt m')
  /\ (exists hz m',
         @RGXGPUFreqCalibratePostClockSpeedChange sample_platform 300000000
           sample_machine = Ok hz m').
Proof.
  destruct (@lifecycle_hooks_never_fault sample_platform sample_machine)
    as ((m1 & H1 & _) & _ & _ & H4 & _); [by_evaluation .. | ].
  split; [exists m1; exact H1|].
  destruct (H4 300000000) as (hz & m' & Hrun & _).
  exists hz, m'. exact Hrun.
Defined.
